(** * Community Connect: data-access layer and request handlers

    A shallow embedding of
      - deliverables/deliverable2/database.py and deliverables/deliverable3/database.py
        (the data-access layer: connection handling, [execute_query], the
        CRUD operations, the reporting queries and the validation helpers),
      - deliverables/deliverable2/app.py (the Flask request handlers),
    together with the properties of the specification that concern them.

    Python strings are sequences of Unicode code points, SQL statements are
    embedded by their denotation on a database of typed rows, and the
    Python code that calls the storage engine runs in a small state and
    exception monad over a [World] holding the database, the faults the
    engine is going to raise, and a log of the engine calls made. *)

From Stdlib Require Import List ZArith NArith Bool String Ascii Lia.
From Stdlib Require Import Sorted Permutation QArith.
Import ListNotations.
Close Scope Q_scope.

Set Implicit Arguments.

(* ================================================================== *)
(** * Python strings *)
(* ================================================================== *)

Module PyStr.

(** A [str] is a sequence of Unicode code points. *)
Definition pystr := list N.

(** The code point of an ASCII character, and ASCII literals. *)
Definition chr (a : ascii) : N := N_of_ascii a.

Definition lit (s : string) : pystr := map chr (list_ascii_of_string s).

(** [c in s] for a one-character [c]. *)
Definition contains (c : N) (s : pystr) : bool := existsb (N.eqb c) s.

(** [s.replace(old, new)] for a one-character [old]. *)
Definition replace (old : N) (new : pystr) (s : pystr) : pystr :=
  flat_map (fun c => if N.eqb c old then new else [c]) s.

(** [s.split(sep)] for a one-character [sep]: the fields between the
    separators, never an empty list. *)
Fixpoint split (sep : N) (s : pystr) : list pystr :=
  match s with
  | [] => [[]]
  | c :: r =>
      if N.eqb c sep then [] :: split sep r
      else match split sep r with
           | f :: fs => (c :: f) :: fs
           | [] => [[c]]
           end
  end.

(** [l[-1]] on a list of strings; [split] never returns the empty list,
    on which Python would raise IndexError. *)
Definition last_item (l : list pystr) : pystr := last l [].

(** Membership of a code point in a table of inclusive ranges. *)
Definition in_ranges (tbl : list (N * N)) (c : N) : bool :=
  existsb (fun r => N.leb (fst r) c && N.leb c (snd r)) tbl.

(** The code points on which [str.isdigit] is true (Unicode 14.0.0, the
    characters whose Numeric_Type is Decimal or Digit). *)
Definition digit_ranges : list (N * N) :=
  [(48, 57); (178, 179); (185, 185); (1632, 1641); (1776, 1785);
   (1984, 1993); (2406, 2415); (2534, 2543); (2662, 2671); (2790, 2799);
   (2918, 2927); (3046, 3055); (3174, 3183); (3302, 3311); (3430, 3439);
   (3558, 3567); (3664, 3673); (3792, 3801); (3872, 3881); (4160, 4169);
   (4240, 4249); (4969, 4977); (6112, 6121); (6160, 6169); (6470, 6479);
   (6608, 6618); (6784, 6793); (6800, 6809); (6992, 7001); (7088, 7097);
   (7232, 7241); (7248, 7257); (8304, 8304); (8308, 8313); (8320, 8329);
   (9312, 9320); (9332, 9340); (9352, 9360); (9450, 9450); (9461, 9469);
   (9471, 9471); (10102, 10110); (10112, 10120); (10122, 10130);
   (42528, 42537); (43216, 43225); (43264, 43273); (43472, 43481);
   (43504, 43513); (43600, 43609); (44016, 44025); (65296, 65305);
   (66720, 66729); (68160, 68163); (68912, 68921); (69216, 69224);
   (69714, 69722); (69734, 69743); (69872, 69881); (69942, 69951);
   (70096, 70105); (70384, 70393); (70736, 70745); (70864, 70873);
   (71248, 71257); (71360, 71369); (71472, 71481); (71904, 71913);
   (72016, 72025); (72784, 72793); (73040, 73049); (73120, 73129);
   (92768, 92777); (92864, 92873); (93008, 93017); (120782, 120831);
   (123200, 123209); (123632, 123641); (125264, 125273);
   (127232, 127242); (130032, 130041)]%N.

Definition isdigit_char (c : N) : bool := in_ranges digit_ranges c.

(** [s.isdigit()]: every character is a digit and there is at least one. *)
Definition isdigit (s : pystr) : bool :=
  match s with
  | [] => false
  | _ => forallb isdigit_char s
  end.

(** The code points on which [str.isspace] is true; [str.strip()] removes
    them from both ends. *)
Definition space_ranges : list (N * N) :=
  [(9, 13); (28, 32); (133, 133); (160, 160); (5760, 5760); (8192, 8202);
   (8232, 8233); (8239, 8239); (8287, 8287); (12288, 12288)]%N.

Definition isspace_char (c : N) : bool := in_ranges space_ranges c.

Fixpoint lstrip (s : pystr) : pystr :=
  match s with
  | c :: r => if isspace_char c then lstrip r else s
  | [] => []
  end.

Definition rstrip (s : pystr) : pystr := rev (lstrip (rev s)).

Definition strip (s : pystr) : pystr := rstrip (lstrip s).

(** The ASCII decimal digits ["0"] to ["9"]. *)
Definition is_decimal_digit (c : N) : bool := N.leb 48 c && N.leb c 57.

Definition is_ascii (c : N) : bool := N.ltb c 128.

(** Comparison of strings by code point, which is also the order of their
    UTF-8 encodings under SQLite's BINARY collation. *)
Fixpoint str_compare (a b : pystr) : comparison :=
  match a, b with
  | [], [] => Eq
  | [], _ :: _ => Lt
  | _ :: _, [] => Gt
  | x :: a', y :: b' =>
      match N.compare x y with
      | Eq => str_compare a' b'
      | c => c
      end
  end.

Definition str_eqb (a b : pystr) : bool :=
  if list_eq_dec N.eq_dec a b then true else false.

(** Truth value of a string: [not s] holds of the empty string only. *)
Definition is_empty (s : pystr) : bool :=
  match s with [] => true | _ => false end.

(** The surrogate code points U+D800 to U+DFFF have no UTF-8 encoding:
    [s.encode('utf-8')] raises UnicodeEncodeError on a string that holds
    one. *)
Definition is_surrogate (c : N) : bool := N.leb 55296 c && N.leb c 57343.

Definition encodable (s : pystr) : bool :=
  forallb (fun c => negb (is_surrogate c)) s.

(** The number of bytes of the UTF-8 encoding. *)
Definition utf8_width (c : N) : Z :=
  if N.ltb c 128 then 1 else if N.ltb c 2048 then 2
  else if N.ltb c 65536 then 3 else 4.

Definition utf8_length (s : pystr) : Z :=
  fold_right (fun c n => (utf8_width c + n)%Z) 0%Z s.

(** The text up to its first U+0000: what C code that takes the UTF-8
    bytes for a NUL-terminated string sees of it. *)
Fixpoint c_string (s : pystr) : pystr :=
  match s with
  | [] => []
  | c :: r => if N.eqb c 0 then [] else c :: c_string r
  end.

End PyStr.

Import PyStr.

(* ================================================================== *)
(** * Validation helpers (database.py, UTILITY FUNCTIONS) *)
(* ================================================================== *)

Module Validation.

(** [validate_email]:
    [return '@' in email and '.' in email.split('@')[-1]] *)
Definition validate_email (email : pystr) : bool :=
  contains (chr "@") email
  && contains (chr ".") (last_item (split (chr "@") email)).

(** [validate_phone]: the separators are removed one after the other,
    then [clean_phone.isdigit() and len(clean_phone) >= 10]. *)
Definition validate_phone (phone : pystr) : bool :=
  let clean_phone :=
    replace (chr ")") []
      (replace (chr "(") []
         (replace (chr " ") []
            (replace (chr "-") [] phone))) in
  isdigit clean_phone && Nat.leb 10 (List.length clean_phone).

(** The four characters [validate_phone] removes. *)
Definition is_separator (c : N) : bool :=
  N.eqb c (chr "-") || N.eqb c (chr " ")
  || N.eqb c (chr "(") || N.eqb c (chr ")").

End Validation.

Import Validation.

(* ================================================================== *)
(** * The relational store *)
(* ================================================================== *)

Module Sql.

(** ** Rows of the seven tables

    Columns are NOT NULL unless their type is an [option]; text is a
    Python/SQLite string, dates are stored as text.  Integers of the
    database are SQLite INTEGERs: 64-bit, see [int64]. *)

Record VolunteerRow := mkVolunteer {
  volunteer_id : Z;
  first_name : pystr;
  last_name : pystr;
  date_of_birth : pystr;
  email : pystr;
  phone : pystr;
  address : pystr;
  registration_date : pystr }.

Record OrganisationRow := mkOrganisation {
  org_id : Z;
  org_name : pystr;
  contact_email : pystr;
  org_phone : pystr;
  org_address : pystr;
  org_type : pystr;
  org_description : pystr }.

Record EventRow := mkEvent {
  event_id : Z;
  event_name : pystr;
  event_description : pystr;
  start_date : pystr;
  end_date : pystr;
  location : pystr;
  max_volunteers : Z;
  event_org_id : Z }.

Record SkillRow := mkSkill {
  skill_id : Z;
  skill_name : pystr;
  skill_description : pystr;
  skill_category : pystr }.

(** The association tables.  [event_id] is nullable in the model so that
    an ON DELETE SET NULL action on it can be expressed. *)
Record VolunteerEventRow := mkVolunteerEvent {
  ve_volunteer_id : Z;
  ve_event_id : option Z;
  ve_registration_date : pystr;
  attendance_status : pystr }.

(** [years_experience] may be NULL: nothing in the sources or in the
    data model of the specification requires a value. *)
Record VolunteerSkillRow := mkVolunteerSkill {
  vs_volunteer_id : Z;
  vs_skill_id : Z;
  proficiency_level : pystr;
  years_experience : option Z }.

Record EventSkillRow := mkEventSkill {
  es_event_id : option Z;
  es_skill_id : Z }.

(** The database file: the tables listed in [sqlite_master] and the rows
    of the seven tables of the application. *)
Record Database := mkDatabase {
  table_names : list string;
  VOLUNTEER : list VolunteerRow;
  ORGANISATION : list OrganisationRow;
  SKILL : list SkillRow;
  EVENT : list EventRow;
  VOLUNTEER_EVENT : list VolunteerEventRow;
  VOLUNTEER_SKILL : list VolunteerSkillRow;
  EVENT_SKILL : list EventSkillRow }.

(** ** What the sources do not contain

    The CREATE TABLE statements, SQLite's date functions and Python's
    [datetime] are not part of the sources; the definitions below take them
    from a [Platform]. *)

Record date := mkDate { year : Z; month : Z; day : Z }.

(** Python compares dates by year, month and day. *)
Definition date_compare (a b : date) : comparison :=
  match Z.compare (year a) (year b) with
  | Eq => match Z.compare (month a) (month b) with
          | Eq => Z.compare (day a) (day b)
          | c => c
          end
  | c => c
  end.

(** [a >= b] on dates. *)
Definition date_geb (a b : date) : bool :=
  match date_compare a b with Lt => false | _ => true end.

(** The ON DELETE action of a foreign key. *)
Inductive fk_action :=
| NoAction | Restrict | Cascade | SetNull | SetDefault (d : option Z).

(** The classes of [sqlite3.Error] the engine raises. *)
Inductive sqlite3_error :=
| OperationalError | IntegrityError | ProgrammingError
| InterfaceError | DatabaseError.

(** ** Parameters of a statement

    [cursor.execute(query, params)] binds the values of [params] to the
    [?] of the statement, in their order, after the statement has been
    prepared and before it runs.  The sqlite3 module raises OverflowError
    for an [int] outside SQLite's 64-bit INTEGER and UnicodeEncodeError for
    a [str] that holds a surrogate; neither is an [sqlite3.Error]. *)
Inductive sql_param :=
| PInt (n : Z)
| PText (s : pystr).

Inductive bind_error := OverflowError | UnicodeEncodeError.

Definition int64 (n : Z) : bool :=
  Z.leb (- 2 ^ 63) n && Z.ltb n (2 ^ 63).

Fixpoint bind_parameters (params : list sql_param) : option bind_error :=
  match params with
  | [] => None
  | PInt n :: rest =>
      if int64 n then bind_parameters rest else Some OverflowError
  | PText s :: rest =>
      if encodable s then bind_parameters rest else Some UnicodeEncodeError
  end.

(** The exceptions of the code paths modelled here: the [sqlite3.Error]s,
    which the data-access layer catches, and the two above, which it does
    not. *)
Inductive exception :=
| Sqlite3Error (e : sqlite3_error)
| BindError (e : bind_error).

(** Where the engine's plan for the three-table join of the skill search
    scans SKILL, the table whose rows the LIKE term is evaluated on: as
    the outer loop, inside the loop over VOLUNTEER, inside the loop over
    VOLUNTEER_SKILL, or innermost.  The plan is the engine's choice. *)
Inductive skill_scan :=
| SkillFirst | SkillAfterVolunteer | SkillAfterLink | SkillLast.

Class Platform := mkPlatform {
  (** [datetime.strptime(s, '%Y-%m-%d').date()]; [None] is ValueError *)
  strptime : pystr -> option date;
  (** [datetime.now().date()] *)
  today : date;
  (** SQLite's [julianday(text)], NULL on text that is no date, and
      [julianday('now')]; exact rationals stand for SQLite's REAL *)
  julianday : pystr -> option Q;
  julianday_now : Q;
  (** the key SQLite generates for a new row, from the keys in use *)
  new_rowid : list Z -> Z;
  (** the default of VOLUNTEER.registration_date *)
  registration_date_default : pystr;
  (** the CHECK, NOT NULL and UNIQUE constraints of table VOLUNTEER *)
  volunteer_table_ok : list VolunteerRow -> bool;
  (** Modelled from the spec: the schema is missing from the sources; the
      spec's data model makes VOLUNTEER_EVENT.event_id a foreign key to
      EVENT, and EVENT_SKILL associates events and skills.  The ON DELETE
      action of the two foreign keys is not given anywhere. *)
  ve_event_on_delete : fk_action;
  es_event_on_delete : fk_action;
  (** the engine's plan for the skill search *)
  search_plan : skill_scan }.

End Sql.

Import Sql.

(* ================================================================== *)
(** * Relational operators *)
(* ================================================================== *)

Module Relational.

Section Operators.
Variables A B K : Type.

(** [l JOIN r ON on]. *)
Definition inner_join (on : A -> B -> bool) (l : list A) (r : list B)
  : list (A * B) :=
  flat_map (fun a => map (pair a) (filter (on a) r)) l.

(** [l LEFT JOIN r ON on]: a row of [l] without a partner is kept once,
    with NULL on the right. *)
Definition left_join (on : A -> B -> bool) (l : list A) (r : list B)
  : list (A * option B) :=
  flat_map (fun a =>
              match filter (on a) r with
              | [] => [(a, None)]
              | matches => map (fun b => (a, Some b)) matches
              end) l.

(** GROUP BY: the rows are put into the group of their key, the groups in
    the order in which their keys first occur. *)
Fixpoint group_insert (eqb : K -> K -> bool) (k : K) (a : A)
  (groups : list (K * list A)) : list (K * list A) :=
  match groups with
  | [] => [(k, [a])]
  | (k', g) :: rest =>
      if eqb k k' then (k', g ++ [a]) :: rest
      else (k', g) :: group_insert eqb k a rest
  end.

Definition group_by (eqb : K -> K -> bool) (key : A -> K) (rows : list A)
  : list (K * list A) :=
  fold_left (fun groups a => group_insert eqb (key a) a groups) rows [].

(** [COUNT(col)]: the rows of the group on which [col] is not NULL. *)
Definition count (col : A -> option B) (g : list A) : Z :=
  Z.of_nat (List.length
              (filter (fun a => match col a with Some _ => true | None => false end) g)).

(** The values of [col] that are not NULL. *)
Definition non_null (col : A -> option B) (g : list A) : list B :=
  flat_map (fun a => match col a with Some b => [b] | None => [] end) g.

(** ORDER BY: a stable insertion sort; a row goes before the first row
    that does not come strictly before it. *)
Fixpoint order_insert (cmp : A -> A -> comparison) (a : A) (l : list A)
  : list A :=
  match l with
  | [] => [a]
  | b :: rest =>
      match cmp a b with
      | Gt => b :: order_insert cmp a rest
      | _ => a :: l
      end
  end.

Definition order_by (cmp : A -> A -> comparison) (l : list A) : list A :=
  fold_right (order_insert cmp) [] l.

(** DISTINCT: later copies of a row are dropped. *)
Fixpoint distinct (eqb : A -> A -> bool) (l : list A) : list A :=
  match l with
  | [] => []
  | a :: rest => a :: filter (fun b => negb (eqb a b)) (distinct eqb rest)
  end.

End Operators.

(** Sort keys: the second key decides among rows the first one holds
    equal; DESC reverses a key. *)
Definition then_by (c1 c2 : comparison) : comparison :=
  match c1 with Eq => c2 | c => c end.

Definition desc (c : comparison) : comparison := CompOpp c.

(** MAX, MIN, SUM and AVG over the values that are not NULL; NULL on an
    empty group.  AVG is the exact quotient, where SQLite gives the
    nearest REAL. *)
Definition sql_max (l : list Z) : option Z :=
  match l with [] => None | x :: r => Some (fold_left Z.max r x) end.

Definition sql_min (l : list Z) : option Z :=
  match l with [] => None | x :: r => Some (fold_left Z.min r x) end.

Definition sql_avg (l : list Z) : option Q :=
  match l with
  | [] => None
  | _ => Some (Qmake (fold_left Z.add l 0%Z) (Pos.of_nat (List.length l)))
  end.

(** [CAST(q AS INTEGER)]: truncation towards zero. *)
Definition cast_integer (q : Q) : Z := Z.quot (Qnum q) (Zpos (Qden q)).

(** [text LIKE pattern], as SQLite's [patternCompare] decides it on the
    two texts: [%] stands for any run of characters, [_] for any one
    character, ASCII letters match in either case. *)
Definition ascii_upper (c : N) : N :=
  if N.leb 97 c && N.leb c 122 then (c - 32)%N else c.

Fixpoint pattern_compare (pattern : pystr) : pystr -> bool :=
  match pattern with
  | [] => is_empty
  | p :: pattern' =>
      if N.eqb p (chr "%") then
        fix any_run (text : pystr) : bool :=
          pattern_compare pattern' text
          || match text with
             | [] => false
             | _ :: text' => any_run text'
             end
      else
        fun text =>
          match text with
          | [] => false
          | t :: text' =>
              (N.eqb p (chr "_") || N.eqb (ascii_upper p) (ascii_upper t))
              && pattern_compare pattern' text'
          end
  end.

(** The LIKE function takes both arguments as NUL-terminated strings, so
    that neither is read beyond its first U+0000. *)
Definition sql_like (pattern text : pystr) : bool :=
  pattern_compare (c_string pattern) (c_string text).

(** It refuses a pattern of more than SQLITE_MAX_LIKE_PATTERN_LENGTH
    bytes, 50000 unless the engine was built otherwise, with the error
    "LIKE or GLOB pattern too complex". *)
Definition like_pattern_limit : Z := 50000.

Definition like_too_complex (pattern : pystr) : bool :=
  Z.ltb like_pattern_limit (utf8_length pattern).

(** NULL sorts before every value. *)
Definition option_compare (A : Type) (cmp : A -> A -> comparison)
  (a b : option A) : comparison :=
  match a, b with
  | None, None => Eq
  | None, Some _ => Lt
  | Some _, None => Gt
  | Some x, Some y => cmp x y
  end.

Definition option_Z_eqb (a b : option Z) : bool :=
  match a, b with
  | Some x, Some y => Z.eqb x y
  | None, None => true
  | _, _ => false
  end.

(** [a = b] in SQL when [b] may be NULL: never true on NULL. *)
Definition eq_nullable (a : Z) (b : option Z) : bool :=
  match b with Some y => Z.eqb a y | None => false end.

End Relational.

Import Relational.

(* ================================================================== *)
(** * The SQL statements of database.py, by their denotation *)
(* ================================================================== *)

Module Statements.

(** What executing a statement gives: the rows of a SELECT; the number of
    rows an INSERT, UPDATE or DELETE changed, the key of the last inserted
    row and the database after it; an error of the engine; or, when a
    parameter could not be bound, the exception of the binding, the
    statement not having run. *)
Inductive sql_outcome (R : Type) :=
| SqlRows (rows : list R)
| SqlChanged (rowcount : Z) (lastrowid : Z) (db' : Database)
| SqlFail (e : sqlite3_error)
| SqlUnbound (e : bind_error).

Arguments SqlChanged {R} rowcount lastrowid db'.
Arguments SqlFail {R} e.
Arguments SqlUnbound {R} e.

(** The statements of the two database.py files. *)
Inductive stmt_id :=
| PRAGMA_FOREIGN_KEYS
| INSERT_VOLUNTEER | SELECT_VOLUNTEERS | SELECT_VOLUNTEER_BY_ID
| UPDATE_VOLUNTEER_PHONE
| SELECT_ORGANISATIONS | SELECT_ORGANISATION_BY_ID
| SELECT_EVENTS | SELECT_EVENT_BY_ID | DELETE_EVENT
| SELECT_VOLUNTEERS_BY_SKILL | SELECT_VOLUNTEERS_FOR_ORGANISATION
| SELECT_EVENT_STATISTICS | SELECT_VOLUNTEERS_CALCULATED
| SELECT_SKILL_DISTRIBUTION | SELECT_ORGANISATION_SUMMARY
| SELECT_SKILLS | SELECT_TABLE_NAMES.

(** A statement with the parameters given to it: its name and what
    executing it does on a database, given whether the connection
    enforces foreign keys. *)
Record statement (R : Type) := mkStatement {
  stmt_name : stmt_id;
  denote : bool -> Database -> sql_outcome R }.

(** ** Result rows *)

Record EventListRow := mkEventList {
  el_event_id : Z;
  el_event_name : pystr;
  el_description : pystr;
  el_start_date : pystr;
  el_end_date : pystr;
  el_location : pystr;
  el_max_volunteers : Z;
  el_org_name : pystr }.

Record EventDetailRow := mkEventDetail {
  ed_event_id : Z;
  ed_event_name : pystr;
  ed_description : pystr;
  ed_start_date : pystr;
  ed_end_date : pystr;
  ed_location : pystr;
  ed_max_volunteers : Z;
  ed_org_name : pystr;
  ed_org_id : Z }.

Record SearchRow := mkSearch {
  sr_volunteer_id : Z;
  sr_first_name : pystr;
  sr_last_name : pystr;
  sr_email : pystr;
  sr_phone : pystr;
  sr_proficiency_level : pystr;
  sr_years_experience : option Z }.

Record OrgVolunteerRow := mkOrgVolunteer {
  ov_volunteer_id : Z;
  ov_first_name : pystr;
  ov_last_name : pystr;
  ov_email : pystr;
  ov_phone : pystr;
  ov_event_name : pystr;
  ov_start_date : pystr;
  ov_location : pystr;
  ov_registration_date : pystr;
  ov_attendance_status : pystr;
  ov_org_name : pystr }.

Record EventStatRow := mkEventStat {
  st_event_name : pystr;
  st_org_name : pystr;
  st_volunteer_count : Z;
  st_max_volunteers : Z;
  st_start_date : pystr;
  st_end_date : pystr;
  duration_days : option Z;
  status : pystr }.

Record CalcRow := mkCalc {
  cf_volunteer_id : Z;
  full_name : pystr;
  cf_email : pystr;
  cf_phone : pystr;
  cf_address : pystr;
  cf_date_of_birth : pystr;
  age : option Z;
  cf_registration_date : pystr }.

Record SkillDistRow := mkSkillDist {
  sd_skill_name : pystr;
  sd_skill_category : pystr;
  sd_volunteer_count : Z;
  avg_experience : option Q;
  max_experience : option Z;
  min_experience : option Z }.

Record OrgSummaryRow := mkOrgSummary {
  os_org_name : pystr;
  os_org_type : pystr;
  total_events : Z;
  unique_volunteers : Z;
  total_registrations : Z;
  avg_event_capacity : option Q }.

(** ** Updating one table of the database *)

Definition set_VOLUNTEER (t : list VolunteerRow) (db : Database) : Database :=
  mkDatabase (table_names db) t (ORGANISATION db) (SKILL db) (EVENT db)
    (VOLUNTEER_EVENT db) (VOLUNTEER_SKILL db) (EVENT_SKILL db).

Definition set_EVENT (t : list EventRow) (db : Database) : Database :=
  mkDatabase (table_names db) (VOLUNTEER db) (ORGANISATION db) (SKILL db) t
    (VOLUNTEER_EVENT db) (VOLUNTEER_SKILL db) (EVENT_SKILL db).

Definition set_VOLUNTEER_EVENT (t : list VolunteerEventRow) (db : Database)
  : Database :=
  mkDatabase (table_names db) (VOLUNTEER db) (ORGANISATION db) (SKILL db)
    (EVENT db) t (VOLUNTEER_SKILL db) (EVENT_SKILL db).

Definition set_EVENT_SKILL (t : list EventSkillRow) (db : Database)
  : Database :=
  mkDatabase (table_names db) (VOLUNTEER db) (ORGANISATION db) (SKILL db)
    (EVENT db) (VOLUNTEER_EVENT db) (VOLUNTEER_SKILL db) t.

Definition set_phone (p : pystr) (v : VolunteerRow) : VolunteerRow :=
  mkVolunteer (volunteer_id v) (first_name v) (last_name v)
    (date_of_birth v) (email v) p (address v) (registration_date v).

Definition set_ve_event_id (e : option Z) (r : VolunteerEventRow)
  : VolunteerEventRow :=
  mkVolunteerEvent (ve_volunteer_id r) e (ve_registration_date r)
    (attendance_status r).

Definition set_es_event_id (e : option Z) (r : EventSkillRow)
  : EventSkillRow :=
  mkEventSkill e (es_skill_id r).

(** A statement on a table that does not exist is an error ("no such
    table"). *)
Definition upper_ascii (a : ascii) : ascii :=
  let n := N_of_ascii a in
  if N.leb 97 n && N.leb n 122 then ascii_of_N (n - 32) else a.

Fixpoint upper (s : string) : string :=
  match s with
  | EmptyString => EmptyString
  | String a r => String (upper_ascii a) (upper r)
  end.

(** SQLite finds a table by its name whatever the case of ASCII letters. *)
Definition has_table (db : Database) (name : string) : bool :=
  existsb (fun t => String.eqb (upper t) (upper name)) (table_names db).

(** Preparing the statement fails when it names a table that does not
    exist; this comes before any parameter is bound. *)
Definition on_tables (R : Type) (names : list string) (db : Database)
  (k : sql_outcome R) : sql_outcome R :=
  if forallb (has_table db) names then k else SqlFail OperationalError.

(** Binding [params] comes next, and only then does the statement run. *)
Definition binding (R : Type) (params : list sql_param) (k : sql_outcome R)
  : sql_outcome R :=
  match bind_parameters params with
  | Some e => SqlUnbound e
  | None => k
  end.

End Statements.

Import Statements.

Module Queries.

Definition T_VOLUNTEER : string := "VOLUNTEER".
Definition T_ORGANISATION : string := "ORGANISATION".
Definition T_SKILL : string := "SKILL".
Definition T_EVENT : string := "EVENT".
Definition T_VOLUNTEER_EVENT : string := "VOLUNTEER_EVENT".
Definition T_VOLUNTEER_SKILL : string := "VOLUNTEER_SKILL".
Definition T_EVENT_SKILL : string := "EVENT_SKILL".

Section WithPlatform.
Context {P : Platform}.

(** ** Volunteers *)

(** [INSERT INTO VOLUNTEER (first_name, last_name, date_of_birth, email,
    phone, address) VALUES (?, ?, ?, ?, ?, ?)] *)
Definition sql_insert_volunteer (fn ln dob em ph ad : pystr)
  (db : Database) : sql_outcome Empty_set :=
  on_tables [T_VOLUNTEER] db
    (binding [PText fn; PText ln; PText dob; PText em; PText ph; PText ad]
       (let row := mkVolunteer (new_rowid (map volunteer_id (VOLUNTEER db)))
                     fn ln dob em ph ad registration_date_default in
        let table := VOLUNTEER db ++ [row] in
        if volunteer_table_ok table
        then SqlChanged 1 (volunteer_id row) (set_VOLUNTEER table db)
        else SqlFail IntegrityError)).

(** [ORDER BY last_name, first_name] *)
Definition by_last_first (a b : VolunteerRow) : comparison :=
  then_by (str_compare (last_name a) (last_name b))
          (str_compare (first_name a) (first_name b)).

(** [SELECT volunteer_id, ..., registration_date FROM VOLUNTEER
    ORDER BY last_name, first_name] *)
Definition sql_select_volunteers (db : Database) : sql_outcome VolunteerRow :=
  on_tables [T_VOLUNTEER] db
    (SqlRows (order_by by_last_first (VOLUNTEER db))).

(** [SELECT ... FROM VOLUNTEER WHERE volunteer_id = ?] *)
Definition sql_select_volunteer_by_id (vid : Z) (db : Database)
  : sql_outcome VolunteerRow :=
  on_tables [T_VOLUNTEER] db
    (binding [PInt vid]
       (SqlRows (filter (fun v => Z.eqb (volunteer_id v) vid)
                        (VOLUNTEER db)))).

(** [UPDATE VOLUNTEER SET phone = ? WHERE volunteer_id = ?] *)
Definition sql_update_volunteer_phone (new_phone : pystr) (vid : Z)
  (db : Database) : sql_outcome Empty_set :=
  on_tables [T_VOLUNTEER] db
    (binding [PText new_phone; PInt vid]
       (let hit v := Z.eqb (volunteer_id v) vid in
        let table :=
          map (fun v => if hit v then set_phone new_phone v else v)
              (VOLUNTEER db) in
        let changed := Z.of_nat (List.length (filter hit (VOLUNTEER db))) in
        if Z.eqb changed 0 then SqlChanged 0 0 db
        else if volunteer_table_ok table
             then SqlChanged changed 0 (set_VOLUNTEER table db)
             else SqlFail IntegrityError)).

(** ** Organisations *)

(** [SELECT ... FROM ORGANISATION ORDER BY org_name] *)
Definition sql_select_organisations (db : Database)
  : sql_outcome OrganisationRow :=
  on_tables [T_ORGANISATION] db
    (SqlRows (order_by (fun a b => str_compare (org_name a) (org_name b))
                       (ORGANISATION db))).

(** [SELECT ... FROM ORGANISATION WHERE org_id = ?] *)
Definition sql_select_organisation_by_id (oid : Z) (db : Database)
  : sql_outcome OrganisationRow :=
  on_tables [T_ORGANISATION] db
    (binding [PInt oid]
       (SqlRows (filter (fun o => Z.eqb (org_id o) oid)
                        (ORGANISATION db)))).

(** ** Events *)

(** [FROM EVENT e JOIN ORGANISATION o ON e.org_id = o.org_id] *)
Definition event_join_organisation (db : Database)
  : list (EventRow * OrganisationRow) :=
  inner_join (fun e o => Z.eqb (event_org_id e) (org_id o))
             (EVENT db) (ORGANISATION db).

Definition event_list_row (r : EventRow * OrganisationRow) : EventListRow :=
  let (e, o) := r in
  mkEventList (event_id e) (event_name e) (event_description e)
    (start_date e) (end_date e) (location e) (max_volunteers e) (org_name o).

Definition event_detail_row (r : EventRow * OrganisationRow)
  : EventDetailRow :=
  let (e, o) := r in
  mkEventDetail (event_id e) (event_name e) (event_description e)
    (start_date e) (end_date e) (location e) (max_volunteers e)
    (org_name o) (org_id o).

(** [SELECT e.event_id, ..., o.org_name FROM EVENT e JOIN ORGANISATION o
    ON e.org_id = o.org_id ORDER BY e.start_date] *)
Definition sql_select_events (db : Database) : sql_outcome EventListRow :=
  on_tables [T_EVENT; T_ORGANISATION] db
    (SqlRows
       (map event_list_row
          (order_by (fun a b => str_compare (start_date (fst a))
                                            (start_date (fst b)))
                    (event_join_organisation db)))).

(** [SELECT ..., o.org_name, o.org_id FROM EVENT e JOIN ORGANISATION o
    ON e.org_id = o.org_id WHERE e.event_id = ?] *)
Definition sql_select_event_by_id (eid : Z) (db : Database)
  : sql_outcome EventDetailRow :=
  on_tables [T_EVENT; T_ORGANISATION] db
    (binding [PInt eid]
       (SqlRows
          (map event_detail_row
             (filter (fun r => Z.eqb (event_id (fst r)) eid)
                     (event_join_organisation db))))).

(** What an enforced foreign key does to the rows of a child table when
    the parent row with key [eid] is deleted: [None] when the delete is
    refused ("FOREIGN KEY constraint failed"), otherwise the child rows
    after the action.  [parents] are the parent keys that remain. *)
Definition on_parent_delete (Row : Type) (action : fk_action)
  (ref : Row -> option Z) (set_ref : option Z -> Row -> Row)
  (eid : Z) (parents : list Z) (children : list Row) : option (list Row) :=
  let refers r := eq_nullable eid (ref r) in
  if existsb refers children then
    match action with
    | NoAction | Restrict => None
    | Cascade => Some (filter (fun r => negb (refers r)) children)
    | SetNull =>
        Some (map (fun r => if refers r then set_ref None r else r) children)
    | SetDefault None =>
        Some (map (fun r => if refers r then set_ref None r else r) children)
    | SetDefault (Some d) =>
        if existsb (Z.eqb d) parents
        then Some (map (fun r => if refers r then set_ref (Some d) r else r)
                       children)
        else None
    end
  else Some children.

(** [DELETE FROM EVENT WHERE event_id = ?].  With foreign keys enforced,
    the rows of VOLUNTEER_EVENT and EVENT_SKILL that refer to a deleted
    event make the statement fail or are changed by the ON DELETE action;
    the row count is that of the EVENT rows deleted. *)
Definition sql_delete_event (eid : Z) (foreign_keys : bool) (db : Database)
  : sql_outcome Empty_set :=
  on_tables [T_EVENT] db
    (binding [PInt eid]
       (let hit e := Z.eqb (event_id e) eid in
        let remaining := filter (fun e => negb (hit e)) (EVENT db) in
        let deleted := Z.of_nat (List.length (filter hit (EVENT db))) in
        if Z.eqb deleted 0 then SqlChanged 0 0 db
        else if foreign_keys then
          match on_parent_delete ve_event_on_delete ve_event_id
                  set_ve_event_id
                  eid (map event_id remaining) (VOLUNTEER_EVENT db),
                on_parent_delete es_event_on_delete es_event_id
                  set_es_event_id
                  eid (map event_id remaining) (EVENT_SKILL db)
          with
          | Some ve, Some es =>
              SqlChanged deleted 0
                (set_EVENT_SKILL es (set_VOLUNTEER_EVENT ve
                                       (set_EVENT remaining db)))
          | _, _ => SqlFail IntegrityError
          end
        else SqlChanged deleted 0 (set_EVENT remaining db))).

(** ** Reporting queries (deliverable 3) *)

Definition search_row (r : VolunteerRow * VolunteerSkillRow * SkillRow)
  : SearchRow :=
  let '(v, vs, _) := r in
  mkSearch (volunteer_id v) (first_name v) (last_name v) (email v) (phone v)
    (proficiency_level vs) (years_experience vs).

Definition search_row_eqb (a b : SearchRow) : bool :=
  Z.eqb (sr_volunteer_id a) (sr_volunteer_id b)
  && str_eqb (sr_first_name a) (sr_first_name b)
  && str_eqb (sr_last_name a) (sr_last_name b)
  && str_eqb (sr_email a) (sr_email b)
  && str_eqb (sr_phone a) (sr_phone b)
  && str_eqb (sr_proficiency_level a) (sr_proficiency_level b)
  && option_Z_eqb (sr_years_experience a) (sr_years_experience b).

(** [FROM VOLUNTEER v JOIN VOLUNTEER_SKILL vs ON v.volunteer_id = vs.volunteer_id
    JOIN SKILL s ON vs.skill_id = s.skill_id] *)
Definition skill_search_join (db : Database)
  : list (VolunteerRow * VolunteerSkillRow * SkillRow) :=
  inner_join (fun r s => Z.eqb (vs_skill_id (snd r)) (skill_id s))
    (inner_join (fun v vs => Z.eqb (volunteer_id v) (vs_volunteer_id vs))
       (VOLUNTEER db) (VOLUNTEER_SKILL db))
    (SKILL db).

Definition is_nil (A : Type) (l : list A) : bool :=
  match l with [] => true | _ => false end.

(** Whether the search evaluates its LIKE term at all: on the rows of
    SKILL that the plan of the engine comes to. *)
Definition like_evaluated (db : Database) : bool :=
  match search_plan with
  | SkillFirst => negb (is_nil (SKILL db))
  | SkillAfterVolunteer =>
      negb (is_nil (VOLUNTEER db)) && negb (is_nil (SKILL db))
  | SkillAfterLink =>
      negb (is_nil
              (inner_join (fun vs s => Z.eqb (vs_skill_id vs) (skill_id s))
                          (VOLUNTEER_SKILL db) (SKILL db)))
  | SkillLast => negb (is_nil (skill_search_join db))
  end.

(** [SELECT DISTINCT v.volunteer_id, ..., vs.years_experience
    FROM VOLUNTEER v JOIN VOLUNTEER_SKILL vs ON v.volunteer_id = vs.volunteer_id
    JOIN SKILL s ON vs.skill_id = s.skill_id WHERE s.skill_name LIKE ?
    ORDER BY vs.proficiency_level DESC, vs.years_experience DESC] *)
Definition sql_select_volunteers_by_skill (pattern : pystr) (db : Database)
  : sql_outcome SearchRow :=
  on_tables [T_VOLUNTEER; T_VOLUNTEER_SKILL; T_SKILL] db
    (binding [PText pattern]
       (if like_too_complex pattern && like_evaluated db
        then SqlFail OperationalError
        else
          let selected :=
            filter (fun r => sql_like pattern (skill_name (snd r)))
                   (skill_search_join db) in
          SqlRows
            (order_by
               (fun a b =>
                  then_by
                    (desc (str_compare (sr_proficiency_level a)
                                       (sr_proficiency_level b)))
                    (desc (option_compare Z.compare
                             (sr_years_experience a)
                             (sr_years_experience b))))
               (distinct search_row_eqb (map search_row selected))))).

Definition org_volunteer_row
  (r : VolunteerRow * VolunteerEventRow * EventRow * OrganisationRow)
  : OrgVolunteerRow :=
  let '(v, ve, e, o) := r in
  mkOrgVolunteer (volunteer_id v) (first_name v) (last_name v) (email v)
    (phone v) (event_name e) (start_date e) (location e)
    (ve_registration_date ve) (attendance_status ve) (org_name o).

(** [SELECT ... FROM VOLUNTEER v
    INNER JOIN VOLUNTEER_EVENT ve ON v.volunteer_id = ve.volunteer_id
    INNER JOIN EVENT e ON ve.event_id = e.event_id
    INNER JOIN ORGANISATION o ON e.org_id = o.org_id WHERE o.org_id = ?
    ORDER BY e.start_date, v.last_name, v.first_name] *)
Definition sql_select_volunteers_for_organisation (oid : Z) (db : Database)
  : sql_outcome OrgVolunteerRow :=
  on_tables [T_VOLUNTEER; T_VOLUNTEER_EVENT; T_EVENT; T_ORGANISATION] db
    (binding [PInt oid]
    (let joined :=
       inner_join
         (fun r o => Z.eqb (event_org_id (snd r)) (org_id o))
         (inner_join
            (fun r e => eq_nullable (event_id e) (ve_event_id (snd r)))
            (inner_join
               (fun v ve => Z.eqb (volunteer_id v) (ve_volunteer_id ve))
               (VOLUNTEER db) (VOLUNTEER_EVENT db))
            (EVENT db))
         (ORGANISATION db) in
     let selected := filter (fun r => Z.eqb (org_id (snd r)) oid) joined in
     SqlRows
       (map org_volunteer_row
          (order_by
             (fun a b =>
                let '(va, _, ea, _) := a in
                let '(vb, _, eb, _) := b in
                then_by (str_compare (start_date ea) (start_date eb))
                  (then_by (str_compare (last_name va) (last_name vb))
                           (str_compare (first_name va) (first_name vb))))
             selected)))).

(** The CASE expression of the event statistics: the first WHEN whose
    condition holds decides. *)
Definition status_of (volunteer_count max_volunteers : Z) : pystr :=
  if Z.geb volunteer_count max_volunteers then lit "Full"
  else if Z.gtb volunteer_count 0 then lit "Partial"
  else lit "Empty".

(** [CAST((julianday(e.end_date) - julianday(e.start_date)) AS INTEGER)] *)
Definition duration_between (start_d end_d : pystr) : option Z :=
  match julianday end_d, julianday start_d with
  | Some b, Some a => Some (cast_integer (Qminus b a))
  | _, _ => None
  end.

(** [FROM EVENT e JOIN ORGANISATION o ON e.org_id = o.org_id
    LEFT JOIN VOLUNTEER_EVENT ve ON e.event_id = ve.event_id] *)
Definition statistics_join (db : Database)
  : list (EventRow * OrganisationRow * option VolunteerEventRow) :=
  left_join (fun r ve => eq_nullable (event_id (fst r)) (ve_event_id ve))
            (event_join_organisation db) (VOLUNTEER_EVENT db).

(** [GROUP BY e.event_id, e.event_name, o.org_name, e.max_volunteers,
    e.start_date, e.end_date] *)
Definition stat_key : Type := Z * pystr * pystr * Z * pystr * pystr.

Definition stat_key_of
  (r : EventRow * OrganisationRow * option VolunteerEventRow) : stat_key :=
  let '(e, o, _) := r in
  (event_id e, event_name e, org_name o, max_volunteers e,
   start_date e, end_date e).

Definition stat_key_eqb (a b : stat_key) : bool :=
  let '(i1, n1, o1, m1, s1, e1) := a in
  let '(i2, n2, o2, m2, s2, e2) := b in
  Z.eqb i1 i2 && str_eqb n1 n2 && str_eqb o1 o2 && Z.eqb m1 m2
  && str_eqb s1 s2 && str_eqb e1 e2.

(** [COUNT(ve.volunteer_id)] *)
Definition registrations
  (g : list (EventRow * OrganisationRow * option VolunteerEventRow)) : Z :=
  count (fun r => option_map ve_volunteer_id (snd r)) g.

Definition event_stat_row
  (kg : stat_key
        * list (EventRow * OrganisationRow * option VolunteerEventRow))
  : EventStatRow :=
  let '((_, name, org, capacity, start_d, end_d), g) := kg in
  mkEventStat name org (registrations g) capacity start_d end_d
    (duration_between start_d end_d)
    (status_of (registrations g) capacity).

(** The statistics query of [get_event_statistics],
    [... ORDER BY volunteer_count DESC]. *)
Definition sql_select_event_statistics (db : Database)
  : sql_outcome EventStatRow :=
  on_tables [T_EVENT; T_ORGANISATION; T_VOLUNTEER_EVENT] db
    (SqlRows
       (order_by
          (fun a b => desc (Z.compare (st_volunteer_count a)
                                      (st_volunteer_count b)))
          (map event_stat_row
             (group_by stat_key_eqb stat_key_of (statistics_join db))))).

(** [CAST((julianday('now') - julianday(date_of_birth)) / 365.25
    AS INTEGER)] *)
Definition age_of (dob : pystr) : option Z :=
  match julianday dob with
  | Some j =>
      Some (cast_integer (Qdiv (Qminus julianday_now j) (Qmake 1461 4)))
  | None => None
  end.

Definition calc_row (v : VolunteerRow) : CalcRow :=
  mkCalc (volunteer_id v) (first_name v ++ lit " " ++ last_name v)
    (email v) (phone v) (address v) (date_of_birth v)
    (age_of (date_of_birth v)) (registration_date v).

(** [SELECT volunteer_id, (first_name || ' ' || last_name) as full_name,
    ..., age, registration_date FROM VOLUNTEER ORDER BY full_name] *)
Definition sql_select_volunteers_calculated (db : Database)
  : sql_outcome CalcRow :=
  on_tables [T_VOLUNTEER] db
    (SqlRows
       (order_by (fun a b => str_compare (full_name a) (full_name b))
                 (map calc_row (VOLUNTEER db)))).

(** [FROM SKILL s LEFT JOIN VOLUNTEER_SKILL vs ON s.skill_id = vs.skill_id] *)
Definition skill_join (db : Database)
  : list (SkillRow * option VolunteerSkillRow) :=
  left_join (fun s vs => Z.eqb (skill_id s) (vs_skill_id vs))
            (SKILL db) (VOLUNTEER_SKILL db).

(** [GROUP BY s.skill_id, s.skill_name, s.skill_category] *)
Definition skill_key : Type := Z * pystr * pystr.

Definition skill_key_of (r : SkillRow * option VolunteerSkillRow)
  : skill_key :=
  (skill_id (fst r), skill_name (fst r), skill_category (fst r)).

Definition skill_key_eqb (a b : skill_key) : bool :=
  let '(i1, n1, c1) := a in
  let '(i2, n2, c2) := b in
  Z.eqb i1 i2 && str_eqb n1 n2 && str_eqb c1 c2.

(** [COUNT(vs.volunteer_id)] *)
Definition skill_volunteers (g : list (SkillRow * option VolunteerSkillRow))
  : Z :=
  count (fun r => option_map vs_volunteer_id (snd r)) g.

Definition skill_dist_row
  (kg : skill_key * list (SkillRow * option VolunteerSkillRow))
  : SkillDistRow :=
  let '((_, name, category), g) := kg in
  let years :=
    non_null (fun r => match snd r with
                       | Some vs => years_experience vs
                       | None => None
                       end) g in
  mkSkillDist name category (skill_volunteers g)
    (sql_avg years) (sql_max years) (sql_min years).

(** The query of [get_skill_distribution],
    [... HAVING COUNT(vs.volunteer_id) > 0
     ORDER BY volunteer_count DESC, s.skill_category]. *)
Definition sql_select_skill_distribution (db : Database)
  : sql_outcome SkillDistRow :=
  on_tables [T_SKILL; T_VOLUNTEER_SKILL] db
    (SqlRows
       (order_by
          (fun a b =>
             then_by
               (desc (Z.compare (sd_volunteer_count a)
                                (sd_volunteer_count b)))
               (str_compare (sd_skill_category a) (sd_skill_category b)))
          (map skill_dist_row
             (filter (fun kg => Z.gtb (skill_volunteers (snd kg)) 0)
                (group_by skill_key_eqb skill_key_of (skill_join db)))))).

(** [FROM ORGANISATION o LEFT JOIN EVENT e ON o.org_id = e.org_id
    LEFT JOIN VOLUNTEER_EVENT ve ON e.event_id = ve.event_id] *)
Definition summary_join (db : Database)
  : list (OrganisationRow * option EventRow * option VolunteerEventRow) :=
  left_join
    (fun r ve =>
       match snd r with
       | Some e => eq_nullable (event_id e) (ve_event_id ve)
       | None => false
       end)
    (left_join (fun o e => Z.eqb (org_id o) (event_org_id e))
               (ORGANISATION db) (EVENT db))
    (VOLUNTEER_EVENT db).

(** [GROUP BY o.org_id, o.org_name, o.org_type] *)
Definition summary_key_of
  (r : OrganisationRow * option EventRow * option VolunteerEventRow)
  : skill_key :=
  let '(o, _, _) := r in (org_id o, org_name o, org_type o).

Definition distinct_count (l : list Z) : Z :=
  Z.of_nat (List.length (nodup Z.eq_dec l)).

Definition org_summary_row
  (kg : skill_key
        * list (OrganisationRow * option EventRow * option VolunteerEventRow))
  : OrgSummaryRow :=
  let '((_, name, type), g) := kg in
  let volunteers := non_null (fun r => option_map ve_volunteer_id (snd r)) g in
  mkOrgSummary name type
    (distinct_count (non_null (fun r => option_map event_id (snd (fst r))) g))
    (distinct_count volunteers)
    (Z.of_nat (List.length volunteers))
    (sql_avg (non_null (fun r => option_map max_volunteers (snd (fst r))) g)).

(** The query of [get_organisation_event_summary],
    [... ORDER BY total_events DESC, unique_volunteers DESC]. *)
Definition sql_select_organisation_summary (db : Database)
  : sql_outcome OrgSummaryRow :=
  on_tables [T_ORGANISATION; T_EVENT; T_VOLUNTEER_EVENT] db
    (SqlRows
       (order_by
          (fun a b =>
             then_by
               (desc (Z.compare (total_events a) (total_events b)))
               (desc (Z.compare (unique_volunteers a) (unique_volunteers b))))
          (map org_summary_row
             (group_by skill_key_eqb summary_key_of (summary_join db))))).

(** [SELECT ... FROM SKILL ORDER BY skill_category, skill_name] *)
Definition sql_select_skills (db : Database) : sql_outcome SkillRow :=
  on_tables [T_SKILL] db
    (SqlRows
       (order_by
          (fun a b =>
             then_by (str_compare (skill_category a) (skill_category b))
                     (str_compare (skill_name a) (skill_name b)))
          (SKILL db))).

(** [SELECT name FROM sqlite_master WHERE type='table'] *)
Definition sql_select_table_names (db : Database) : sql_outcome string :=
  SqlRows (table_names db).

(** [PRAGMA foreign_keys = ON] returns no rows; its effect on the
    connection is part of [Dal.pragma_foreign_keys]. *)
Definition sql_pragma_foreign_keys (db : Database) : sql_outcome Empty_set :=
  SqlRows [].

End WithPlatform.

End Queries.

Import Queries.

(* ================================================================== *)
(** * The storage engine as the Python code sees it *)
(* ================================================================== *)

Module Engine.

(** What the code does to the engine, and the errors the engine raised. *)
Inductive engine_event :=
| Connect
| Execute (s : stmt_id)
| Commit
| Close
| Raise (e : sqlite3_error).

(** The state a request runs in.  [database] is the committed content of
    the file, [txn] the uncommitted content seen by the open connection,
    [foreign_keys] the setting of that connection.  [oracle] lists, for
    the coming calls of the engine, whether the call fails for a reason
    outside the database content (the file cannot be opened, it is locked,
    the disk is full); [trace] logs the calls made.  [flashes] are the
    messages flashed for the next page. *)
Record World := mkWorld {
  database : Database;
  txn : option Database;
  foreign_keys : bool;
  oracle : list (option sqlite3_error);
  trace : list engine_event;
  flashes : list (pystr * string) }.

Definition set_database (d : Database) (w : World) : World :=
  mkWorld d (txn w) (foreign_keys w) (oracle w) (trace w) (flashes w).

Definition set_txn (t : option Database) (w : World) : World :=
  mkWorld (database w) t (foreign_keys w) (oracle w) (trace w) (flashes w).

Definition set_foreign_keys (b : bool) (w : World) : World :=
  mkWorld (database w) (txn w) b (oracle w) (trace w) (flashes w).

Definition set_oracle (o : list (option sqlite3_error)) (w : World) : World :=
  mkWorld (database w) (txn w) (foreign_keys w) o (trace w) (flashes w).

Definition add_trace (ev : engine_event) (w : World) : World :=
  mkWorld (database w) (txn w) (foreign_keys w) (oracle w)
    (trace w ++ [ev]) (flashes w).

Definition add_flash (msg : pystr) (category : string) (w : World) : World :=
  mkWorld (database w) (txn w) (foreign_keys w) (oracle w) (trace w)
    (flashes w ++ [(msg, category)]).

(** ** Computations: state passing, with exceptions *)

Inductive result (A : Type) :=
| Val (a : A)
| Raised (e : exception).

Arguments Raised {A} e.

Definition M (A : Type) : Type := World -> result A * World.

Definition ret (A : Type) (a : A) : M A := fun w => (Val a, w).

Definition bind (A B : Type) (m : M A) (k : A -> M B) : M B :=
  fun w =>
    match m w with
    | (Val a, w') => k a w'
    | (Raised e, w') => (Raised e, w')
    end.

(** [try: body except sqlite3.Error as e: handler]: an exception that
    is no [sqlite3.Error] passes through. *)
Definition try_except (A : Type) (body : M A)
  (handler : sqlite3_error -> M A) : M A :=
  fun w =>
    match body w with
    | (Raised (Sqlite3Error e), w') => handler e w'
    | r => r
    end.

Definition modify (f : World -> World) : M unit := fun w => (Val tt, f w).

Notation "x <- m ;; k" := (bind m (fun x => k))
  (at level 61, m at next level, right associativity).
Notation "m ;; k" := (bind m (fun _ => k))
  (at level 61, right associativity).

(** A call into the engine: logged, and failing when the oracle says so. *)
Definition engine_call (ev : engine_event) : M unit :=
  fun w =>
    let w1 := add_trace ev w in
    match oracle w with
    | Some e :: rest =>
        (Raised (Sqlite3Error e), add_trace (Raise e) (set_oracle rest w1))
    | None :: rest => (Val tt, set_oracle rest w1)
    | [] => (Val tt, w1)
    end.

(** ** The part of the sqlite3 module the code uses *)

Inductive connection := Connection.

Record cursor (R : Type) := mkCursor {
  fetchall : list R;
  rowcount : Z;
  lastrowid : Z }.

(** [sqlite3.connect(db_path)]: a new connection has no open transaction
    and does not enforce foreign keys. *)
Definition sqlite3_connect : M connection :=
  engine_call Connect ;;
  modify (fun w => set_foreign_keys false (set_txn None w)) ;;
  ret Connection.

(** [conn.execute('PRAGMA foreign_keys = ON')] *)
Definition pragma_foreign_keys (conn : connection) : M unit :=
  engine_call (Execute PRAGMA_FOREIGN_KEYS) ;;
  modify (set_foreign_keys true).

(** [cursor.execute(query, params)]: the statement is prepared, its
    parameters are bound, and it runs on what the connection sees; a
    change stays in the transaction until commit.  An error of the engine
    is an [sqlite3.Error]; the exception of a parameter that cannot be
    bound is not, and the statement does not run then. *)
Definition cursor_execute (R : Type) (conn : connection)
  (query : statement R) : M (cursor R) :=
  engine_call (Execute (stmt_name query)) ;;
  fun w =>
    let current := match txn w with Some d => d | None => database w end in
    match denote query (foreign_keys w) current with
    | SqlRows rows => (Val (mkCursor rows (-1) 0), w)
    | SqlChanged n id db' => (Val (mkCursor [] n id), set_txn (Some db') w)
    | SqlFail e => (Raised (Sqlite3Error e), add_trace (Raise e) w)
    | SqlUnbound e => (Raised (BindError e), w)
    end.

(** [conn.commit()] *)
Definition commit (conn : connection) : M unit :=
  engine_call Commit ;;
  modify (fun w =>
            match txn w with
            | Some d => set_txn None (set_database d w)
            | None => w
            end).

(** [conn.close()]: what was not committed is rolled back. *)
Definition close (conn : connection) : M unit :=
  modify (fun w => set_txn None (add_trace Close w)).

End Engine.

Import Engine.

(* ================================================================== *)
(** * The data-access layer (database.py) *)
(* ================================================================== *)

Module Dal.

Section WithPlatform.
Context {P : Platform}.

(** [get_db_connection]: connect, turn foreign keys on, return the
    connection; [None] on [sqlite3.Error]. *)
Definition get_db_connection : M (option connection) :=
  try_except
    (conn <- sqlite3_connect ;;
     pragma_foreign_keys conn ;;
     ret (Some conn))
    (fun e => ret None).

(** What [execute_query] returns when it does not fail: the rows when
    [fetch] is true, the number of affected rows otherwise. *)
Definition fetched (R : Type) (fetch : bool) : Type :=
  if fetch then list R else Z.

(** [execute_query(query, params, fetch)]; [query] carries its
    parameters, so the two branches of [if params] are the one call of
    [cursor.execute].  Only [sqlite3.Error] is caught: the exception of a
    parameter that cannot be bound leaves the function, and
    [conn.close()] is not reached. *)
Definition execute_query (R : Type) (query : statement R) (fetch : bool)
  : M (option (fetched R fetch)) :=
  conn <- get_db_connection ;;
  match conn with
  | None => ret None
  | Some conn =>
      try_except
        (cursor <- cursor_execute conn query ;;
         match fetch as b return M (option (fetched R b)) with
         | true =>
             let results := fetchall cursor in
             close conn ;;
             ret (Some results)
         | false =>
             let rows_affected := rowcount cursor in
             commit conn ;;
             close conn ;;
             ret (Some rows_affected)
         end)
        (fun e => close conn ;; ret None)
  end.

(** [results[0] if results else None] *)
Definition first_or_none (R : Type) (results : option (list R)) : option R :=
  match results with
  | Some (r :: _) => Some r
  | _ => None
  end.

(** ** Volunteers *)

Definition create_volunteer (first_name last_name date_of_birth email phone
                             address : pystr) : M (option Z) :=
  let query :=
    mkStatement INSERT_VOLUNTEER
      (fun _ => sql_insert_volunteer first_name last_name date_of_birth
                  email phone address) in
  conn <- get_db_connection ;;
  match conn with
  | None => ret None
  | Some conn =>
      try_except
        (cursor <- cursor_execute conn query ;;
         let volunteer_id := lastrowid cursor in
         commit conn ;;
         close conn ;;
         ret (Some volunteer_id))
        (fun e => close conn ;; ret None)
  end.

Definition get_all_volunteers : M (option (list VolunteerRow)) :=
  execute_query
    (mkStatement SELECT_VOLUNTEERS (fun _ => sql_select_volunteers)) true.

Definition get_volunteer_by_id (volunteer_id : Z) : M (option VolunteerRow) :=
  results <- execute_query
               (mkStatement SELECT_VOLUNTEER_BY_ID
                  (fun _ => sql_select_volunteer_by_id volunteer_id)) true ;;
  ret (first_or_none results).

Definition update_volunteer_phone (volunteer_id : Z) (new_phone : pystr)
  : M (option Z) :=
  execute_query
    (mkStatement UPDATE_VOLUNTEER_PHONE
       (fun _ => sql_update_volunteer_phone new_phone volunteer_id)) false.

(** ** Organisations *)

Definition get_all_organisations : M (option (list OrganisationRow)) :=
  execute_query
    (mkStatement SELECT_ORGANISATIONS (fun _ => sql_select_organisations))
    true.

Definition get_organisation_by_id (org_id : Z) : M (option OrganisationRow) :=
  results <- execute_query
               (mkStatement SELECT_ORGANISATION_BY_ID
                  (fun _ => sql_select_organisation_by_id org_id)) true ;;
  ret (first_or_none results).

(** ** Events *)

Definition get_all_events : M (option (list EventListRow)) :=
  execute_query (mkStatement SELECT_EVENTS (fun _ => sql_select_events)) true.

Definition get_event_by_id (event_id : Z) : M (option EventDetailRow) :=
  results <- execute_query
               (mkStatement SELECT_EVENT_BY_ID
                  (fun _ => sql_select_event_by_id event_id)) true ;;
  ret (first_or_none results).

Definition delete_event (event_id : Z) : M (option Z) :=
  execute_query (mkStatement DELETE_EVENT (sql_delete_event event_id)) false.

(** ** Reporting queries (deliverable 3) *)

Definition search_volunteers_by_skill (skill_name : pystr)
  : M (option (list SearchRow)) :=
  execute_query
    (mkStatement SELECT_VOLUNTEERS_BY_SKILL
       (fun _ => sql_select_volunteers_by_skill
                   (lit "%" ++ skill_name ++ lit "%"))) true.

Definition get_volunteers_for_organisation_events (org_id : Z)
  : M (option (list OrgVolunteerRow)) :=
  execute_query
    (mkStatement SELECT_VOLUNTEERS_FOR_ORGANISATION
       (fun _ => sql_select_volunteers_for_organisation org_id)) true.

Definition get_event_statistics : M (option (list EventStatRow)) :=
  execute_query
    (mkStatement SELECT_EVENT_STATISTICS
       (fun _ => sql_select_event_statistics)) true.

Definition get_volunteers_with_calculated_fields
  : M (option (list CalcRow)) :=
  execute_query
    (mkStatement SELECT_VOLUNTEERS_CALCULATED
       (fun _ => sql_select_volunteers_calculated)) true.

Definition get_skill_distribution : M (option (list SkillDistRow)) :=
  execute_query
    (mkStatement SELECT_SKILL_DISTRIBUTION
       (fun _ => sql_select_skill_distribution)) true.

Definition get_organisation_event_summary
  : M (option (list OrgSummaryRow)) :=
  execute_query
    (mkStatement SELECT_ORGANISATION_SUMMARY
       (fun _ => sql_select_organisation_summary)) true.

Definition get_all_skills : M (option (list SkillRow)) :=
  execute_query (mkStatement SELECT_SKILLS (fun _ => sql_select_skills)) true.

(** ** The connection test *)

Definition expected_tables : list string :=
  [T_VOLUNTEER; T_ORGANISATION; T_SKILL; T_EVENT; T_VOLUNTEER_EVENT;
   T_VOLUNTEER_SKILL; T_EVENT_SKILL].

(** [a.issubset(b)] *)
Definition issubset (a b : list string) : bool :=
  forallb (fun x => existsb (String.eqb x) b) a.

Definition test_database_connection : M bool :=
  conn <- get_db_connection ;;
  match conn with
  | None => ret false
  | Some conn =>
      try_except
        (cursor <- cursor_execute conn
                     (mkStatement SELECT_TABLE_NAMES
                        (fun _ => sql_select_table_names)) ;;
         let tables := fetchall cursor in
         let actual_tables := tables in
         close conn ;;
         ret (issubset expected_tables actual_tables))
        (fun e => close conn ;; ret false)
  end.

End WithPlatform.

(** The operations of the layer, by the type of what they return when no
    fault occurs. *)
Inductive operation : Type -> Type :=
| CreateVolunteer (first_name last_name date_of_birth email phone
                   address : pystr) : operation Z
| GetAllVolunteers : operation (list VolunteerRow)
| GetVolunteerById (volunteer_id : Z) : operation VolunteerRow
| UpdateVolunteerPhone (volunteer_id : Z) (new_phone : pystr) : operation Z
| GetAllOrganisations : operation (list OrganisationRow)
| GetOrganisationById (org_id : Z) : operation OrganisationRow
| GetAllEvents : operation (list EventListRow)
| GetEventById (event_id : Z) : operation EventDetailRow
| DeleteEvent (event_id : Z) : operation Z
| SearchVolunteersBySkill (skill_name : pystr) : operation (list SearchRow)
| GetVolunteersForOrganisationEvents (org_id : Z)
  : operation (list OrgVolunteerRow)
| GetEventStatistics : operation (list EventStatRow)
| GetVolunteersWithCalculatedFields : operation (list CalcRow)
| GetSkillDistribution : operation (list SkillDistRow)
| GetOrganisationEventSummary : operation (list OrgSummaryRow)
| GetAllSkills : operation (list SkillRow).

Definition run {P : Platform} (A : Type) (op : operation A) : M (option A) :=
  match op in operation T return M (option T) with
  | CreateVolunteer f l d e p a => create_volunteer f l d e p a
  | GetAllVolunteers => get_all_volunteers
  | GetVolunteerById v => get_volunteer_by_id v
  | UpdateVolunteerPhone v p => update_volunteer_phone v p
  | GetAllOrganisations => get_all_organisations
  | GetOrganisationById o => get_organisation_by_id o
  | GetAllEvents => get_all_events
  | GetEventById e => get_event_by_id e
  | DeleteEvent e => delete_event e
  | SearchVolunteersBySkill s => search_volunteers_by_skill s
  | GetVolunteersForOrganisationEvents o =>
      get_volunteers_for_organisation_events o
  | GetEventStatistics => get_event_statistics
  | GetVolunteersWithCalculatedFields =>
      get_volunteers_with_calculated_fields
  | GetSkillDistribution => get_skill_distribution
  | GetOrganisationEventSummary => get_organisation_event_summary
  | GetAllSkills => get_all_skills
  end.

(** A returned Python object, as far as a caller can tell a failure from
    it: [None], a boolean, or anything else. *)
Inductive py_value :=
| PyNone
| PyBool (b : bool)
| PyObject (A : Type) (a : A).

Definition of_option (A : Type) (r : option A) : py_value :=
  match r with
  | Some a => PyObject a
  | None => PyNone
  end.

(** Every function of the layer that talks to the engine: the sixteen
    operations and the connection test. *)
Inductive entry_point :=
| Operation (A : Type) (op : operation A)
| TestDatabaseConnection.

Definition call {P : Platform} (f : entry_point) : M py_value :=
  match f with
  | Operation op => r <- run op ;; ret (of_option r)
  | TestDatabaseConnection => b <- test_database_connection ;; ret (PyBool b)
  end.

(** What an entry point returns after a fault. *)
Definition failure_value (f : entry_point) : py_value :=
  match f with
  | Operation _ => PyNone
  | TestDatabaseConnection => PyBool false
  end.

(** Whether the engine raised an error among the logged events. *)
Definition raised (evs : list engine_event) : bool :=
  existsb (fun ev => match ev with Raise _ => true | _ => false end) evs.

End Dal.

Import Dal.

(* ================================================================== *)
(** * The request handlers (app.py) *)
(* ================================================================== *)

Module App.

Local Open Scope string_scope.
Local Open Scope list_scope.

Inductive http_method := GET | POST.

(** A request: its method and the submitted form fields.  Flask decodes
    the submitted bytes as UTF-8 and replaces what does not decode, so the
    text of a field holds no surrogate. *)
Record request := mkRequest {
  method : http_method;
  form : list (string * pystr);
  form_decoded : forallb (fun field => encodable (snd field)) form = true }.

(** [request.form.get(key, default)]: the first value of the key. *)
Fixpoint form_get (form : list (string * pystr)) (key : string)
  (default : pystr) : pystr :=
  match form with
  | [] => default
  | (k, v) :: rest => if String.eqb k key then v else form_get rest key default
  end.

(** The values passed to a template. *)
Inductive template_value :=
| TStr (s : pystr)
| TInt (n : Z)
| TBool (b : bool)
| TVolunteer (v : VolunteerRow)
| TVolunteers (l : list VolunteerRow)
| TOrganisations (l : list OrganisationRow)
| TEvents (l : list EventListRow).

(** What a handler returns: [render_template(name, **context)] or
    [redirect(url_for(endpoint))]. *)
Inductive response :=
| render_template (template : string) (context : list (string * template_value))
| redirect (endpoint : string).

Definition flash (message : pystr) (category : string) : M unit :=
  modify (add_flash message category).

(** [for error in errors: flash(error, 'error')] *)
Fixpoint flash_each (errors : list pystr) (category : string) : M unit :=
  match errors with
  | [] => ret tt
  | error :: rest => flash error category ;; flash_each rest category
  end.

(** [len(rows) if rows else 0]: [None] and the empty list are false. *)
Definition len_or_zero (R : Type) (rows : option (list R)) : Z :=
  match rows with
  | Some (r :: l) => Z.of_nat (List.length (r :: l))
  | _ => 0
  end.

(** [if cond: errors.append(msg)] *)
Definition append_if (cond : bool) (msg : pystr) (errors : list pystr)
  : list pystr :=
  if cond then errors ++ [msg] else errors.

(** Truth value of an integer or [None]: false on [None] and on zero. *)
Definition truthy (x : option Z) : bool :=
  match x with
  | Some n => negb (Z.eqb n 0)
  | None => false
  end.

(** [rows_affected and rows_affected > 0] *)
Definition some_rows (rows_affected : option Z) : bool :=
  truthy rows_affected
  && match rows_affected with Some n => Z.gtb n 0 | None => false end.

Section WithPlatform.
Context {P : Platform}.

(** [index], route [/] *)
Definition index : M response :=
  db_status <- test_database_connection ;;
  volunteers <- get_all_volunteers ;;
  organisations <- get_all_organisations ;;
  events <- get_all_events ;;
  let volunteer_count := len_or_zero volunteers in
  let organisation_count := len_or_zero organisations in
  let event_count := len_or_zero events in
  ret (render_template "index.html"
         [("db_status", TBool db_status);
          ("volunteer_count", TInt volunteer_count);
          ("organisation_count", TInt organisation_count);
          ("event_count", TInt event_count)]).

(** The validation of [new_volunteer]: every check adds its message. *)
Definition volunteer_errors (first_name last_name date_of_birth email phone
                             address : pystr) : list pystr :=
  let errors := [] in
  let errors :=
    append_if (is_empty first_name) (lit "First name is required") errors in
  let errors :=
    append_if (is_empty last_name) (lit "Last name is required") errors in
  let errors :=
    append_if (is_empty date_of_birth) (lit "Date of birth is required")
      errors in
  let errors :=
    append_if (is_empty email || negb (validate_email email))
      (lit "Valid email address is required") errors in
  let errors :=
    append_if (is_empty phone || negb (validate_phone phone))
      (lit "Valid phone number is required") errors in
  let errors :=
    append_if (is_empty address) (lit "Address is required") errors in
  match strptime date_of_birth with
  | Some dob =>
      append_if (date_geb dob today)
        (lit "Date of birth must be in the past") errors
  | None => errors ++ [lit "Invalid date format"]
  end.

Definition volunteer_form (first_name last_name date_of_birth email phone
                           address : pystr) : response :=
  render_template "new_volunteer.html"
    [("first_name", TStr first_name); ("last_name", TStr last_name);
     ("date_of_birth", TStr date_of_birth); ("email", TStr email);
     ("phone", TStr phone); ("address", TStr address)].

(** [new_volunteer], route [/volunteers/new] *)
Definition new_volunteer (req : request) : M response :=
  match method req with
  | POST =>
      let first_name := strip (form_get (form req) "first_name" []) in
      let last_name := strip (form_get (form req) "last_name" []) in
      let date_of_birth := strip (form_get (form req) "date_of_birth" []) in
      let email := strip (form_get (form req) "email" []) in
      let phone := strip (form_get (form req) "phone" []) in
      let address := strip (form_get (form req) "address" []) in
      let errors :=
        volunteer_errors first_name last_name date_of_birth email phone
          address in
      match errors with
      | _ :: _ =>
          flash_each errors "error" ;;
          ret (volunteer_form first_name last_name date_of_birth email phone
                 address)
      | [] =>
          volunteer_id <- create_volunteer first_name last_name date_of_birth
                            email phone address ;;
          if truthy volunteer_id then
            flash (lit "Volunteer " ++ first_name ++ lit " " ++ last_name
                   ++ lit " created successfully!") "success" ;;
            ret (redirect "view_volunteers")
          else
            flash (lit "Error creating volunteer. Please check your input and try again.")
              "error" ;;
            ret (volunteer_form first_name last_name date_of_birth email
                   phone address)
      end
  | GET => ret (render_template "new_volunteer.html" [])
  end.



Definition phone_form (volunteer : VolunteerRow) (new_phone : pystr)
  : response :=
  render_template "update_volunteer_phone.html"
    [("volunteer", TVolunteer volunteer); ("new_phone", TStr new_phone)].

(** [update_volunteer_contact], route
    [/volunteers/<int:volunteer_id>/update_phone] *)
Definition update_volunteer_contact (volunteer_id : Z) (req : request)
  : M response :=
  volunteer <- get_volunteer_by_id volunteer_id ;;
  match volunteer with
  | None =>
      flash (lit "Volunteer not found") "error" ;;
      ret (redirect "view_volunteers")
  | Some volunteer =>
      match method req with
      | POST =>
          let new_phone := strip (form_get (form req) "phone" []) in
          if is_empty new_phone then
            flash (lit "Phone number is required") "error" ;;
            ret (phone_form volunteer new_phone)
          else if negb (validate_phone new_phone) then
            flash (lit "Please enter a valid phone number") "error" ;;
            ret (phone_form volunteer new_phone)
          else
            rows_affected <- update_volunteer_phone volunteer_id new_phone ;;
            if some_rows rows_affected then
              flash (lit "Phone number updated successfully for "
                     ++ first_name volunteer ++ lit " "
                     ++ last_name volunteer) "success" ;;
              ret (redirect "view_volunteers")
            else
              flash (lit "Error updating phone number. Please try again.")
                "error" ;;
              ret (phone_form volunteer new_phone)
      | GET =>
          ret (render_template "update_volunteer_phone.html"
                 [("volunteer", TVolunteer volunteer)])
      end
  end.


(** [delete_event_route], route [/events/<int:event_id>/delete], POST *)
Definition delete_event_route (event_id : Z) : M response :=
  event <- get_event_by_id event_id ;;
  match event with
  | None =>
      flash (lit "Event not found") "error" ;;
      ret (redirect "view_events")
  | Some event =>
      rows_affected <- delete_event event_id ;;
      (if some_rows rows_affected then
         flash (lit "Event " ++ [34%N] ++ ed_event_name event ++ [34%N]
                ++ lit " deleted successfully") "success"
       else
         flash (lit "Error deleting event. Please try again.") "error") ;;
      ret (redirect "view_events")
  end.



End WithPlatform.

End App.

Import App.

(* ================================================================== *)
(** * A platform and a database to run the code on *)
(* ================================================================== *)

Module Sample.

Local Open Scope Z_scope.

(** The code points that [\d] matches in a Python regular expression and
    that [int] reads: the decimal digits of Unicode 14.0.0 (category Nd),
    in runs that start at a digit zero. *)
Definition decimal_ranges : list (N * N) :=
  [(48, 57); (1632, 1641); (1776, 1785); (1984, 1993); (2406, 2415);
   (2534, 2543); (2662, 2671); (2790, 2799); (2918, 2927); (3046, 3055);
   (3174, 3183); (3302, 3311); (3430, 3439); (3558, 3567); (3664, 3673);
   (3792, 3801); (3872, 3881); (4160, 4169); (4240, 4249); (6112, 6121);
   (6160, 6169); (6470, 6479); (6608, 6617); (6784, 6793); (6800, 6809);
   (6992, 7001); (7088, 7097); (7232, 7241); (7248, 7257); (42528, 42537);
   (43216, 43225); (43264, 43273); (43472, 43481); (43504, 43513);
   (43600, 43609); (44016, 44025); (65296, 65305); (66720, 66729);
   (68912, 68921); (69734, 69743); (69872, 69881); (69942, 69951);
   (70096, 70105); (70384, 70393); (70736, 70745); (70864, 70873);
   (71248, 71257); (71360, 71369); (71472, 71481); (71904, 71913);
   (72016, 72025); (72784, 72793); (73040, 73049); (73120, 73129);
   (92768, 92777); (92864, 92873); (93008, 93017); (120782, 120831);
   (123200, 123209); (123632, 123641); (125264, 125273);
   (130032, 130041)]%N.

Definition decimal_value (c : N) : option Z :=
  match find (fun r => N.leb (fst r) c && N.leb c (snd r)) decimal_ranges with
  | Some r => Some (Z.of_N ((c - fst r) mod 10))
  | None => None
  end.

(** A code point between two ASCII characters. *)
Definition between (lo hi : ascii) (c : N) : bool :=
  N.leb (chr lo) c && N.leb c (chr hi).

Definition ascii_value (c : N) : Z := Z.of_N c - 48.

Definition leap_year (y : Z) : bool :=
  (y mod 4 =? 0) && (negb (y mod 100 =? 0) || (y mod 400 =? 0)).

Definition days_in_month (y m : Z) : Z :=
  if m =? 2 then (if leap_year y then 29 else 28)
  else if (m =? 4) || (m =? 6) || (m =? 9) || (m =? 11) then 30
  else 31.

(** [%Y]: four decimal digits. *)
Definition year_of (s : pystr) : option (Z * pystr) :=
  match s with
  | a :: b :: c :: d :: rest =>
      match decimal_value a, decimal_value b, decimal_value c,
            decimal_value d with
      | Some a, Some b, Some c, Some d =>
          Some (1000 * a + 100 * b + 10 * c + d, rest)
      | _, _, _, _ => None
      end
  | _ => None
  end.

(** [%m], the expression [1[0-2]|0[1-9]|[1-9]], the first alternative
    that matches here and lets the rest match. *)
Definition month_of (s : pystr) : option (Z * pystr) :=
  match s with
  | a :: b :: rest =>
      if N.eqb a (chr "1") && between "0" "2" b
      then Some (10 + ascii_value b, rest)
      else if N.eqb a (chr "0") && between "1" "9" b
      then Some (ascii_value b, rest)
      else if between "1" "9" a then Some (ascii_value a, b :: rest)
      else None
  | [a] => if between "1" "9" a then Some (ascii_value a, []) else None
  | [] => None
  end.

(** [%d], the expression [3[0-1]|[1-2]\d|0[1-9]|[1-9]| [1-9]], the first
    alternative that matches here. *)
Definition day_of (s : pystr) : option (Z * pystr) :=
  match s with
  | a :: b :: rest =>
      if N.eqb a (chr "3") && between "0" "1" b
      then Some (30 + ascii_value b, rest)
      else
        match (if between "1" "2" a then decimal_value b else None) with
        | Some d => Some (10 * ascii_value a + d, rest)
        | None =>
            if N.eqb a (chr "0") && between "1" "9" b
            then Some (ascii_value b, rest)
            else if between "1" "9" a then Some (ascii_value a, b :: rest)
            else if N.eqb a (chr " ") && between "1" "9" b
            then Some (ascii_value b, rest)
            else None
        end
  | [a] => if between "1" "9" a then Some (ascii_value a, []) else None
  | [] => None
  end.

Definition after_hyphen (s : pystr) : option pystr :=
  match s with
  | c :: rest => if N.eqb c (chr "-") then Some rest else None
  | [] => None
  end.

(** [datetime.strptime(s, '%Y-%m-%d').date()] of Python 3.11: the whole
    text has to match, and the three numbers have to make a date. *)
Definition iso_date (s : pystr) : option date :=
  match year_of s with
  | Some (y, s1) =>
      match after_hyphen s1 with
      | Some s2 =>
          match month_of s2 with
          | Some (m, s3) =>
              match after_hyphen s3 with
              | Some s4 =>
                  match day_of s4 with
                  | Some (d, []) =>
                      if (1 <=? y) && (d <=? days_in_month y m)
                      then Some (mkDate y m d) else None
                  | _ => None
                  end
              | None => None
              end
          | None => None
          end
      | None => None
      end
  | None => None
  end.

(** The Julian day number of a Gregorian date. *)
Definition julian_day_number (d : date) : Z :=
  let a := (14 - month d) / 12 in
  let y := year d + 4800 - a in
  let m := month d + 12 * a - 3 in
  day d + (153 * m + 2) / 5 + 365 * y + y / 4 - y / 100 + y / 400 - 32045.

(** Midnight at the start of the day is half a day before its number. *)
Definition julianday_of (d : date) : Q := Qmake (2 * julian_day_number d - 1) 2.

Definition two_digits (a b : N) : option Z :=
  if between "0" "9" a && between "0" "9" b
  then Some (10 * ascii_value a + ascii_value b) else None.

(** SQLite's reading of the text [YYYY-MM-DD]: ASCII digits, a month from
    01 to 12 and a day from 01 to 31, days beyond the end of the month
    counting on into the next.  The other texts [julianday] reads (with
    a time of day, a Julian day number, ['now']) do not occur as dates in
    the sample database and are left out. *)
Definition sqlite_date (s : pystr) : option date :=
  match s with
  | [y1; y2; y3; y4; h1; m1; m2; h2; d1; d2] =>
      match two_digits y1 y2, two_digits y3 y4, two_digits m1 m2,
            two_digits d1 d2 with
      | Some c, Some y, Some m, Some d =>
          if N.eqb h1 (chr "-") && N.eqb h2 (chr "-")
             && (1 <=? m) && (m <=? 12) && (1 <=? d) && (d <=? 31)
          then Some (mkDate (100 * c + y) m d) else None
      | _, _, _, _ => None
      end
  | _ => None
  end.

Definition unique_keys (keys : list Z) : bool :=
  Nat.eqb (List.length (nodup Z.eq_dec keys)) (List.length keys).

(** A platform: Python's dates, the day of the run, SQLite's dates, its
    rule for new keys (one more than the largest key in use, as long as
    that is not the largest INTEGER), a primary key on VOLUNTEER, the two
    ON DELETE actions as given, and a plan that scans SKILL innermost. *)
Definition platform (ve_action es_action : fk_action) : Platform :=
  {| strptime := iso_date;
     today := mkDate 2025 6 15;
     julianday := fun s => option_map julianday_of (sqlite_date s);
     julianday_now := julianday_of (mkDate 2025 6 15);
     new_rowid := fun keys =>
                    match keys with
                    | [] => 1
                    | k :: rest => 1 + fold_left Z.max rest k
                    end;
     registration_date_default := lit "2025-06-15 00:00:00";
     volunteer_table_ok := fun t => unique_keys (map volunteer_id t);
     ve_event_on_delete := ve_action;
     es_event_on_delete := es_action;
     search_plan := SkillLast |}.

Definition ada : VolunteerRow :=
  mkVolunteer 1 (lit "Ada") (lit "Young") (lit "1990-03-01")
    (lit "ada@example.org") (lit "0412 345 678") (lit "1 High St")
    (lit "2025-01-10").

Definition ben : VolunteerRow :=
  mkVolunteer 2 (lit "Ben") (lit "Abbott") (lit "1985-11-23")
    (lit "ben@example.org") (lit "(02) 9876 5432") (lit "2 Low St")
    (lit "2025-01-11").

Definition cal : VolunteerRow :=
  mkVolunteer 3 (lit "Cal") (lit "Abbott") (lit "2001-07-09")
    (lit "cal@example.org") (lit "0400-111-222") (lit "3 Mid St")
    (lit "2025-02-02").

Definition shelter : OrganisationRow :=
  mkOrganisation 1 (lit "Shelter") (lit "hi@shelter.org") (lit "0299990000")
    (lit "9 Dock Rd") (lit "Charity") (lit "Housing").

Definition cleanup : EventRow :=
  mkEvent 1 (lit "Beach cleanup") (lit "") (lit "2025-07-01")
    (lit "2025-07-02") (lit "Bondi") 2 1.

Definition cookout : EventRow :=
  mkEvent 2 (lit "Cookout") (lit "") (lit "2025-08-01") (lit "2025-08-01")
    (lit "Hall") 5 1.

Definition fair : EventRow :=
  mkEvent 3 (lit "Fair") (lit "") (lit "2025-09-01") (lit "2025-09-03")
    (lit "Park") 3 1.

(** An event that takes no volunteers. *)
Definition briefing : EventRow :=
  mkEvent 4 (lit "Briefing") (lit "") (lit "2025-06-20") (lit "2025-06-20")
    (lit "Office") 0 1.

Definition registration (v e : Z) : VolunteerEventRow :=
  mkVolunteerEvent v (Some e) (lit "2025-06-01") (lit "Registered").

Definition cooking : SkillRow :=
  mkSkill 1 (lit "Cooking") (lit "") (lit "Catering").

Definition driving : SkillRow :=
  mkSkill 2 (lit "Driving") (lit "") (lit "Transport").

Definition all_tables : list string :=
  [T_VOLUNTEER; T_ORGANISATION; T_SKILL; T_EVENT; T_VOLUNTEER_EVENT;
   T_VOLUNTEER_SKILL; T_EVENT_SKILL].

Definition community : Database :=
  mkDatabase all_tables
    [ada; ben; cal]
    [shelter]
    [cooking; driving]
    [cleanup; cookout; fair; briefing]
    [registration 1 1; registration 2 1; registration 3 2]
    [mkVolunteerSkill 1 1 (lit "Expert") (Some 7);
     mkVolunteerSkill 2 1 (lit "Beginner") (Some 1)]
    [mkEventSkill (Some 2) 1].

(** A request that starts on database [db], with the engine faults
    [faults] ahead. *)
Definition world (db : Database) (faults : list (option sqlite3_error))
  : World :=
  mkWorld db None false faults [] [].

(** A submission whose date of birth is the day after [today]. *)
Definition born_tomorrow : request :=
  mkRequest POST
    [("first_name"%string, lit "Dee"); ("last_name"%string, lit "Lee");
     ("date_of_birth"%string, lit "2025-06-16");
     ("email"%string, lit "dee@example.org");
     ("phone"%string, lit "0412 000 111");
     ("address"%string, lit "4 New St")] eq_refl.

Definition new_phone : request :=
  mkRequest POST [("phone"%string, lit "0499 888 777")] eq_refl.

Definition bad_phone : request :=
  mkRequest POST [("phone"%string, lit "123")] eq_refl.


End Sample.

(* ================================================================== *)
(** * The properties, as predicates on the code *)
(* ================================================================== *)

Module Properties.

(** ** Phone numbers *)

Definition without_separators (s : pystr) : pystr :=
  filter (fun c => negb (is_separator c)) s.

(** Non-empty, decimal digits only, at least ten of them. *)
Definition decimal_phone (s : pystr) : Prop :=
  let r := without_separators s in
  r <> [] /\ Forall (fun c => is_decimal_digit c = true) r
  /\ 10 <= List.length r.

(** The same with the digits of [str.isdigit]. *)
Definition digit_phone (s : pystr) : Prop :=
  let r := without_separators s in
  r <> [] /\ Forall (fun c => isdigit_char c = true) r
  /\ 10 <= List.length r.

(** ** E-mail addresses *)

(** [s] contains ["@"], and a ["."] after the last of them. *)
Definition dot_after_last_at (s : pystr) : Prop :=
  In (chr "@") s
  /\ exists pre suf,
       s = pre ++ chr "@" :: suf /\ ~ In (chr "@") suf /\ In (chr ".") suf.

(** ** Storage faults *)

(** The engine events a run from [w] to [w'] added to the log. *)
Definition new_events (w w' : World) : list engine_event :=
  skipn (List.length (trace w)) (trace w').

(** One of the next [n] calls of the engine fails for an outside reason. *)
Definition faulty (n : nat) (o : list (option sqlite3_error)) : Prop :=
  exists e, In (Some e) (firstn n o).

(** The parameters an operation binds to its statement, in their order. *)
Definition parameters (A : Type) (op : operation A) : list sql_param :=
  match op with
  | CreateVolunteer f l d e p a =>
      [PText f; PText l; PText d; PText e; PText p; PText a]
  | GetVolunteerById v => [PInt v]
  | UpdateVolunteerPhone v p => [PText p; PInt v]
  | GetOrganisationById o => [PInt o]
  | GetEventById e => [PInt e]
  | DeleteEvent e => [PInt e]
  | SearchVolunteersBySkill s => [PText (lit "%" ++ s ++ lit "%")]
  | GetVolunteersForOrganisationEvents o => [PInt o]
  | _ => []
  end.

(** The exception that binding the parameters of an entry point raises,
    if one of them cannot be bound. *)
Definition unbound (f : entry_point) : option bind_error :=
  match f with
  | Operation op => bind_parameters (parameters op)
  | TestDatabaseConnection => None
  end.

(** Called in [w], the entry point [f] returns [v] if the engine raised an
    error during the call, and it lets no exception out but the one of a
    parameter that cannot be bound, which is no storage fault: the engine
    raised nothing then. *)
Definition on_fault_returns {P : Platform} (v : py_value) (f : entry_point)
  (w : World) : Prop :=
  exists res w',
    call f w = (res, w')
    /\ (raised (new_events w w') = true -> res = Val v)
    /\ match res with
       | Val _ => True
       | Raised e =>
           raised (new_events w w') = false
           /\ exists b, e = BindError b /\ unbound f = Some b
       end.

(** The statement ran or failed in the engine: its parameters were
    bound. *)
Definition bound (R : Type) (o : sql_outcome R) : Prop :=
  forall b, o <> SqlUnbound b.

(** If the parameters were not bound, it is as [failed] says. *)
Definition unbinds_as (R : Type) (failed : option bind_error)
  (o : sql_outcome R) : Prop :=
  forall b, o = SqlUnbound b -> failed = Some b.

(** The events a call of the statement [q] may log: no commit, and no
    statement but the pragma and [q]. *)
Definition reads_only (q : stmt_id) (evs : list engine_event) : Prop :=
  Forall (fun ev =>
            ev <> Commit
            /\ forall s, ev = Execute s -> s = PRAGMA_FOREIGN_KEYS \/ s = q)
         evs.

(** A computation of the data-access layer whose parameters bind as
    [failed] says: it returns [None] if the engine raised an error while
    it ran, and it raises only the exception of the binding, the engine
    having raised none. *)
Definition sentinel_run (A : Type) (failed : option bind_error)
  (m : M (option A)) : Prop :=
  forall w, exists r w' evs,
    m w = (r, w')
    /\ trace w' = trace w ++ evs
    /\ (raised evs = true -> r = Val None)
    /\ match r with
       | Val _ => True
       | Raised e =>
           raised evs = false /\ exists b, e = BindError b /\ failed = Some b
       end.

(** A computation of the data-access layer whose parameters bind as
    [failed] says: it leaves the database as it was when it returns
    [None], when it raises, and, if it only [reads], always; and it raises
    only the exception of the binding. *)
Definition atomic_run (A : Type) (failed : option bind_error) (reads : bool)
  (m : M (option A)) : Prop :=
  forall w, exists r w',
    m w = (r, w')
    /\ (r = Val None -> database w' = database w)
    /\ (reads = true -> database w' = database w)
    /\ match r with
       | Val _ => True
       | Raised e =>
           database w' = database w
           /\ exists b, e = BindError b /\ failed = Some b
       end.

(** ** Submitted forms *)

(** The value of a form field as the handlers read it. *)
Definition submitted (req : request) (key : string) : pystr :=
  strip (form_get (form req) key []).


(** A create-volunteer submission that breaks a rule: a field is missing,
    the e-mail or the phone number is not valid, or the date of birth is
    not a calendar date strictly earlier than today. *)
Definition invalid_submission {P : Platform}
  (fn ln dob em ph ad : pystr) : Prop :=
  fn = [] \/ ln = [] \/ dob = [] \/ em = [] \/ ph = [] \/ ad = []
  \/ validate_email em = false
  \/ validate_phone ph = false
  \/ ~ (exists d, strptime dob = Some d /\ date_compare d today = Lt).

(** Every broken rule has its message in [errors]. *)
Definition reports_all {P : Platform}
  (fn ln dob em ph ad : pystr) (errors : list pystr) : Prop :=
  (fn = [] -> In (lit "First name is required") errors)
  /\ (ln = [] -> In (lit "Last name is required") errors)
  /\ (dob = [] -> In (lit "Date of birth is required") errors)
  /\ (em = [] \/ validate_email em = false ->
      In (lit "Valid email address is required") errors)
  /\ (ph = [] \/ validate_phone ph = false ->
      In (lit "Valid phone number is required") errors)
  /\ (ad = [] -> In (lit "Address is required") errors)
  /\ (strptime dob = None -> In (lit "Invalid date format") errors)
  /\ (forall d, strptime dob = Some d -> date_compare d today <> Lt ->
      In (lit "Date of birth must be in the past") errors).

(** The world [w'] differs from [w] by the flashed messages [msgs] only:
    no call of the engine was made. *)
Definition only_flashed (msgs : list (pystr * string)) (w w' : World) : Prop :=
  database w' = database w
  /\ txn w' = txn w
  /\ foreign_keys w' = foreign_keys w
  /\ oracle w' = oracle w
  /\ trace w' = trace w
  /\ flashes w' = flashes w ++ msgs.

(** ** Event statistics *)

(** The three labels as the specification words them. *)
Definition status_as_stated (r : EventStatRow) : Prop :=
  (st_max_volunteers r <= st_volunteer_count r -> status r = lit "Full")%Z
  /\ (0 < st_volunteer_count r < st_max_volunteers r ->
      status r = lit "Partial")%Z
  /\ (st_volunteer_count r = 0 -> status r = lit "Empty")%Z.

(** The three labels as the CASE expression gives them: "Empty" needs a
    capacity above zero, otherwise the first rule applies. *)
Definition status_by_first_match (r : EventStatRow) : Prop :=
  (st_max_volunteers r <= st_volunteer_count r -> status r = lit "Full")%Z
  /\ (0 < st_volunteer_count r < st_max_volunteers r ->
      status r = lit "Partial")%Z
  /\ (st_volunteer_count r = 0 -> 0 < st_max_volunteers r ->
      status r = lit "Empty")%Z.

Definition count_descending (rows : list EventStatRow) : Prop :=
  StronglySorted
    (fun a b => (st_volunteer_count b <= st_volunteer_count a)%Z) rows.

(** The registrations of event [e]: the VOLUNTEER_EVENT rows that refer
    to it. *)
Definition registrations_of (db : Database) (e : EventRow) : Z :=
  Z.of_nat
    (List.length
       (filter (fun ve => eq_nullable (event_id e) (ve_event_id ve))
               (VOLUNTEER_EVENT db))).

(** [r] is the statistics row of the event [e] of organisation [o]. *)
Definition stat_row_of (db : Database) (e : EventRow) (o : OrganisationRow)
  (r : EventStatRow) : Prop :=
  In e (EVENT db) /\ In o (ORGANISATION db) /\ event_org_id e = org_id o
  /\ st_event_name r = event_name e
  /\ st_org_name r = org_name o
  /\ st_max_volunteers r = max_volunteers e
  /\ st_start_date r = start_date e
  /\ st_end_date r = end_date e.

(** The rows that the left join makes of one event and its organisation. *)
Definition registration_block (db : Database)
  (p : EventRow * OrganisationRow)
  : list (EventRow * OrganisationRow * option VolunteerEventRow) :=
  match filter (fun ve => eq_nullable (event_id (fst p)) (ve_event_id ve))
               (VOLUNTEER_EVENT db) with
  | [] => [(p, None)]
  | matches => map (fun b => (p, Some b)) matches
  end.

(** Primary keys: event ids and organisation ids occur once. *)
Definition unique_ids (db : Database) : Prop :=
  NoDup (map event_id (EVENT db)) /\ NoDup (map org_id (ORGANISATION db)).

(** ** Deleting an event *)





(** ** Skill distribution *)

(** [r] is the row of a skill that some VOLUNTEER_SKILL row refers to. *)
Definition skill_with_volunteer (db : Database) (r : SkillDistRow) : Prop :=
  exists s vs,
    In s (SKILL db) /\ In vs (VOLUNTEER_SKILL db)
    /\ vs_skill_id vs = skill_id s
    /\ sd_skill_name r = skill_name s
    /\ sd_skill_category r = skill_category s.

(** ** Orders *)

Definition str_lt (a b : pystr) : Prop := str_compare a b = Lt.

Definition str_le (a b : pystr) : Prop := str_compare a b <> Gt.


End Properties.

Import Properties.

(* ================================================================== *)
(** * Further properties, as predicates on the code *)
(* ================================================================== *)

Module Behaviour.

(** ** Connections *)

(** The connection was closed once, as the last thing done. *)
Definition closed_once (evs : list engine_event) : Prop :=
  exists before, evs = before ++ [Close] /\ ~ In Close before.

(** ** Writes *)

(** The operations that change the database. *)
Definition writes (A : Type) (op : operation A) : bool :=
  match op with
  | CreateVolunteer _ _ _ _ _ _ => true
  | UpdateVolunteerPhone _ _ => true
  | DeleteEvent _ => true
  | _ => false
  end.

(** Every table but VOLUNTEER is the same in the two databases. *)
Definition only_volunteers_differ (db db' : Database) : Prop :=
  table_names db' = table_names db
  /\ ORGANISATION db' = ORGANISATION db
  /\ SKILL db' = SKILL db
  /\ EVENT db' = EVENT db
  /\ VOLUNTEER_EVENT db' = VOLUNTEER_EVENT db
  /\ VOLUNTEER_SKILL db' = VOLUNTEER_SKILL db
  /\ EVENT_SKILL db' = EVENT_SKILL db.

(** The row that [create_volunteer] inserts under the key [id]. *)
Definition new_volunteer_row {P : Platform} (id : Z)
  (fn ln dob em ph ad : pystr) : VolunteerRow :=
  mkVolunteer id fn ln dob em ph ad registration_date_default.

(** A volunteer after the phone number of the volunteers with key [vid]
    was set to [ph]. *)
Definition with_phone (vid : Z) (ph : pystr) (v : VolunteerRow) : VolunteerRow :=
  if Z.eqb (volunteer_id v) vid then set_phone ph v else v.

(** ** Orders *)

(** A three-way comparison that orders its arguments. *)
Record comparator (A : Type) (cmp : A -> A -> comparison) : Prop := {
  cmp_sym : forall a b, cmp b a = CompOpp (cmp a b);
  cmp_lt_trans : forall a b c, cmp a b = Lt -> cmp b c = Lt -> cmp a c = Lt;
  cmp_eq_left : forall a b c, cmp a b = Eq -> cmp a c = cmp b c }.

(** Ascending by two text keys, the second deciding among equal first. *)
Definition lex_le (A : Type) (k1 k2 : A -> pystr) (a b : A) : Prop :=
  str_lt (k1 a) (k1 b) \/ (k1 a = k1 b /\ str_le (k2 a) (k2 b)).

(** ** Listings *)


(** [row] describes the event with id [eid] and its organisation. *)
Definition detailed_event (db : Database) (eid : Z) (row : EventDetailRow)
  : Prop :=
  exists e o,
    In e (EVENT db) /\ In o (ORGANISATION db)
    /\ event_org_id e = org_id o
    /\ event_id e = eid
    /\ row = event_detail_row (e, o).

(** No event with id [eid] has an organisation. *)
Definition no_joined_event (db : Database) (eid : Z) : Prop :=
  forall e o,
    In e (EVENT db) -> In o (ORGANISATION db) ->
    event_org_id e = org_id o -> event_id e <> eid.

(** ** Searching *)













(** ** Submissions *)

(** A create-volunteer submission that passes every check. *)
Definition valid_submission {P : Platform}
  (fn ln dob em ph ad : pystr) : Prop :=
  fn <> [] /\ ln <> [] /\ dob <> [] /\ ad <> []
  /\ validate_email em = true
  /\ validate_phone ph = true
  /\ exists d, strptime dob = Some d /\ date_compare d today = Lt.

(** The volunteer row that the submission [req] makes under the key
    [id]. *)
Definition submitted_volunteer {P : Platform} (req : request) (id : Z)
  : VolunteerRow :=
  new_volunteer_row id
    (submitted req "first_name") (submitted req "last_name")
    (submitted req "date_of_birth") (submitted req "email")
    (submitted req "phone") (submitted req "address").

(** In the run from [w] to [w'] the one message [msg] was flashed. *)
Definition flashed_once (msg : pystr) (category : string) (w w' : World)
  : Prop :=
  flashes w' = flashes w ++ [(msg, category)].

(** ** The connection test *)

(** Every table the application needs exists. *)
Definition schema_present (db : Database) : Prop :=
  forall t, In t expected_tables -> In t (table_names db).

End Behaviour.

Import Behaviour.

(* ================================================================== *)
(** * Proof tools *)
(* ================================================================== *)

Unset Implicit Arguments.

(** Tactics for runs of the engine: the cases of the oracle, unfolding a
    call down to the engine, and the shape of the logged events. *)
Ltac oracle_cases o := destruct o as [| [?|] o].

Ltac run_engine :=
  unfold execute_query, create_volunteer, test_database_connection,
    get_db_connection, try_except, sqlite3_connect, pragma_foreign_keys,
    cursor_execute, commit, close, bind, modify, ret, engine_call;
  simpl.

Ltac events_ok :=
  repeat (apply Forall_cons;
          [split; [discriminate | intros ? H; inversion H; subst; auto] |]);
  apply Forall_nil.

Ltac trace_eq := simpl; repeat rewrite <- app_assoc; simpl; reflexivity.

(** Whether one of the coming calls of the engine fails. *)
Ltac not_faulty :=
  let e := fresh "e" in
  let H := fresh "H" in
  intros [e H]; simpl in H;
  repeat (destruct H as [H | H]; [discriminate H |]); exact H.

Ltac is_faulty := solve [eexists; simpl; eauto 6].

(* ================================================================== *)
(** * Properties of the validation helpers *)
(* ================================================================== *)

Section ValidationFacts.

Lemma contains_In (c : N) (s : pystr) : contains c s = true <-> In c s.
Proof.
  unfold contains. rewrite existsb_exists. split.
  - intros [x [Hin Heq]]. apply N.eqb_eq in Heq. now subst.
  - intros Hin. exists c. split; [assumption | apply N.eqb_refl].
Qed.

Lemma split_not_nil (sep : N) (s : pystr) : split sep s <> [].
Proof.
  destruct s as [| c r]; simpl; [discriminate |].
  destruct (N.eqb c sep); [discriminate |].
  destruct (split sep r); discriminate.
Qed.

(** Without a separator there is one field, the string itself. *)
Lemma split_no_sep (sep : N) (s : pystr) :
  ~ In sep s -> split sep s = [s].
Proof.
  induction s as [| c r IH]; simpl; intros Hn; [reflexivity |].
  destruct (N.eqb_spec c sep) as [-> | Hne].
  - exfalso. apply Hn. now left.
  - rewrite IH; [reflexivity |]. intros Hin. apply Hn. now right.
Qed.

(** The last field of [pre ++ sep :: suf] is the last field of [suf]. *)
Lemma last_split_app (sep : N) (pre suf : pystr) :
  last_item (split sep (pre ++ sep :: suf)) = last_item (split sep suf).
Proof.
  unfold last_item.
  induction pre as [| c r IH]; simpl.
  - rewrite N.eqb_refl.
    destruct (split sep suf) eqn:E; [now apply split_not_nil in E |].
    reflexivity.
  - destruct (N.eqb c sep).
    + destruct (split sep (r ++ sep :: suf)) eqn:E;
        [now apply split_not_nil in E |].
      exact IH.
    + destruct (split sep (r ++ sep :: suf)) as [| f fs] eqn:E;
        [now apply split_not_nil in E |].
      destruct fs as [| g gs]; [| exact IH].
      (* a single field would mean no separator *)
      exfalso.
      destruct (split sep suf) as [| h hs] eqn:E2;
        [now apply split_not_nil in E2 |].
      clear IH. revert f E.
      induction r as [| d r' IHr]; simpl; intros f E.
      * rewrite N.eqb_refl, E2 in E. discriminate.
      * destruct (N.eqb d sep); [
          destruct (split sep (r' ++ sep :: suf)) eqn:E3;
          [now apply split_not_nil in E3 | discriminate] |].
        destruct (split sep (r' ++ sep :: suf)) as [| f' fs'] eqn:E3;
          [now apply split_not_nil in E3 |].
        injection E as _ Hfs. subst fs'.
        now apply (IHr f').
Qed.

(** A string that contains the separator decomposes around its last
    occurrence. *)
Lemma last_occurrence (sep : N) (s : pystr) :
  In sep s -> exists pre suf, s = pre ++ sep :: suf /\ ~ In sep suf.
Proof.
  induction s as [| c r IH]; simpl; [tauto |].
  intros Hin.
  destruct (in_dec N.eq_dec sep r) as [Hr | Hr].
  - destruct (IH Hr) as [pre [suf [-> Hs]]].
    exists (c :: pre), suf. split; [reflexivity | assumption].
  - destruct Hin as [-> | Hin]; [| contradiction].
    exists [], r. split; [reflexivity | assumption].
Qed.

Lemma replace_empty_filter (old : N) (s : pystr) :
  replace old [] s = filter (fun c => negb (N.eqb c old)) s.
Proof.
  unfold replace. induction s as [| c r IH]; simpl; [reflexivity |].
  destruct (N.eqb c old); simpl; now rewrite IH.
Qed.

Lemma filter_filter (A : Type) (f g : A -> bool) (l : list A) :
  filter f (filter g l) = filter (fun x => g x && f x) l.
Proof.
  induction l as [| x l IH]; simpl; [reflexivity |].
  destruct (g x); simpl; [destruct (f x) |]; now rewrite IH.
Qed.

(** The four replacements together delete exactly the separators. *)
Lemma clean_phone_filter (phone : pystr) :
  replace (chr ")") []
    (replace (chr "(") []
       (replace (chr " ") []
          (replace (chr "-") [] phone)))
  = filter (fun c => negb (is_separator c)) phone.
Proof.
  rewrite !replace_empty_filter, !filter_filter.
  apply filter_ext. intros c. unfold is_separator.
  rewrite !negb_orb. now rewrite !andb_assoc.
Qed.

Lemma isdigit_spec (s : pystr) :
  isdigit s = true <-> s <> [] /\ Forall (fun c => isdigit_char c = true) s.
Proof.
  unfold isdigit. destruct s as [| c r].
  - split; [discriminate | intros [H _]; now contradiction H].
  - rewrite forallb_forall, Forall_forall. split.
    + intros H. split; [discriminate | exact H].
    + intros [_ H]. exact H.
Qed.

(** On ASCII characters [str.isdigit] accepts the decimal digits only. *)
Lemma isdigit_char_ascii (c : N) :
  is_ascii c = true -> isdigit_char c = is_decimal_digit c.
Proof.
  unfold is_ascii, is_decimal_digit. intros Hc. apply N.ltb_lt in Hc.
  unfold isdigit_char, in_ranges, digit_ranges.
  cbn [existsb fst snd].
  destruct (N.leb 48 c && N.leb c 57) eqn:E; [reflexivity |].
  cbn [orb].
  repeat match goal with
  | |- context [N.leb ?a c] =>
      lazymatch a with
      | 48%N => fail
      | _ => replace (N.leb a c) with false
               by (symmetry; apply N.leb_gt; lia)
      end
  end.
  reflexivity.
Qed.

End ValidationFacts.

(* ================================================================== *)
(** * validate_email and validate_phone *)
(* ================================================================== *)

Section ValidationClaims.

Lemma validate_email_iff (s : pystr) :
  validate_email s = true <-> dot_after_last_at s.
Proof.
  unfold validate_email, dot_after_last_at.
  rewrite andb_true_iff, !contains_In. split.
  - intros [Hat Hdot]. split; [assumption |].
    destruct (last_occurrence _ _ Hat) as [pre [suf [Hs Hsuf]]].
    exists pre, suf. repeat split; try assumption.
    rewrite Hs, last_split_app, (split_no_sep _ _ Hsuf) in Hdot.
    exact Hdot.
  - intros [Hat [pre [suf [Hs [Hsuf Hdot]]]]]. split; [assumption |].
    rewrite Hs, last_split_app, (split_no_sep _ _ Hsuf). exact Hdot.
Qed.

(** C6: for every string [s], [validate_email s] is true iff [s] contains
    ["@"] and the substring after the last ["@"] contains ["."];
    [validate_email "a@b.com"] is true, [validate_email "abc"] and
    [validate_email "a@b"] are false. *)
Theorem validate_email_correct :
  (forall s : pystr, validate_email s = true <-> dot_after_last_at s)
  /\ validate_email (lit "a@b.com") = true
  /\ validate_email (lit "abc") = false
  /\ validate_email (lit "a@b") = false.
Proof.
  split; [exact validate_email_iff |].
  repeat split; reflexivity.
Qed.

Lemma validate_phone_iff (s : pystr) :
  validate_phone s = true <-> digit_phone s.
Proof.
  unfold validate_phone, digit_phone, without_separators.
  rewrite clean_phone_filter.
  rewrite andb_true_iff, isdigit_spec, Nat.leb_le. tauto.
Qed.

Lemma digits_of_ascii (r : pystr) :
  Forall (fun c => is_ascii c = true) r ->
  (Forall (fun c => isdigit_char c = true) r
   <-> Forall (fun c => is_decimal_digit c = true) r).
Proof.
  induction 1 as [| c r Hc _ IH].
  - split; constructor.
  - split; intros H; inversion H; subst; constructor;
      try (now apply IH);
      now rewrite ?(isdigit_char_ascii _ Hc) in *.
Qed.

(** C2, as the code has it: [validate_phone s] is true iff what is left of
    [s] after deleting every ["-"], [" "], ["("] and [")"] is non-empty,
    consists of characters that [str.isdigit] accepts, and has length at
    least 10; on strings of ASCII characters these are the decimal digits;
    [validate_phone "0412-345-678"] is true, [validate_phone "12345"] and
    [validate_phone "04-12-AB-CD"] are false. *)
Theorem validate_phone_correct :
  (forall s : pystr, validate_phone s = true <-> digit_phone s)
  /\ (forall s : pystr,
        Forall (fun c => is_ascii c = true) s ->
        (validate_phone s = true <-> decimal_phone s))
  /\ validate_phone (lit "0412-345-678") = true
  /\ validate_phone (lit "12345") = false
  /\ validate_phone (lit "04-12-AB-CD") = false.
Proof.
  split; [exact validate_phone_iff |].
  split; [| repeat split; reflexivity].
  intros s Hs. rewrite validate_phone_iff.
  unfold digit_phone, decimal_phone.
  assert (Hr : Forall (fun c => is_ascii c = true) (without_separators s)).
  { unfold without_separators. rewrite Forall_forall in *.
    intros c Hc. apply filter_In in Hc. now apply Hs. }
  cbv zeta. rewrite (digits_of_ascii _ Hr). tauto.
Qed.

(** The theorem at the phone number of the specification. *)
Lemma validate_phone_correct_witness :
  Forall (fun c => is_ascii c = true) (lit "0412-345-678")
  /\ decimal_phone (lit "0412-345-678").
Proof.
  assert (H : Forall (fun c => is_ascii c = true) (lit "0412-345-678")).
  { repeat constructor. }
  split; [exact H |].
  apply (proj1 (proj2 validate_phone_correct) _ H). reflexivity.
Defined.

(** C2 as stated fails on ten superscript twos: [str.isdigit] accepts
    them, so the number is valid, and none of them is a decimal digit. *)
Lemma validate_phone_superscript_digits :
  validate_phone (repeat 178%N 10) = true
  /\ ~ decimal_phone (repeat 178%N 10).
Proof.
  split; [reflexivity |].
  intros [_ [H _]]. inversion H as [| c r Hc _]. discriminate Hc.
Qed.

End ValidationClaims.

(* ================================================================== *)
(** * What a call of the layer does to the world *)
(* ================================================================== *)

Section Binding.

Lemma on_tables_unbinds (R : Type) (names : list string) (db : Database)
  (params : list sql_param) (k : sql_outcome R) :
  bound k ->
  unbinds_as (bind_parameters params) (on_tables names db (binding params k)).
Proof.
  intros Hk b. unfold on_tables, binding.
  destruct (forallb _ _); [| discriminate].
  destruct (bind_parameters params) as [e |].
  - now intros [= ->].
  - intros H. exfalso. exact (Hk b H).
Qed.

Lemma on_tables_bound (R : Type) (names : list string) (db : Database)
  (k : sql_outcome R) :
  bound k -> bound (on_tables names db k).
Proof.
  intros Hk b. unfold on_tables. destruct (forallb _ _); [apply Hk | discriminate].
Qed.

Lemma binding_bound (R : Type) (params : list sql_param) (k : sql_outcome R) :
  bind_parameters params = None -> bound k -> bound (binding params k).
Proof. intros Hp Hk. unfold binding. now rewrite Hp. Qed.

Lemma bound_unbinds (R : Type) (failed : option bind_error)
  (o : sql_outcome R) :
  bound o -> unbinds_as failed o.
Proof. intros Ho b H. exfalso. exact (Ho b H). Qed.

Lemma int64_binds (n : Z) (rest : list sql_param) :
  int64 n = true -> bind_parameters (PInt n :: rest) = bind_parameters rest.
Proof. intros H. simpl. now rewrite H. Qed.

Lemma encodable_binds (s : pystr) (rest : list sql_param) :
  encodable s = true ->
  bind_parameters (PText s :: rest) = bind_parameters rest.
Proof. intros H. simpl. now rewrite H. Qed.

End Binding.

(** The outcome of a statement is not the exception of a binding: its
    parameters, if it has any, are bound by the hypotheses at hand. *)
Ltac is_bound :=
  intros; simpl denote;
  unfold sql_insert_volunteer, sql_select_volunteers,
    sql_select_volunteer_by_id, sql_update_volunteer_phone,
    sql_select_organisations, sql_select_organisation_by_id,
    sql_select_events, sql_select_event_by_id, sql_delete_event,
    sql_select_volunteers_by_skill, sql_select_volunteers_for_organisation,
    sql_select_event_statistics, sql_select_volunteers_calculated,
    sql_select_skill_distribution, sql_select_organisation_summary,
    sql_select_skills, sql_select_table_names;
  try apply on_tables_bound;
  try (apply binding_bound;
       [repeat first [ rewrite int64_binds by assumption
                     | rewrite encodable_binds by assumption ];
        reflexivity |]);
  let b := fresh "b" in
  intros b; cbv zeta;
  repeat match goal with
         | |- context [if ?c then _ else _] => destruct c
         | |- context [match ?c with _ => _ end] => destruct c
         end;
  discriminate.

Section EngineRuns.
Context {P : Platform}.

Lemma new_events_app (w w' : World) (evs : list engine_event) :
  trace w' = trace w ++ evs -> new_events w w' = evs.
Proof.
  unfold new_events. intros ->.
  rewrite skipn_app, skipn_all, Nat.sub_diag. reflexivity.
Qed.

(** [execute_query] with [fetch=True]: the database is left as it is,
    the rows are those of the statement, [None] is returned exactly when
    the engine raised an error, and the exception of a parameter that
    cannot be bound leaves the function, the connection staying open. *)
Lemma execute_query_fetch_cases (R : Type) (q : statement R) (w : World) :
  exists r w' evs,
    execute_query q true w = (r, w')
    /\ database w' = database w
    /\ flashes w' = flashes w
    /\ trace w' = trace w ++ evs
    /\ reads_only (stmt_name q) evs
    /\ match r with
       | Val (Some rows) =>
           raised evs = false
           /\ match denote q true (database w) with
              | SqlRows l => rows = l
              | SqlChanged _ _ _ => rows = []
              | _ => False
              end
       | Val None => raised evs = true
       | Raised e =>
           raised evs = false
           /\ ~ In Close evs
           /\ exists b,
               e = BindError b /\ denote q true (database w) = SqlUnbound b
       end
    /\ (raised evs = true ->
        faulty 3 (oracle w) \/ exists e, denote q true (database w) = SqlFail e)
    /\ (forall b, denote q true (database w) = SqlUnbound b ->
        faulty 3 (oracle w) \/ r = Raised (BindError b)).
Proof.
  destruct w as [db t fk o tr fl].
  destruct (denote q true db) eqn:E.
  all: oracle_cases o; [| | oracle_cases o; [| | oracle_cases o]];
    run_engine; rewrite ?E.
  all: do 3 eexists; split; [reflexivity |]; simpl.
  all: split; [reflexivity |]; split; [reflexivity |]; split; [trace_eq |].
  all: split; [events_ok |].
  all: rewrite ?E;
    split; [first [ reflexivity
                  | split; reflexivity
                  | split; [reflexivity |];
                    split; [simpl; intuition discriminate | eauto] ] |].
  all: split;
    [ first [ discriminate | intros _; unfold faulty; simpl; eauto 8 ]
    | first [ discriminate
            | intros b Hb; injection Hb as <-;
              first [ right; reflexivity
                    | left; unfold faulty; simpl; eauto 8 ] ] ].
Qed.

Lemma execute_query_fetch_run (R : Type) (q : statement R) (w : World) :
  bound (denote q true (database w)) ->
  exists r w' evs,
    execute_query q true w = (Val r, w')
    /\ database w' = database w
    /\ flashes w' = flashes w
    /\ trace w' = trace w ++ evs
    /\ reads_only (stmt_name q) evs
    /\ match r with
       | Some rows =>
           raised evs = false
           /\ match denote q true (database w) with
              | SqlRows l => rows = l
              | SqlChanged _ _ _ => rows = []
              | _ => False
              end
       | None => raised evs = true
       end
    /\ (raised evs = true ->
        faulty 3 (oracle w) \/ exists e, denote q true (database w) = SqlFail e).
Proof.
  intros Hbound.
  destruct (execute_query_fetch_cases _ q w)
    as (r & w' & evs & Hrun & Hdb & Hfl & Htr & Hro & Hr & Hf & _).
  destruct r as [r | e].
  - exists r, w', evs. destruct r; auto 10.
  - exfalso. destruct Hr as (_ & _ & b & _ & Hb). exact (Hbound b Hb).
Qed.

(** [execute_query] with [fetch=False]: the change of the statement is
    committed when a row count is returned, and nothing is changed when
    [None] is returned or the exception of a binding leaves the
    function. *)
Lemma execute_query_change_cases (R : Type) (q : statement R) (w : World) :
  exists r w' evs,
    execute_query q false w = (r, w')
    /\ flashes w' = flashes w
    /\ trace w' = trace w ++ evs
    /\ match r with
       | Val (Some n) =>
           raised evs = false
           /\ match denote q true (database w) with
              | SqlRows _ => n = (-1)%Z /\ database w' = database w
              | SqlChanged m _ db' => n = m /\ database w' = db'
              | _ => False
              end
       | Val None => raised evs = true /\ database w' = database w
       | Raised e =>
           raised evs = false
           /\ database w' = database w
           /\ ~ In Close evs /\ ~ In Commit evs
           /\ exists b,
               e = BindError b /\ denote q true (database w) = SqlUnbound b
       end
    /\ (raised evs = true ->
        faulty 4 (oracle w) \/ exists e, denote q true (database w) = SqlFail e)
    /\ In Connect evs
    /\ (forall b, denote q true (database w) = SqlUnbound b ->
        faulty 3 (oracle w) \/ r = Raised (BindError b)).
Proof.
  destruct w as [db t fk o tr fl].
  destruct (denote q true db) eqn:E.
  all: oracle_cases o;
    [| | oracle_cases o; [| | oracle_cases o; [| | oracle_cases o]]];
    run_engine; rewrite ?E.
  all: do 3 eexists; split; [reflexivity |]; simpl.
  all: split; [reflexivity |]; split; [trace_eq |].
  all: rewrite ?E;
    split; [first [ split; reflexivity
                  | split; [reflexivity | split; reflexivity]
                  | split; [reflexivity |]; split; [reflexivity |];
                    split; [simpl; intuition discriminate |];
                    split; [simpl; intuition discriminate | eauto] ] |].
  all: split;
    [ first [ discriminate | intros _; unfold faulty; simpl; eauto 10 ] |].
  all: split; [now left |].
  all: first [ discriminate
             | intros b Hb; injection Hb as <-;
               first [ right; reflexivity
                     | left; unfold faulty; simpl; eauto 8 ] ].
Qed.

Lemma execute_query_change_run (R : Type) (q : statement R) (w : World) :
  bound (denote q true (database w)) ->
  exists r w' evs,
    execute_query q false w = (Val r, w')
    /\ flashes w' = flashes w
    /\ trace w' = trace w ++ evs
    /\ match r with
       | Some n =>
           raised evs = false
           /\ match denote q true (database w) with
              | SqlRows _ => n = (-1)%Z /\ database w' = database w
              | SqlChanged m _ db' => n = m /\ database w' = db'
              | _ => False
              end
       | None => raised evs = true /\ database w' = database w
       end
    /\ (raised evs = true ->
        faulty 4 (oracle w) \/ exists e, denote q true (database w) = SqlFail e)
    /\ In Connect evs.
Proof.
  intros Hbound.
  destruct (execute_query_change_cases _ q w)
    as (r & w' & evs & Hrun & Hfl & Htr & Hr & Hf & Hc & _).
  destruct r as [r | e].
  - exists r, w', evs. destruct r; auto 10.
  - exfalso. destruct Hr as (_ & _ & _ & _ & b & _ & Hb). exact (Hbound b Hb).
Qed.

(** [create_volunteer]: the generated key, or [None] and no change, or
    the exception of a text that cannot be bound and no change. *)
Lemma create_volunteer_cases (fn ln dob em ph ad : pystr) (w : World) :
  exists r w' evs,
    create_volunteer fn ln dob em ph ad w = (r, w')
    /\ flashes w' = flashes w
    /\ trace w' = trace w ++ evs
    /\ match r with
       | Val (Some id) =>
           raised evs = false
           /\ exists n,
               sql_insert_volunteer fn ln dob em ph ad (database w)
               = SqlChanged n id (database w')
       | Val None => raised evs = true /\ database w' = database w
       | Raised e =>
           raised evs = false
           /\ database w' = database w
           /\ exists b,
               e = BindError b
               /\ sql_insert_volunteer fn ln dob em ph ad (database w)
                  = SqlUnbound b
       end
    /\ In Connect evs.
Proof.
  destruct w as [db t fk o tr fl].
  destruct (sql_insert_volunteer fn ln dob em ph ad db) eqn:E.
  1: { exfalso. unfold sql_insert_volunteer, on_tables, binding in E.
       destruct (forallb _ _); [| discriminate].
       destruct (bind_parameters _); [discriminate |].
       destruct (volunteer_table_ok _); discriminate. }
  all: oracle_cases o;
    [| | oracle_cases o; [| | oracle_cases o; [| | oracle_cases o]]];
    run_engine; rewrite ?E.
  all: do 3 eexists; split; [reflexivity |]; simpl.
  all: split; [reflexivity |]; split; [trace_eq |].
  all: split; [| now left].
  all: rewrite ?E; repeat split; try reflexivity; eauto.
Qed.

Lemma create_volunteer_run (fn ln dob em ph ad : pystr) (w : World) :
  bound (sql_insert_volunteer fn ln dob em ph ad (database w)) ->
  exists r w' evs,
    create_volunteer fn ln dob em ph ad w = (Val r, w')
    /\ flashes w' = flashes w
    /\ trace w' = trace w ++ evs
    /\ match r with
       | Some id =>
           raised evs = false
           /\ exists n,
               sql_insert_volunteer fn ln dob em ph ad (database w)
               = SqlChanged n id (database w')
       | None => raised evs = true /\ database w' = database w
       end
    /\ In Connect evs.
Proof.
  intros Hbound.
  destruct (create_volunteer_cases fn ln dob em ph ad w)
    as (r & w' & evs & Hrun & Hfl & Htr & Hr & Hc).
  destruct r as [r | e].
  - exists r, w', evs. destruct r; auto 10.
  - exfalso. destruct Hr as (_ & _ & b & _ & Hb). exact (Hbound b Hb).
Qed.

(** [test_database_connection]: [False] when the engine raised an error,
    otherwise whether the seven tables exist. *)
Lemma test_database_connection_run (w : World) :
  exists b w' evs,
    test_database_connection w = (Val b, w')
    /\ database w' = database w
    /\ flashes w' = flashes w
    /\ trace w' = trace w ++ evs
    /\ (raised evs = true -> b = false)
    /\ (raised evs = false ->
        b = issubset expected_tables (table_names (database w))).
Proof.
  destruct w as [db t fk o tr fl].
  oracle_cases o; [| | oracle_cases o; [| | oracle_cases o]]; run_engine.
  all: do 3 eexists; split; [reflexivity |]; simpl.
  all: split; [reflexivity |]; split; [reflexivity |]; split; [trace_eq |].
  all: split; intros H; try reflexivity; discriminate H.
Qed.

End EngineRuns.

(* ================================================================== *)
(** * Storage faults surface as sentinels *)
(* ================================================================== *)

Section Sentinels.
Context {P : Platform}.

Lemma execute_query_sentinel (R : Type) (q : statement R) (fetch : bool)
  (failed : option bind_error) :
  (forall db, unbinds_as failed (denote q true db)) ->
  sentinel_run failed (execute_query q fetch).
Proof.
  intros Hu w. destruct fetch.
  - destruct (execute_query_fetch_cases _ q w)
      as (r & w' & evs & Hrun & _ & _ & Htr & _ & Hr & _).
    exists r, w', evs. split; [exact Hrun |]. split; [exact Htr |].
    destruct r as [[rows |] | e].
    + split; [| exact I]. destruct Hr as [Hno _]. congruence.
    + split; [reflexivity | exact I].
    + destruct Hr as (Hno & _ & b & -> & Hb).
      split; [congruence |]. split; [exact Hno |].
      exists b. split; [reflexivity | exact (Hu _ b Hb)].
  - destruct (execute_query_change_cases _ q w)
      as (r & w' & evs & Hrun & _ & Htr & Hr & _).
    exists r, w', evs. split; [exact Hrun |]. split; [exact Htr |].
    destruct r as [[n |] | e].
    + split; [| exact I]. destruct Hr as [Hno _]. congruence.
    + split; [reflexivity | exact I].
    + destruct Hr as (Hno & _ & _ & _ & b & -> & Hb).
      split; [congruence |]. split; [exact Hno |].
      exists b. split; [reflexivity | exact (Hu _ b Hb)].
Qed.

Lemma first_or_none_sentinel (R : Type) (failed : option bind_error)
  (m : M (option (list R))) :
  sentinel_run failed m ->
  sentinel_run failed (results <- m ;; ret (first_or_none results)).
Proof.
  intros Hm w. destruct (Hm w) as (r & w' & evs & Hrun & Htr & Hr & He).
  unfold bind, ret. rewrite Hrun. destruct r as [rows | e].
  - exists (Val (first_or_none rows)), w', evs.
    split; [reflexivity |]. split; [exact Htr |]. split; [| exact I].
    intros Hraised. specialize (Hr Hraised). injection Hr as ->. reflexivity.
  - exists (Raised e), w', evs.
    split; [reflexivity |]. split; [exact Htr |].
    split; [| exact He]. intros Hraised. specialize (Hr Hraised).
    discriminate Hr.
Qed.

Lemma create_volunteer_sentinel (fn ln dob em ph ad : pystr) :
  sentinel_run
    (bind_parameters
       [PText fn; PText ln; PText dob; PText em; PText ph; PText ad])
    (create_volunteer fn ln dob em ph ad).
Proof.
  intros w.
  destruct (create_volunteer_cases fn ln dob em ph ad w)
    as (r & w' & evs & Hrun & _ & Htr & Hr & _).
  exists r, w', evs. split; [exact Hrun |]. split; [exact Htr |].
  destruct r as [[id |] | e].
  - split; [| exact I]. destruct Hr as [Hno _]. congruence.
  - split; [reflexivity | exact I].
  - destruct Hr as (Hno & _ & b & -> & Hb).
    split; [congruence |]. split; [exact Hno |].
    exists b. split; [reflexivity |].
    revert Hb. unfold sql_insert_volunteer. apply on_tables_unbinds.
    intros b'. cbv zeta. destruct (volunteer_table_ok _); discriminate.
Qed.

Lemma run_sentinel (A : Type) (op : operation A) :
  sentinel_run (bind_parameters (parameters op)) (run op).
Proof.
  destruct op; simpl parameters; simpl run;
    unfold get_all_volunteers, get_volunteer_by_id, update_volunteer_phone,
      get_all_organisations, get_organisation_by_id, get_all_events,
      get_event_by_id, delete_event, search_volunteers_by_skill,
      get_volunteers_for_organisation_events, get_event_statistics,
      get_volunteers_with_calculated_fields, get_skill_distribution,
      get_organisation_event_summary, get_all_skills.
  1: apply create_volunteer_sentinel.
  all: try apply first_or_none_sentinel.
  all: first [ apply (execute_query_sentinel _ _ true)
             | apply (execute_query_sentinel _ _ false) ];
    intros db; simpl denote.
  all: unfold sql_select_volunteers, sql_select_volunteer_by_id,
      sql_update_volunteer_phone, sql_select_organisations,
      sql_select_organisation_by_id, sql_select_events,
      sql_select_event_by_id, sql_delete_event,
      sql_select_volunteers_by_skill,
      sql_select_volunteers_for_organisation, sql_select_event_statistics,
      sql_select_volunteers_calculated, sql_select_skill_distribution,
      sql_select_organisation_summary, sql_select_skills.
  all: first [ apply on_tables_unbinds | apply bound_unbinds, on_tables_bound ].
  all: intros b; cbv zeta.
  all: repeat match goal with
              | |- context [if ?c then _ else _] => destruct c
              | |- context [match ?c with _ => _ end] => destruct c
              end;
    discriminate.
Qed.

(** C8, as the code has it: every entry point of the data-access layer
    catches every storage fault (connection failure, constraint
    violation, malformed SQL) and returns its failure value instead of
    raising: [None] for the sixteen operations, [False] for the
    connection test.  What can leave an operation is the exception of a
    parameter that cannot be bound, which is not a storage fault. *)
Theorem storage_faults_become_sentinels (f : entry_point) (w : World) :
  on_fault_returns (failure_value f) f w.
Proof.
  unfold on_fault_returns. destruct f as [A op |]; simpl.
  - destruct (run_sentinel _ op w) as (r & w' & evs & Hrun & Htr & Hr & He).
    unfold bind, ret. rewrite Hrun.
    rewrite <- (new_events_app _ _ _ Htr) in Hr, He.
    destruct r as [x | e].
    + exists (Val (of_option x)), w'. split; [reflexivity |].
      split; [| exact I]. intros Hraised. specialize (Hr Hraised).
      injection Hr as ->. reflexivity.
    + exists (Raised e), w'. split; [reflexivity |].
      split; [| exact He]. intros Hraised. specialize (Hr Hraised).
      discriminate Hr.
  - destruct (test_database_connection_run w)
      as (b & w' & evs & Hrun & _ & _ & Htr & Hb & _).
    exists (Val (PyBool b)), w'. unfold bind, ret. rewrite Hrun.
    split; [reflexivity |].
    rewrite (new_events_app _ _ _ Htr). split; [| exact I].
    intros Hraised. now rewrite (Hb Hraised).
Qed.

End Sentinels.

(** C8 as stated fails on the connection test: when the database cannot
    be opened it returns [False], which is not [None]. *)
Lemma connection_test_returns_false :
  ~ @on_fault_returns (Sample.platform NoAction NoAction) PyNone
      TestDatabaseConnection
      (Sample.world Sample.community [Some OperationalError]).
Proof.
  intros (res & w' & Hcall & Hres & _).
  vm_compute in Hcall. injection Hcall as <- <-.
  discriminate (Hres eq_refl).
Qed.

(** The three kinds of fault of the specification, on the sample
    database: the file cannot be opened; the delete of an event with
    registrations violates the foreign key; the table does not exist. *)
Example connection_failure_gives_none :
  fst (get_all_volunteers
         (Sample.world Sample.community [Some OperationalError]))
  = Val None.
Proof. reflexivity. Qed.

Example constraint_violation_gives_none :
  fst (@delete_event (Sample.platform NoAction NoAction) 1
         (Sample.world Sample.community []))
  = Val None.
Proof. reflexivity. Qed.

Example missing_table_gives_none :
  fst (get_all_volunteers
         (Sample.world (mkDatabase [] [] [] [] [] [] [] []) []))
  = Val None.
Proof. reflexivity. Qed.

(* ================================================================== *)
(** * The request handlers *)
(* ================================================================== *)

Section Handlers.
Context {P : Platform}.

Local Open Scope string_scope.
Local Open Scope list_scope.

Lemma flash_each_run (errors : list pystr) (category : string) (w : World) :
  exists w',
    flash_each errors category w = (Val tt, w')
    /\ only_flashed (map (fun e => (e, category)) errors) w w'.
Proof.
  revert w. induction errors as [| e errors IH]; intros w; simpl.
  - exists w. split; [reflexivity |].
    unfold only_flashed. rewrite app_nil_r. repeat split.
  - destruct (IH (add_flash e category w)) as (w' & Hrun & Hw).
    exists w'. unfold bind, flash, modify. rewrite Hrun.
    split; [reflexivity |].
    destruct Hw as (? & ? & ? & ? & ? & Hfl).
    unfold only_flashed. repeat split; try assumption.
    rewrite Hfl. simpl. now rewrite <- app_assoc.
Qed.

Lemma append_if_keeps (c : bool) (m x : pystr) (errors : list pystr) :
  In x errors -> In x (append_if c m errors).
Proof.
  unfold append_if. destruct c; [| trivial].
  intros H. apply in_or_app. now left.
Qed.

Lemma append_if_adds (m : pystr) (errors : list pystr) :
  In m (append_if true m errors).
Proof. unfold append_if. apply in_or_app. right. now left. Qed.

Lemma date_geb_not_lt (a b : date) :
  date_geb a b = true <-> date_compare a b <> Lt.
Proof.
  unfold date_geb. destruct (date_compare a b); split; congruence.
Qed.

Lemma volunteer_errors_report (fn ln dob em ph ad : pystr) :
  reports_all fn ln dob em ph ad (volunteer_errors fn ln dob em ph ad).
Proof.
  unfold reports_all, volunteer_errors. cbv zeta.
  assert (Hdate : forall x errors,
            In x errors ->
            In x match strptime dob with
                 | Some d =>
                     append_if (date_geb d today)
                       (lit "Date of birth must be in the past") errors
                 | None => errors ++ [lit "Invalid date format"]
                 end).
  { intros x errors H. destruct (strptime dob).
    - now apply append_if_keeps.
    - apply in_or_app. now left. }
  repeat split.
  - intros ->. apply Hdate. do 5 apply append_if_keeps. apply append_if_adds.
  - intros ->. apply Hdate. do 4 apply append_if_keeps. apply append_if_adds.
  - intros ->. apply Hdate. do 3 apply append_if_keeps. apply append_if_adds.
  - intros H. apply Hdate. do 2 apply append_if_keeps.
    replace (is_empty em || negb (validate_email em))%bool with true;
      [apply append_if_adds |].
    destruct H as [-> | ->]; [reflexivity |]. now rewrite orb_true_r.
  - intros H. apply Hdate. apply append_if_keeps.
    replace (is_empty ph || negb (validate_phone ph))%bool with true;
      [apply append_if_adds |].
    destruct H as [-> | ->]; [reflexivity |]. now rewrite orb_true_r.
  - intros ->. apply Hdate. apply append_if_adds.
  - intros ->. apply in_or_app. right. now left.
  - intros d -> Hd. apply date_geb_not_lt in Hd. rewrite Hd.
    apply append_if_adds.
Qed.

Lemma invalid_has_errors (fn ln dob em ph ad : pystr) :
  invalid_submission fn ln dob em ph ad ->
  volunteer_errors fn ln dob em ph ad <> [].
Proof.
  intros Hbad Hnil.
  destruct (volunteer_errors_report fn ln dob em ph ad)
    as (H1 & H2 & H3 & H4 & H5 & H6 & H7 & H8).
  rewrite Hnil in *.
  destruct Hbad as [H | [H | [H | [H | [H | [H | [H | [H | H]]]]]]]].
  1: exact (H1 H).
  1: exact (H2 H).
  1: exact (H3 H).
  1: exact (H4 (or_introl H)).
  1: exact (H5 (or_introl H)).
  1: exact (H6 H).
  1: exact (H4 (or_intror H)).
  1: exact (H5 (or_intror H)).
  destruct (strptime dob) as [d |] eqn:Ed; [| exact (H7 eq_refl)].
  destruct (date_compare d today) eqn:Ec.
  - apply (H8 d eq_refl). congruence.
  - apply H. now exists d.
  - apply (H8 d eq_refl). congruence.
Qed.

(** C3: a create-volunteer submission in which a field is missing, the
    e-mail or the phone number is invalid, or the date of birth is not a
    date strictly before today, makes no call of the engine (so
    [create_volunteer] is not invoked and no row is inserted) and renders
    the form again, with the messages of all broken rules flashed
    together. *)
Theorem invalid_volunteer_is_not_stored (req : request) (w : World) :
  method req = POST ->
  invalid_submission
    (submitted req "first_name") (submitted req "last_name")
    (submitted req "date_of_birth") (submitted req "email")
    (submitted req "phone") (submitted req "address") ->
  exists errors w',
    new_volunteer req w
    = (Val (volunteer_form
              (submitted req "first_name") (submitted req "last_name")
              (submitted req "date_of_birth") (submitted req "email")
              (submitted req "phone") (submitted req "address")), w')
    /\ errors <> []
    /\ reports_all
         (submitted req "first_name") (submitted req "last_name")
         (submitted req "date_of_birth") (submitted req "email")
         (submitted req "phone") (submitted req "address") errors
    /\ only_flashed (map (fun e => (e, "error")) errors) w w'.
Proof.
  intros Hpost Hbad.
  pose proof (invalid_has_errors _ _ _ _ _ _ Hbad) as Hne.
  pose proof (volunteer_errors_report
                (submitted req "first_name") (submitted req "last_name")
                (submitted req "date_of_birth") (submitted req "email")
                (submitted req "phone") (submitted req "address")) as Hall.
  unfold new_volunteer. rewrite Hpost. cbv zeta.
  fold (submitted req "first_name") (submitted req "last_name")
       (submitted req "date_of_birth") (submitted req "email")
       (submitted req "phone") (submitted req "address").
  destruct (volunteer_errors _ _ _ _ _ _) as [| e errors] eqn:E;
    [congruence |].
  destruct (flash_each_run (e :: errors) "error" w) as (w' & Hrun & Hw).
  exists (e :: errors), w'. unfold bind, ret. rewrite Hrun.
  split; [reflexivity |].
  split; [discriminate |].
  split; [exact Hall | exact Hw].
Qed.




(** C10: the dashboard shows the count 0 for a listing that failed (its
    result is [None]) exactly as for an empty table, and flashes no
    message; the fault shows at most in the flag that
    [test_database_connection] computed before. *)
Theorem dashboard_counts_failures_as_zero (w : World) :
  exists db_status volunteers organisations events w1 w2 w3 w4,
    test_database_connection w = (Val db_status, w1)
    /\ get_all_volunteers w1 = (Val volunteers, w2)
    /\ get_all_organisations w2 = (Val organisations, w3)
    /\ get_all_events w3 = (Val events, w4)
    /\ index w
       = (Val (render_template "index.html"
                 [("db_status", TBool db_status);
                  ("volunteer_count", TInt (len_or_zero volunteers));
                  ("organisation_count", TInt (len_or_zero organisations));
                  ("event_count", TInt (len_or_zero events))]), w4)
    /\ flashes w4 = flashes w
    /\ (volunteers = None \/ volunteers = Some [] ->
        len_or_zero volunteers = 0%Z)
    /\ (organisations = None \/ organisations = Some [] ->
        len_or_zero organisations = 0%Z)
    /\ (events = None \/ events = Some [] -> len_or_zero events = 0%Z).
Proof.
  destruct (test_database_connection_run w)
    as (b & w1 & ? & H0 & _ & F0 & _).
  destruct (execute_query_fetch_run _
              (mkStatement SELECT_VOLUNTEERS (fun _ => sql_select_volunteers))
              w1 ltac:(is_bound)) as (v & w2 & ? & H1 & _ & F1 & _).
  destruct (execute_query_fetch_run _
              (mkStatement SELECT_ORGANISATIONS
                 (fun _ => sql_select_organisations)) w2 ltac:(is_bound))
    as (o & w3 & ? & H2 & _ & F2 & _).
  destruct (execute_query_fetch_run _
              (mkStatement SELECT_EVENTS (fun _ => sql_select_events)) w3
              ltac:(is_bound))
    as (e & w4 & ? & H3 & _ & F3 & _).
  exists b, v, o, e, w1, w2, w3, w4.
  split; [exact H0 |]. split; [exact H1 |]. split; [exact H2 |].
  split; [exact H3 |].
  split.
  { unfold index, bind, ret. rewrite H0.
    unfold get_all_volunteers. rewrite H1.
    unfold get_all_organisations. rewrite H2.
    unfold get_all_events. rewrite H3. reflexivity. }
  split; [congruence |].
  repeat split; intros [-> | ->]; reflexivity.
Qed.

(** The two writing operations of the handlers above always call the
    engine, so a run that logs no call did not invoke them. *)
Lemma create_volunteer_calls_engine (fn ln dob em ph ad : pystr) (w : World) :
  trace (snd (create_volunteer fn ln dob em ph ad w)) <> trace w.
Proof.
  destruct (create_volunteer_cases fn ln dob em ph ad w)
    as (r & w' & evs & Hrun & _ & Htr & _ & Hc).
  rewrite Hrun. simpl. rewrite Htr. intros Heq.
  apply (f_equal (@List.length _)) in Heq. rewrite length_app in Heq.
  destruct evs; [contradiction | simpl in Heq; lia].
Qed.

Lemma update_volunteer_phone_calls_engine (vid : Z) (ph : pystr) (w : World) :
  In Connect (new_events w (snd (update_volunteer_phone vid ph w))).
Proof.
  unfold update_volunteer_phone.
  destruct (execute_query_change_cases _
              (mkStatement UPDATE_VOLUNTEER_PHONE
                 (fun _ => sql_update_volunteer_phone ph vid)) w)
    as (r & w' & evs & Hrun & _ & Htr & _ & _ & Hc & _).
  rewrite Hrun. simpl. now rewrite (new_events_app _ _ _ Htr).
Qed.

End Handlers.

(** The theorem at a submission born tomorrow, on the sample database. *)
Lemma invalid_volunteer_is_not_stored_witness :
  exists errors w',
    @new_volunteer (Sample.platform NoAction NoAction) Sample.born_tomorrow
      (Sample.world Sample.community [])
    = (Val (volunteer_form
              (submitted Sample.born_tomorrow "first_name")
              (submitted Sample.born_tomorrow "last_name")
              (submitted Sample.born_tomorrow "date_of_birth")
              (submitted Sample.born_tomorrow "email")
              (submitted Sample.born_tomorrow "phone")
              (submitted Sample.born_tomorrow "address")), w')
    /\ errors <> []
    /\ @reports_all (Sample.platform NoAction NoAction)
         (submitted Sample.born_tomorrow "first_name")
         (submitted Sample.born_tomorrow "last_name")
         (submitted Sample.born_tomorrow "date_of_birth")
         (submitted Sample.born_tomorrow "email")
         (submitted Sample.born_tomorrow "phone")
         (submitted Sample.born_tomorrow "address") errors
    /\ only_flashed (map (fun e => (e, "error"%string)) errors)
         (Sample.world Sample.community []) w'.
Proof.
  apply (@invalid_volunteer_is_not_stored (Sample.platform NoAction NoAction)
           Sample.born_tomorrow (Sample.world Sample.community [])).
  - reflexivity.
  - unfold invalid_submission. do 8 right.
    intros [d [Hd Hc]]. vm_compute in Hd. injection Hd as <-.
    vm_compute in Hc. discriminate Hc.
Defined.



(* ================================================================== *)
(** * ORDER BY *)
(* ================================================================== *)

Section OrderBy.
Variable A : Type.
Variable cmp : A -> A -> comparison.

Let le (a b : A) : Prop := cmp a b <> Gt.

Hypothesis cmp_total : forall a b, cmp a b = Gt -> cmp b a <> Gt.
Hypothesis le_trans : forall a b c, le a b -> le b c -> le a c.

Lemma order_insert_perm (a : A) (l : list A) :
  Permutation (a :: l) (order_insert cmp a l).
Proof.
  induction l as [| b l IH]; simpl; [apply Permutation_refl |].
  destruct (cmp a b); try apply Permutation_refl.
  apply perm_trans with (b :: a :: l); [apply perm_swap |].
  now apply perm_skip.
Qed.

Lemma order_by_perm (l : list A) : Permutation l (order_by cmp l).
Proof.
  induction l as [| a l IH]; simpl; [apply perm_nil |].
  apply perm_trans with (a :: order_by cmp l).
  - now apply perm_skip.
  - apply order_insert_perm.
Qed.

Lemma order_insert_sorted (a : A) (l : list A) :
  StronglySorted le l -> StronglySorted le (order_insert cmp a l).
Proof.
  induction 1 as [| b l Hs IH Hb]; simpl.
  - constructor; constructor.
  - destruct (cmp a b) eqn:E.
    + constructor; [now constructor |].
      assert (Hab : le a b) by (unfold le; congruence).
      constructor; [exact Hab |].
      eapply Forall_impl; [| exact Hb]. intros c Hc. now apply le_trans with b.
    + constructor; [now constructor |].
      assert (Hab : le a b) by (unfold le; congruence).
      constructor; [exact Hab |].
      eapply Forall_impl; [| exact Hb]. intros c Hc. now apply le_trans with b.
    + constructor; [exact IH |].
      apply (Permutation_Forall (order_insert_perm a l)).
      constructor; [now apply cmp_total | exact Hb].
Qed.

Lemma order_by_sorted (l : list A) : StronglySorted le (order_by cmp l).
Proof.
  induction l as [| a l IH]; simpl; [constructor |].
  now apply order_insert_sorted.
Qed.

End OrderBy.

Section StringOrder.

Lemma str_compare_eq (a b : pystr) : str_compare a b = Eq <-> a = b.
Proof.
  revert b. induction a as [| x a IH]; intros [| y b]; simpl;
    try (split; congruence).
  destruct (N.compare_spec x y) as [-> | H | H].
  - rewrite IH. split; congruence.
  - split; [discriminate |]. intros [= -> _]. lia.
  - split; [discriminate |]. intros [= -> _]. lia.
Qed.

Lemma str_compare_antisym (a b : pystr) :
  str_compare b a = CompOpp (str_compare a b).
Proof.
  revert b. induction a as [| x a IH]; intros [| y b]; simpl;
    try reflexivity.
  rewrite (N.compare_antisym x y).
  destruct (N.compare x y); simpl; auto.
Qed.

Lemma str_lt_trans (a b c : pystr) : str_lt a b -> str_lt b c -> str_lt a c.
Proof.
  unfold str_lt. revert b c.
  induction a as [| x a IH]; intros [| y b] [| z c]; simpl;
    try congruence.
  destruct (N.compare_spec x y) as [-> | Hxy | Hxy];
    destruct (N.compare_spec y z) as [-> | Hyz | Hyz];
    try congruence; intros H1 H2; try reflexivity.
  - now apply IH with b.
  - replace (x ?= z)%N with Lt
      by (symmetry; apply N.compare_lt_iff; lia).
    reflexivity.
  - replace (x ?= z)%N with Lt
      by (symmetry; apply N.compare_lt_iff; lia).
    reflexivity.
Qed.







Lemma StronglySorted_impl (A : Type) (R1 R2 : A -> A -> Prop) (l : list A) :
  (forall a b, R1 a b -> R2 a b) ->
  StronglySorted R1 l -> StronglySorted R2 l.
Proof.
  intros Himp. induction 1 as [| a l Hs IH Ha]; constructor; [exact IH |].
  eapply Forall_impl; [| exact Ha]. intros b. apply Himp.
Qed.


End StringOrder.

Section Listing.

Lemma get_all_volunteers_rows (w : World) (rows : list VolunteerRow)
  (w' : World) :
  get_all_volunteers w = (Val (Some rows), w') ->
  rows = order_by by_last_first (VOLUNTEER (database w)).
Proof.
  intros Hrun.
  destruct (execute_query_fetch_run _
              (mkStatement SELECT_VOLUNTEERS (fun _ => sql_select_volunteers))
              w ltac:(is_bound)) as (r & w1 & evs & Hrun' & _ & _ & _ & _ & Hr & _).
  unfold get_all_volunteers in Hrun. rewrite Hrun' in Hrun.
  injection Hrun as -> _.
  destruct Hr as [_ Hrows]. simpl in Hrows.
  unfold sql_select_volunteers, on_tables in Hrows.
  destruct (forallb _ _); [exact Hrows | contradiction].
Qed.


(** On the sample database: Abbott Ben, Abbott Cal, Young Ada. *)
Example sample_listing :
  fst (get_all_volunteers (Sample.world Sample.community []))
  = Val (Some [Sample.ben; Sample.cal; Sample.ada]).
Proof. reflexivity. Qed.

End Listing.

(* ================================================================== *)
(** * Joins and GROUP BY *)
(* ================================================================== *)

Section Joins.
Variables A B : Type.
Variable on : A -> B -> bool.

Lemma inner_join_In (l : list A) (r : list B) (a : A) (b : B) :
  In (a, b) (inner_join on l r) <-> In a l /\ In b r /\ on a b = true.
Proof.
  unfold inner_join. rewrite in_flat_map. split.
  - intros (a' & Ha & Hin). apply in_map_iff in Hin.
    destruct Hin as (b' & [= <- <-] & Hb). apply filter_In in Hb.
    tauto.
  - intros (Ha & Hb & Hon). exists a. split; [exact Ha |].
    apply in_map. apply filter_In. tauto.
Qed.

Lemma left_join_In_some (l : list A) (r : list B) (a : A) (b : B) :
  In (a, Some b) (left_join on l r) <-> In a l /\ In b r /\ on a b = true.
Proof.
  unfold left_join. rewrite in_flat_map. split.
  - intros (a' & Ha & Hin).
    destruct (filter (on a') r) as [| b0 m] eqn:E.
    + destruct Hin as [[=] | []].
    + rewrite <- E in Hin. apply in_map_iff in Hin.
      destruct Hin as (b' & [= <- <-] & Hb). apply filter_In in Hb. tauto.
  - intros (Ha & Hb & Hon). exists a. split; [exact Ha |].
    assert (Hin : In b (filter (on a) r)) by (apply filter_In; tauto).
    destruct (filter (on a) r) as [| b0 m] eqn:E; [contradiction |].
    rewrite <- E. apply in_map_iff. exists b. split; [reflexivity |].
    rewrite E. exact Hin.
Qed.

Lemma left_join_In_left (l : list A) (r : list B) (a : A) (b : option B) :
  In (a, b) (left_join on l r) -> In a l.
Proof.
  unfold left_join. rewrite in_flat_map. intros (a' & Ha & Hin).
  destruct (filter (on a') r) as [| b0 m].
  - destruct Hin as [[= <- _] | []]. exact Ha.
  - apply in_map_iff in Hin. destruct Hin as (b' & [= <- _] & _). exact Ha.
Qed.

End Joins.

Section GroupBy.
Variables A K : Type.
Variable eqb : K -> K -> bool.
Variable key : A -> K.

Hypothesis eqb_eq : forall a b, eqb a b = true <-> a = b.

Lemma group_insert_new (k : K) (a : A) (gs : list (K * list A)) :
  ~ In k (map fst gs) -> group_insert eqb k a gs = gs ++ [(k, [a])].
Proof.
  induction gs as [| [k' g] gs IH]; simpl; intros Hn; [reflexivity |].
  destruct (eqb k k') eqn:E.
  - apply eqb_eq in E. subst. exfalso. apply Hn. now left.
  - rewrite IH; [reflexivity |]. intros H. apply Hn. now right.
Qed.

Lemma group_insert_keys (k : K) (a : A) (gs : list (K * list A)) :
  In k (map fst gs) -> map fst (group_insert eqb k a gs) = map fst gs.
Proof.
  induction gs as [| [k' g] gs IH]; simpl; intros Hin; [contradiction |].
  destruct (eqb k k') eqn:E; simpl; [reflexivity |].
  f_equal. apply IH. destruct Hin as [-> | Hin]; [| exact Hin].
  rewrite (proj2 (eqb_eq k k) eq_refl) in E. discriminate.
Qed.

Lemma group_insert_old (k : K) (a : A) (gs : list (K * list A))
  (k' : K) (g' : list A) :
  NoDup (map fst gs) ->
  In k (map fst gs) ->
  In (k', g') (group_insert eqb k a gs) ->
  (k' <> k /\ In (k', g') gs)
  \/ (k' = k /\ exists g0, In (k, g0) gs /\ g' = g0 ++ [a]).
Proof.
  induction gs as [| [k1 g1] gs IH]; simpl; intros Hnd Hk Hin;
    [contradiction |].
  inversion Hnd as [| ? ? Hk1 Hnd']; subst.
  destruct (eqb k k1) eqn:E.
  - apply eqb_eq in E. subst k1. destruct Hin as [[= <- <-] | Hin].
    + right. split; [reflexivity |]. exists g1. split; [now left | reflexivity].
    + left. split; [| now right].
      intros ->. apply Hk1. apply in_map_iff. now exists (k, g').
  - assert (Hk' : In k (map fst gs)).
    { destruct Hk as [-> | Hk]; [| exact Hk].
      rewrite (proj2 (eqb_eq k k) eq_refl) in E. discriminate. }
    destruct Hin as [[= <- <-] | Hin].
    + left. split; [| now left].
      intros ->. rewrite (proj2 (eqb_eq k k) eq_refl) in E. discriminate.
    + destruct (IH Hnd' Hk' Hin) as [[Hne Hg] | [-> (g0 & Hg0 & ->)]].
      * left. split; [exact Hne | now right].
      * right. split; [reflexivity |]. exists g0. split; [now right | reflexivity].
Qed.

Lemma key_dec (a b : K) : {a = b} + {a <> b}.
Proof.
  destruct (eqb a b) eqn:E.
  - left. now apply eqb_eq.
  - right. intros H. apply eqb_eq in H. congruence.
Qed.

Lemma group_by_snoc (rows : list A) (a : A) :
  group_by eqb key (rows ++ [a])
  = group_insert eqb (key a) a (group_by eqb key rows).
Proof. unfold group_by. now rewrite fold_left_app. Qed.

Lemma filter_none (f : A -> bool) (l : list A) :
  (forall x, In x l -> f x = false) -> filter f l = [].
Proof.
  induction l as [| x l IH]; simpl; intros H; [reflexivity |].
  rewrite (H x (or_introl eq_refl)). apply IH. intros y Hy. apply H. now right.
Qed.

Lemma filter_snoc (f : A -> bool) (l : list A) (a : A) :
  filter f (l ++ [a]) = filter f l ++ (if f a then [a] else []).
Proof. rewrite filter_app. reflexivity. Qed.

(** The groups are keyed by the distinct keys of the rows, and the group
    of a key holds the rows of that key, in their order. *)
Lemma group_by_spec (rows : list A) :
  NoDup (map fst (group_by eqb key rows))
  /\ (forall k g, In (k, g) (group_by eqb key rows) ->
        g <> [] /\ g = filter (fun x => eqb (key x) k) rows)
  /\ (forall x, In x rows -> In (key x) (map fst (group_by eqb key rows))).
Proof.
  induction rows as [| a rows IH] using rev_ind.
  - simpl. repeat split; try constructor; contradiction.
  - destruct IH as (Hnd & Hgroups & Hcover).
    rewrite group_by_snoc. set (gs := group_by eqb key rows) in *.
    destruct (in_dec key_dec (key a) (map fst gs)) as [Hin | Hnew].
    + split; [now rewrite group_insert_keys |].
      split.
      * intros k g Hg.
        destruct (group_insert_old _ _ _ _ _ Hnd Hin Hg)
          as [[Hne Hold] | [-> (g0 & Hg0 & ->)]].
        -- destruct (Hgroups _ _ Hold) as [Hn ->]. split; [exact Hn |].
           rewrite filter_snoc.
           destruct (eqb (key a) k) eqn:E;
             [apply eqb_eq in E; congruence | now rewrite app_nil_r].
        -- destruct (Hgroups _ _ Hg0) as [Hn ->].
           split; [now destruct (filter _ rows) |].
           rewrite filter_snoc.
           now rewrite (proj2 (eqb_eq (key a) (key a)) eq_refl).
      * intros x Hx. rewrite group_insert_keys by exact Hin.
        apply in_app_or in Hx. destruct Hx as [Hx | [<- | []]]; auto.
    + rewrite (group_insert_new _ _ _ Hnew).
      split.
      { rewrite map_app. simpl. apply NoDup_app; [exact Hnd | |].
        - constructor; [intros [] | constructor].
        - intros k Hk [<- | []]. now apply Hnew. }
      split.
      * intros k g Hg. apply in_app_or in Hg.
        destruct Hg as [Hold | [[= <- <-] | []]].
        -- destruct (Hgroups _ _ Hold) as [Hn ->]. split; [exact Hn |].
           rewrite filter_snoc.
           destruct (eqb (key a) k) eqn:E; [| now rewrite app_nil_r].
           apply eqb_eq in E. subst k. exfalso. apply Hnew.
           apply in_map_iff. now exists (key a, filter (fun x => eqb (key x) (key a)) rows).
        -- split; [discriminate |]. rewrite filter_snoc.
           rewrite (proj2 (eqb_eq _ _) eq_refl).
           replace (filter (fun x => eqb (key x) (key a)) rows) with (@nil A);
             [reflexivity |].
           symmetry. apply filter_none. intros x Hx.
           destruct (eqb (key x) (key a)) eqn:E; [| reflexivity].
           apply eqb_eq in E. exfalso. apply Hnew. rewrite <- E. now apply Hcover.
      * intros x Hx. rewrite map_app. apply in_or_app.
        apply in_app_or in Hx. destruct Hx as [Hx | [<- | []]].
        -- left. now apply Hcover.
        -- right. now left.
Qed.

End GroupBy.

(* ================================================================== *)
(** * The reporting queries *)
(* ================================================================== *)

Section Reports.
Context {P : Platform}.

Lemma str_eqb_eq (a b : pystr) : str_eqb a b = true <-> a = b.
Proof.
  unfold str_eqb. destruct (list_eq_dec N.eq_dec a b); split; congruence.
Qed.

Lemma skill_key_eqb_eq (a b : skill_key) :
  skill_key_eqb a b = true <-> a = b.
Proof.
  destruct a as [[i1 n1] c1], b as [[i2 n2] c2]. unfold skill_key_eqb.
  rewrite !andb_true_iff, !str_eqb_eq, Z.eqb_eq.
  split; [intros [[-> ->] ->]; reflexivity | intros [= -> -> ->]; auto].
Qed.

Lemma stat_key_eqb_eq (a b : stat_key) :
  stat_key_eqb a b = true <-> a = b.
Proof.
  destruct a as [[[[[i1 n1] o1] m1] s1] e1], b as [[[[[i2 n2] o2] m2] s2] e2].
  unfold stat_key_eqb.
  rewrite !andb_true_iff, !str_eqb_eq, !Z.eqb_eq.
  split; [intros [[[[[-> ->] ->] ->] ->] ->]; reflexivity
         | intros [= -> -> -> -> -> ->]; auto 10].
Qed.

(** [COUNT] of a nullable column is positive only if some row has it. *)
Lemma count_positive (A B : Type) (col : A -> option B) (g : list A) :
  (0 < count col g)%Z -> exists a b, In a g /\ col a = Some b.
Proof.
  unfold count. induction g as [| a g IH]; simpl; [lia |].
  destruct (col a) as [b |] eqn:E.
  - intros _. exists a, b. split; [now left | exact E].
  - intros H. destruct (IH H) as (a' & b' & Hin & Hcol).
    exists a', b'. split; [now right | exact Hcol].
Qed.

(** The rows of the skill distribution, before they are ordered. *)
Lemma skill_distribution_rows (db : Database) (r : SkillDistRow) :
  In r (map skill_dist_row
          (filter (fun kg => Z.gtb (skill_volunteers (snd kg)) 0)
                  (group_by skill_key_eqb skill_key_of (skill_join db)))) ->
  (1 <= sd_volunteer_count r)%Z /\ skill_with_volunteer db r.
Proof.
  intros Hin. apply in_map_iff in Hin. destruct Hin as ([k g] & <- & Hkg).
  apply filter_In in Hkg. destruct Hkg as [Hkg Hpos]. simpl in Hpos.
  apply Z.gtb_lt in Hpos.
  destruct (group_by_spec _ _ skill_key_eqb skill_key_of skill_key_eqb_eq
              (skill_join db))
    as (_ & Hgroups & _).
  destruct (Hgroups _ _ Hkg) as [_ Hg].
  destruct k as [[i name] category]. simpl.
  split; [lia |].
  destruct (count_positive _ _ _ _ Hpos) as ([s ovs] & v & Hx & Hcol).
  simpl in Hcol. destruct ovs as [vs |]; [| discriminate].
  rewrite Hg in Hx. apply filter_In in Hx. destruct Hx as [Hjoin Hkey].
  apply skill_key_eqb_eq in Hkey. unfold skill_key_of in Hkey. simpl in Hkey.
  injection Hkey as _ Hname Hcat.
  apply left_join_In_some in Hjoin. destruct Hjoin as (Hs & Hvs & Hon).
  apply Z.eqb_eq in Hon.
  exists s, vs. simpl. repeat split; auto.
Qed.

(** C4: [get_skill_distribution] never returns a row for a skill with
    zero associated volunteers: every row it returns has a volunteer
    count of at least one and is the row of a skill that a
    VOLUNTEER_SKILL row refers to. *)
Theorem skill_distribution_has_volunteers (w : World) :
  exists r w',
    get_skill_distribution w = (Val r, w')
    /\ match r with
       | Some rows =>
           Forall (fun row => (1 <= sd_volunteer_count row)%Z
                              /\ skill_with_volunteer (database w) row) rows
       | None => raised (new_events w w') = true
       end.
Proof.
  destruct (execute_query_fetch_run _
              (mkStatement SELECT_SKILL_DISTRIBUTION
                 (fun _ => sql_select_skill_distribution)) w ltac:(is_bound))
    as (r & w' & evs & Hrun & _ & _ & Htr & _ & Hr & _).
  exists r, w'. split; [exact Hrun |].
  destruct r as [rows |]; [| now rewrite (new_events_app _ _ _ Htr)].
  destruct Hr as [_ Hrows]. simpl in Hrows.
  unfold sql_select_skill_distribution, on_tables in Hrows.
  destruct (forallb _ _); [| contradiction]. subst rows.
  apply Forall_forall. intros row Hrow.
  apply skill_distribution_rows.
  eapply Permutation_in; [| exact Hrow].
  apply Permutation_sym, order_by_perm.
Qed.

(** ** The event statistics *)

Lemma status_of_first_match (name org start_d end_d : pystr)
  (n capacity : Z) (d : option Z) :
  status_by_first_match
    (mkEventStat name org n capacity start_d end_d d (status_of n capacity)).
Proof.
  unfold status_by_first_match, status_of. simpl.
  destruct (Z.geb_spec n capacity) as [Hge | Hlt];
    destruct (Z.gtb_spec n 0) as [Hpos | Hzero];
    repeat split; intros; try reflexivity; lia.
Qed.

Lemma by_count_sorted (l : list EventStatRow) :
  count_descending
    (order_by (fun a b => desc (Z.compare (st_volunteer_count a)
                                          (st_volunteer_count b))) l).
Proof.
  unfold count_descending.
  apply StronglySorted_impl
    with (R1 := fun a b => desc (Z.compare (st_volunteer_count a)
                                           (st_volunteer_count b)) <> Gt).
  - intros a b. unfold desc.
    destruct (Z.compare_spec (st_volunteer_count a) (st_volunteer_count b))
      as [Hc | Hc | Hc]; simpl; intros Hgt; try lia. congruence.
  - apply order_by_sorted.
    + intros a b. unfold desc.
      rewrite (Z.compare_antisym (st_volunteer_count a) (st_volunteer_count b)).
      destruct (Z.compare (st_volunteer_count a) (st_volunteer_count b));
        simpl; congruence.
    + intros a b c. unfold desc.
      destruct (Z.compare_spec (st_volunteer_count a) (st_volunteer_count b));
        destruct (Z.compare_spec (st_volunteer_count b) (st_volunteer_count c));
        destruct (Z.compare_spec (st_volunteer_count a) (st_volunteer_count c));
        simpl; intros; try congruence; lia.
Qed.

Lemma statistics_join_blocks (db : Database) :
  statistics_join db
  = flat_map (registration_block db) (event_join_organisation db).
Proof. reflexivity. Qed.

Lemma registration_block_key (db : Database)
  (p : EventRow * OrganisationRow)
  (x : EventRow * OrganisationRow * option VolunteerEventRow) :
  In x (registration_block db p) -> stat_key_of x = stat_key_of (p, None).
Proof.
  unfold registration_block.
  destruct (filter _ (VOLUNTEER_EVENT db)) as [| b m].
  - intros [<- | []]. reflexivity.
  - intros Hin. apply in_map_iff in Hin. destruct Hin as (b' & <- & _).
    destruct p. reflexivity.
Qed.

Lemma registration_block_count (db : Database)
  (p : EventRow * OrganisationRow) :
  registrations (registration_block db p) = registrations_of db (fst p).
Proof.
  unfold registration_block, registrations_of, registrations, count.
  destruct (filter _ (VOLUNTEER_EVENT db)) as [| b m]; [reflexivity |].
  f_equal. generalize (b :: m). intros l.
  induction l as [| c l IH]; simpl; [reflexivity | now rewrite IH].
Qed.

Lemma filter_same_key (A : Type) (f : A -> bool) (l : list A) (b : bool) :
  (forall x, In x l -> f x = b) -> filter f l = if b then l else [].
Proof.
  induction l as [| x l IH]; simpl; intros H; [now destruct b |].
  rewrite (H x (or_introl eq_refl)).
  rewrite IH by (intros y Hy; apply H; now right).
  now destruct b.
Qed.

Lemma filter_blocks (db : Database) (k : stat_key)
  (pairs : list (EventRow * OrganisationRow)) :
  filter (fun x => stat_key_eqb (stat_key_of x) k)
         (flat_map (registration_block db) pairs)
  = flat_map (fun p => if stat_key_eqb (stat_key_of (p, None)) k
                       then registration_block db p else [])
             pairs.
Proof.
  induction pairs as [| p pairs IH]; simpl; [reflexivity |].
  rewrite filter_app, IH. f_equal.
  apply filter_same_key. intros x Hx.
  now rewrite (registration_block_key _ _ _ Hx).
Qed.

Lemma flat_map_none (A B : Type) (c : A -> bool) (F : A -> list B)
  (l : list A) :
  (forall p, In p l -> c p = false) ->
  flat_map (fun p => if c p then F p else []) l = [].
Proof.
  induction l as [| x l IH]; simpl; intros H; [reflexivity |].
  rewrite (H x (or_introl eq_refl)). apply IH. intros p Hp. apply H. now right.
Qed.

Lemma flat_map_single (A B C : Type) (h : A -> C) (c : A -> bool)
  (F : A -> list B) (l : list A) (a : A) :
  NoDup (map h l) -> In a l ->
  (forall p, In p l -> c p = true -> h p = h a) ->
  c a = true ->
  flat_map (fun p => if c p then F p else []) l = F a.
Proof.
  induction l as [| x l IH]; simpl; intros Hnd Hin Hc Ha; [contradiction |].
  inversion Hnd as [| ? ? Hx Hnd']; subst.
  destruct Hin as [-> | Hin].
  - rewrite Ha.
    replace (flat_map (fun p => if c p then F p else []) l) with (@nil B);
      [apply app_nil_r |].
    symmetry. apply flat_map_none. intros p Hp.
    destruct (c p) eqn:Ep; [| reflexivity].
    exfalso. apply Hx. rewrite <- (Hc p (or_intror Hp) Ep). now apply in_map.
  - destruct (c x) eqn:Ex.
    + exfalso. apply Hx. rewrite (Hc x (or_introl eq_refl) Ex).
      now apply in_map.
    + apply IH; auto.
Qed.

Lemma filter_unique_key (A : Type) (k : A -> Z) (v : Z) (l : list A) :
  NoDup (map k l) ->
  (List.length (filter (fun x => Z.eqb v (k x)) l) <= 1)%nat.
Proof.
  induction l as [| x l IH]; simpl; intros Hnd; [lia |].
  inversion Hnd as [| ? ? Hx Hnd']; subst.
  destruct (Z.eqb_spec v (k x)) as [-> | Hne]; [| now apply IH].
  simpl. rewrite filter_none; [simpl; lia |].
  intros y Hy. destruct (Z.eqb_spec (k x) (k y)) as [E | _]; [| reflexivity].
  exfalso. apply Hx. rewrite E. now apply in_map.
Qed.

(** With unique ids, an event is joined to at most one organisation, so
    the events of the join are distinct. *)
Lemma event_join_unique (db : Database) :
  unique_ids db ->
  NoDup (map (fun p => event_id (fst p)) (event_join_organisation db)).
Proof.
  intros [He Ho]. unfold event_join_organisation, inner_join.
  induction (EVENT db) as [| e es IH]; simpl; [constructor |].
  inversion He as [| ? ? He1 He']; subst.
  rewrite map_app. apply NoDup_app.
  - rewrite map_map. simpl.
    pose proof (filter_unique_key _ org_id (event_org_id e) _ Ho) as Hlen.
    destruct (filter _ (ORGANISATION db)) as [| o [| o' m]]; simpl in *;
      [constructor | repeat constructor; intros [] | lia].
  - now apply IH.
  - intros i Hi Hi'. rewrite map_map in Hi. simpl in Hi.
    apply in_map_iff in Hi. destruct Hi as (o & <- & _).
    apply He1. apply in_map_iff in Hi'. destruct Hi' as ([e' o'] & Hid & Hin).
    simpl in Hid. apply in_flat_map in Hin. destruct Hin as (e2 & He2 & Hin).
    apply in_map_iff in Hin. destruct Hin as (o2 & [= <- <-] & _).
    rewrite <- Hid. now apply in_map.
Qed.

(** The rows of the statistics, before they are ordered: each is the row
    of an event and its organisation; with unique ids its count is the
    number of registrations of that event. *)
Lemma event_statistics_rows (db : Database) (r : EventStatRow) :
  In r (map event_stat_row
          (group_by stat_key_eqb stat_key_of (statistics_join db))) ->
  status_by_first_match r
  /\ exists e o,
       stat_row_of db e o r
       /\ (unique_ids db -> st_volunteer_count r = registrations_of db e).
Proof.
  intros Hin. apply in_map_iff in Hin. destruct Hin as ([k g] & <- & Hkg).
  destruct (group_by_spec _ _ stat_key_eqb stat_key_of stat_key_eqb_eq
              (statistics_join db)) as (_ & Hgroups & _).
  destruct (Hgroups _ _ Hkg) as [Hne Hg].
  destruct k as [[[[[i name] org] capacity] start_d] end_d]. simpl.
  split; [apply status_of_first_match |].
  destruct g as [| x g']; [contradiction |].
  assert (Hx : In x (x :: g')) by now left.
  rewrite Hg in Hx. apply filter_In in Hx. destruct Hx as [Hjoin Hkey].
  apply stat_key_eqb_eq in Hkey.
  destruct x as [[e o] ove]. unfold stat_key_of in Hkey.
  injection Hkey as Hi Hname Horg Hcap Hstart Hend.
  pose proof (left_join_In_left _ _ _ _ _ _ _ Hjoin) as Hpair.
  pose proof Hpair as Hpair'.
  apply inner_join_In in Hpair'. destruct Hpair' as (He & Ho & Hon).
  apply Z.eqb_eq in Hon.
  exists e, o. split.
  - unfold stat_row_of. simpl. repeat split; auto.
  - intros Huniq. rewrite Hg, statistics_join_blocks, filter_blocks.
    rewrite (flat_map_single _ _ _ (fun p => event_id (fst p)) _ _ _ (e, o)
               (event_join_unique _ Huniq) Hpair).
    + apply registration_block_count.
    + intros [e' o'] _ Hk. apply stat_key_eqb_eq in Hk.
      unfold stat_key_of in Hk. injection Hk as Hi' _ _ _ _ _.
      simpl. congruence.
    + apply stat_key_eqb_eq. unfold stat_key_of. congruence.
Qed.

(** C1, as the code has it: every row of [get_event_statistics] is
    labelled "Full" when its registrant count is at least max_volunteers,
    "Partial" when the count is above zero and below max_volunteers, and
    "Empty" when the count is zero and max_volunteers is above zero; the
    rows are ordered by registrant count, descending.  Each row is that of
    an event and its organisation, and where the ids are unique its count
    is the number of registrations of the event. *)
Theorem event_statistics_labels (w : World) :
  exists r w',
    get_event_statistics w = (Val r, w')
    /\ match r with
       | Some rows =>
           Forall status_by_first_match rows
           /\ count_descending rows
           /\ Forall (fun row =>
                        exists e o,
                          stat_row_of (database w) e o row
                          /\ (unique_ids (database w) ->
                              st_volunteer_count row
                              = registrations_of (database w) e)) rows
       | None => raised (new_events w w') = true
       end.
Proof.
  destruct (execute_query_fetch_run _
              (mkStatement SELECT_EVENT_STATISTICS
                 (fun _ => sql_select_event_statistics)) w ltac:(is_bound))
    as (r & w' & evs & Hrun & _ & _ & Htr & _ & Hr & _).
  exists r, w'. split; [exact Hrun |].
  destruct r as [rows |]; [| now rewrite (new_events_app _ _ _ Htr)].
  destruct Hr as [_ Hrows]. simpl in Hrows.
  unfold sql_select_event_statistics, on_tables in Hrows.
  destruct (forallb _ _); [| contradiction]. subst rows.
  assert (Hall : forall row,
             In row (order_by
                       (fun a b => desc (Z.compare (st_volunteer_count a)
                                                   (st_volunteer_count b)))
                       (map event_stat_row
                          (group_by stat_key_eqb stat_key_of
                             (statistics_join (database w))))) ->
             In row (map event_stat_row
                       (group_by stat_key_eqb stat_key_of
                          (statistics_join (database w))))).
  { intros row Hrow. eapply Permutation_in; [| exact Hrow].
    apply Permutation_sym, order_by_perm. }
  split; [| split].
  - apply Forall_forall. intros row Hrow.
    exact (proj1 (event_statistics_rows _ _ (Hall _ Hrow))).
  - apply by_count_sorted.
  - apply Forall_forall. intros row Hrow.
    exact (proj2 (event_statistics_rows _ _ (Hall _ Hrow))).
Qed.

End Reports.

(** C1 as stated fails on the sample database: the briefing, with room
    for no volunteer and no registration, is labelled "Full", not
    "Empty". *)
Lemma full_event_without_registrations :
  exists rows w' row,
    @get_event_statistics (Sample.platform NoAction NoAction)
      (Sample.world Sample.community []) = (Val (Some rows), w')
    /\ In row rows
    /\ st_volunteer_count row = 0%Z
    /\ status row = lit "Full"
    /\ ~ status_as_stated row.
Proof.
  eexists. eexists.
  exists (mkEventStat (lit "Briefing") (lit "Shelter") 0 0
            (lit "2025-06-20") (lit "2025-06-20") (Some 0%Z) (lit "Full")).
  split; [vm_compute; reflexivity |].
  split; [simpl; auto 10 |].
  split; [reflexivity |]. split; [reflexivity |].
  intros (_ & _ & H). specialize (H eq_refl). discriminate H.
Qed.

(** The labels on the sample database, in the order returned: two of two
    places taken, one of five, none of three, none of none. *)
Example sample_event_statistics :
  match fst (@get_event_statistics (Sample.platform NoAction NoAction)
               (Sample.world Sample.community [])) with
  | Val (Some rows) =>
      map (fun r => (st_volunteer_count r, st_max_volunteers r, status r)) rows
  | _ => []
  end
  = [(2, 2, lit "Full"); (1, 5, lit "Partial"); (0, 3, lit "Empty");
     (0, 0, lit "Full")]%Z.
Proof. reflexivity. Qed.

(** On the sample database only Cooking, which two volunteers have,
    is returned; Driving, which nobody has, is not. *)
Example sample_skill_distribution :
  match fst (get_skill_distribution (Sample.world Sample.community [])) with
  | Val (Some rows) =>
      map (fun r => (sd_skill_name r, sd_volunteer_count r)) rows
  | _ => []
  end = [(lit "Cooking", 2%Z)].
Proof. reflexivity. Qed.

(* ================================================================== *)
(** * Deleting an event *)
(* ================================================================== *)

Section DeleteEvent.
Context {P : Platform}.






(** An id within the range of INTEGER is bound, and the DELETE runs. *)
Lemma sql_delete_event_binds (eid : Z) (fk : bool) (db : Database) :
  int64 eid = true ->
  sql_delete_event eid fk db
  = on_tables [T_EVENT] db
      (let hit e := Z.eqb (event_id e) eid in
       let remaining := filter (fun e => negb (hit e)) (EVENT db) in
       let deleted := Z.of_nat (List.length (filter hit (EVENT db))) in
       if Z.eqb deleted 0 then SqlChanged 0 0 db
       else if fk then
         match on_parent_delete ve_event_on_delete ve_event_id
                 set_ve_event_id
                 eid (map event_id remaining) (VOLUNTEER_EVENT db),
               on_parent_delete es_event_on_delete es_event_id
                 set_es_event_id
                 eid (map event_id remaining) (EVENT_SKILL db)
         with
         | Some ve, Some es =>
             SqlChanged deleted 0
               (set_EVENT_SKILL es (set_VOLUNTEER_EVENT ve
                                      (set_EVENT remaining db)))
         | _, _ => SqlFail IntegrityError
         end
       else SqlChanged deleted 0 (set_EVENT remaining db)).
Proof.
  intros H. unfold sql_delete_event, binding.
  rewrite int64_binds by assumption. reflexivity.
Qed.








End DeleteEvent.


(** What the code does there: without an ON DELETE action the delete is
    refused and [None] returned; with CASCADE the two registrations go
    with the event. *)
Example delete_registered_event_no_action :
  let run := @delete_event (Sample.platform NoAction NoAction) 1
               (Sample.world Sample.community []) in
  fst run = Val None /\ database (snd run) = Sample.community.
Proof. split; reflexivity. Qed.

Example delete_registered_event_cascade :
  let run := @delete_event (Sample.platform Cascade Cascade) 1
               (Sample.world Sample.community []) in
  fst run = Val (Some 1%Z)
  /\ VOLUNTEER_EVENT (database (snd run)) = [Sample.registration 3 2].
Proof. split; reflexivity. Qed.

(** An id beyond 64 bits is not bound to the DELETE: the call raises
    OverflowError. *)
Example delete_event_beyond_64_bits :
  fst (@delete_event (Sample.platform NoAction NoAction) (2 ^ 63)
         (Sample.world Sample.community []))
  = Raised (BindError OverflowError).
Proof. vm_compute. reflexivity. Qed.


(* ================================================================== *)
(** * Connections and transactions *)
(* ================================================================== *)

Section Connections.
Context {P : Platform}.

(** X1 (get_db_connection): the call never raises and leaves the database
    as it is; a connection it returns has no open transaction and enforces
    foreign keys; it returns [None] exactly when connecting or the pragma
    raised an error. *)
Theorem connection_enforces_foreign_keys (w : World) :
  exists r w',
    get_db_connection w = (Val r, w')
    /\ database w' = database w
    /\ flashes w' = flashes w
    /\ match r with
       | Some _ =>
           raised (new_events w w') = false
           /\ ~ faulty 2 (oracle w)
           /\ txn w' = None /\ foreign_keys w' = true
       | None => raised (new_events w w') = true /\ faulty 2 (oracle w)
       end.
Proof.
  destruct w as [db t fk o tr fl].
  oracle_cases o; [| | oracle_cases o]; run_engine.
  all: do 2 eexists; split; [reflexivity |]; simpl.
  all: split; [reflexivity |]; split; [reflexivity |].
  all: unfold new_events; simpl;
    rewrite <- ?app_assoc, skipn_app, skipn_all, Nat.sub_diag; simpl.
  all: repeat split; try reflexivity; first [not_faulty | is_faulty].
Qed.

(** X2 (execute_query): the call returns, or raises the exception of a
    parameter that cannot be bound and nothing else.  When it returns with
    a connection obtained, the connection was closed exactly once, as the
    last step, on the success path and on the error path, and no
    transaction stays open; when connecting or the pragma failed, [None]
    is returned and nothing is closed.  When it raises, the connection is
    not closed: the exception passes the handler of [sqlite3.Error] and
    the call of [conn.close()] after it.  It returns whenever the
    parameters can be bound. *)
Theorem execute_query_closes_connection (R : Type) (q : statement R)
  (fetch : bool) (w : World) :
  exists r w' evs,
    execute_query q fetch w = (r, w')
    /\ trace w' = trace w ++ evs
    /\ (faulty 2 (oracle w) -> r = Val None /\ ~ In Close evs)
    /\ (~ faulty 2 (oracle w) ->
        match r with
        | Val _ => txn w' = None /\ closed_once evs
        | Raised e =>
            ~ In Close evs
            /\ exists b,
                e = BindError b /\ denote q true (database w) = SqlUnbound b
        end)
    /\ (bound (denote q true (database w)) -> exists v, r = Val v).
Proof.
  destruct w as [db t fk o tr fl]. unfold bound.
  destruct fetch; destruct (denote q true db) eqn:E.
  all: oracle_cases o;
    [| | oracle_cases o; [| | oracle_cases o; [| | oracle_cases o]]];
    run_engine; rewrite ?E.
  all: do 3 eexists; split; [reflexivity |]; simpl.
  all: split; [trace_eq |].
  all: split;
    [ first [ intros _; split; [reflexivity |];
              simpl; intuition discriminate
            | intros Hf; exfalso; revert Hf; not_faulty ] |].
  all: split;
    [ first [ intros Hn; exfalso; apply Hn; is_faulty
            | intros _; split; [reflexivity |];
              unfold closed_once;
              match goal with
              | |- exists b, ?l = b ++ [Close] /\ _ =>
                  exists (removelast l); split; [reflexivity |];
                  simpl; intuition discriminate
              end
            | intros _; split; [simpl; intuition discriminate | eauto] ] |].
  all: first [ intros _; eexists; reflexivity
             | intros Hb; exfalso; exact (Hb _ eq_refl) ].
Qed.

End Connections.

(* ================================================================== *)
(** * Reads, writes and round trips *)
(* ================================================================== *)

Section Writes.
Context {P : Platform}.

Lemma execute_query_atomic (R : Type) (q : statement R) (fetch : bool)
  (failed : option bind_error) :
  (forall db, unbinds_as failed (denote q true db)) ->
  atomic_run failed fetch (execute_query q fetch).
Proof.
  intros Hu w. destruct fetch.
  - destruct (execute_query_fetch_cases _ q w)
      as (r & w' & evs & Hrun & Hdb & _ & _ & _ & Hr & _).
    exists r, w'. split; [exact Hrun |]. split; [auto |]. split; [auto |].
    destruct r as [x | e]; [exact I |].
    destruct Hr as (_ & _ & b & -> & Hb).
    split; [exact Hdb |]. exists b. split; [reflexivity | exact (Hu _ b Hb)].
  - destruct (execute_query_change_cases _ q w)
      as (r & w' & evs & Hrun & _ & _ & Hr & _).
    exists r, w'. split; [exact Hrun |].
    destruct r as [[n |] | e].
    + split; [discriminate |]. split; [discriminate | exact I].
    + split; [intros _; now destruct Hr |]. split; [discriminate | exact I].
    + destruct Hr as (_ & Hdb & _ & _ & b & -> & Hb).
      split; [discriminate |]. split; [discriminate |].
      split; [exact Hdb |]. exists b. split; [reflexivity | exact (Hu _ b Hb)].
Qed.

Lemma first_or_none_atomic (R : Type) (failed : option bind_error)
  (m : M (option (list R))) :
  atomic_run failed true m ->
  atomic_run failed true (results <- m ;; ret (first_or_none results)).
Proof.
  intros Hm w. destruct (Hm w) as (r & w' & Hrun & _ & Hdb & He).
  unfold bind, ret. rewrite Hrun. destruct r as [rows | e].
  - exists (Val (first_or_none rows)), w'. auto.
  - exists (Raised e), w'. auto.
Qed.

Lemma create_volunteer_atomic (fn ln dob em ph ad : pystr) :
  atomic_run
    (bind_parameters
       [PText fn; PText ln; PText dob; PText em; PText ph; PText ad])
    false (create_volunteer fn ln dob em ph ad).
Proof.
  intros w.
  destruct (create_volunteer_cases fn ln dob em ph ad w)
    as (r & w' & evs & Hrun & _ & _ & Hr & _).
  exists r, w'. split; [exact Hrun |].
  destruct r as [[id |] | e].
  - split; [discriminate |]. split; [discriminate | exact I].
  - split; [intros _; now destruct Hr |]. split; [discriminate | exact I].
  - destruct Hr as (_ & Hdb & b & -> & Hb).
    split; [discriminate |]. split; [discriminate |].
    split; [exact Hdb |]. exists b. split; [reflexivity |].
    revert Hb. unfold sql_insert_volunteer. apply on_tables_unbinds.
    intros b'. cbv zeta. destruct (volunteer_table_ok _); discriminate.
Qed.

Lemma run_atomic (A : Type) (op : operation A) :
  atomic_run (bind_parameters (parameters op)) (negb (writes op)) (run op).
Proof.
  destruct op; simpl parameters; simpl run; simpl negb;
    unfold get_all_volunteers, get_volunteer_by_id, update_volunteer_phone,
      get_all_organisations, get_organisation_by_id, get_all_events,
      get_event_by_id, delete_event, search_volunteers_by_skill,
      get_volunteers_for_organisation_events, get_event_statistics,
      get_volunteers_with_calculated_fields, get_skill_distribution,
      get_organisation_event_summary, get_all_skills.
  1: apply create_volunteer_atomic.
  all: try apply first_or_none_atomic.
  all: first [ apply (execute_query_atomic _ _ true)
             | apply (execute_query_atomic _ _ false) ];
    intros db; simpl denote.
  all: unfold sql_select_volunteers, sql_select_volunteer_by_id,
      sql_update_volunteer_phone, sql_select_organisations,
      sql_select_organisation_by_id, sql_select_events,
      sql_select_event_by_id, sql_delete_event,
      sql_select_volunteers_by_skill,
      sql_select_volunteers_for_organisation, sql_select_event_statistics,
      sql_select_volunteers_calculated, sql_select_skill_distribution,
      sql_select_organisation_summary, sql_select_skills.
  all: first [ apply on_tables_unbinds | apply bound_unbinds, on_tables_bound ].
  all: intros b; cbv zeta.
  all: repeat match goal with
              | |- context [if ?c then _ else _] => destruct c
              | |- context [match ?c with _ => _ end] => destruct c
              end;
    discriminate.
Qed.

(** X3 (execute_query, create_volunteer and the operations built on
    them): an operation returns, or raises the exception of a parameter
    that cannot be bound (an integer outside 64 bits, a text that cannot
    be encoded) and nothing else, and it returns whenever its parameters
    can be bound.  An operation that returns [None] or raises has left the
    database as it was, so a failed insert, update or delete changes
    nothing; and the thirteen reading operations never change it. *)
Theorem operations_are_atomic (A : Type) (op : operation A) (w : World) :
  exists r w',
    run op w = (r, w')
    /\ (r = Val None -> database w' = database w)
    /\ (writes op = false -> database w' = database w)
    /\ match r with
       | Val _ => True
       | Raised e =>
           database w' = database w
           /\ exists b,
               e = BindError b /\ bind_parameters (parameters op) = Some b
       end
    /\ (bind_parameters (parameters op) = None -> exists x, r = Val x).
Proof.
  destruct (run_atomic _ op w) as (r & w' & Hrun & Hnone & Hreads & He).
  exists r, w'. split; [exact Hrun |]. split; [exact Hnone |].
  split; [intros Hw; apply Hreads; now rewrite Hw |].
  split; [exact He |].
  intros Hb. destruct r as [x | e]; [now exists x |].
  destruct He as (_ & b & _ & Hsome). congruence.
Qed.

(** What a lookup by key does: it returns the first row of the statement,
    or [None], or it raises the exception of the key that cannot be
    bound. *)
Lemma lookup_cases (R : Type) (name : stmt_id)
  (sel : Database -> sql_outcome R) (rows : Database -> list R)
  (tables : list string) (params : list sql_param) (w : World) :
  (forall db,
     sel db = on_tables tables db (binding params (SqlRows (rows db)))) ->
  exists r w',
    (results <- execute_query (mkStatement name (fun _ => sel)) true ;;
     ret (first_or_none results)) w = (r, w')
    /\ database w' = database w
    /\ flashes w' = flashes w
    /\ match r with
       | Val (Some x) =>
           bind_parameters params = None
           /\ exists rest, rows (database w) = x :: rest
       | Val None =>
           raised (new_events w w') = true
           \/ (bind_parameters params = None /\ rows (database w) = [])
       | Raised e =>
           raised (new_events w w') = false
           /\ exists b, e = BindError b /\ bind_parameters params = Some b
       end.
Proof.
  intros Hsel.
  destruct (execute_query_fetch_cases _ (mkStatement name (fun _ => sel)) w)
    as (r & w' & evs & Hrun & Hdb & Hfl & Htr & _ & Hr & _).
  unfold bind, ret. rewrite Hrun.
  simpl denote in Hr. rewrite Hsel in Hr. unfold on_tables, binding in Hr.
  destruct r as [[l |] | e].
  - exists (Val (first_or_none (Some l))), w'.
    rewrite (new_events_app _ _ _ Htr).
    split; [reflexivity |]. split; [exact Hdb |]. split; [exact Hfl |].
    destruct Hr as [_ Hl].
    destruct (forallb _ _); [| contradiction].
    destruct (bind_parameters params); [contradiction |].
    subst l. destruct (rows (database w)) as [| x rest]; simpl; eauto.
  - exists (Val None), w'. rewrite (new_events_app _ _ _ Htr). auto.
  - exists (Raised e), w'. rewrite (new_events_app _ _ _ Htr).
    split; [reflexivity |]. split; [exact Hdb |]. split; [exact Hfl |].
    destruct Hr as (Hno & _ & b & -> & Hb). split; [exact Hno |].
    exists b. split; [reflexivity |].
    destruct (forallb _ _); [| discriminate].
    destruct (bind_parameters params); [congruence | discriminate].
Qed.

(** The one parameter of a lookup by key: it binds exactly when the key is
    within 64 bits. *)
Lemma bind_key (n : Z) :
  bind_parameters [PInt n] = if int64 n then None else Some OverflowError.
Proof. reflexivity. Qed.

Lemma filter_head (A : Type) (f : A -> bool) (l : list A) (x : A)
  (rest : list A) :
  filter f l = x :: rest -> In x l /\ f x = true.
Proof.
  intros E. apply filter_In. rewrite E. now left.
Qed.

Lemma filter_nil_none (A : Type) (f : A -> bool) (l : list A) :
  filter f l = [] -> forall x, In x l -> f x = false.
Proof.
  intros E x Hx. destruct (f x) eqn:Ef; [| reflexivity].
  assert (H : In x (filter f l)) by (apply filter_In; auto).
  rewrite E in H. contradiction.
Qed.

(** What [get_volunteer_by_id] does, for every id. *)
Lemma get_volunteer_by_id_cases (vid : Z) (w : World) :
  exists r w',
    get_volunteer_by_id vid w = (r, w')
    /\ database w' = database w
    /\ flashes w' = flashes w
    /\ match r with
       | Val (Some v) =>
           int64 vid = true
           /\ In v (VOLUNTEER (database w)) /\ volunteer_id v = vid
       | Val None =>
           raised (new_events w w') = true
           \/ (int64 vid = true
               /\ forall v, In v (VOLUNTEER (database w)) ->
                            volunteer_id v <> vid)
       | Raised e =>
           e = BindError OverflowError /\ int64 vid = false
           /\ raised (new_events w w') = false
       end.
Proof.
  destruct (lookup_cases _ SELECT_VOLUNTEER_BY_ID
              (sql_select_volunteer_by_id vid)
              (fun db => filter (fun v => Z.eqb (volunteer_id v) vid)
                                (VOLUNTEER db))
              [T_VOLUNTEER] [PInt vid] w (fun db => eq_refl))
    as (r & w' & Hrun & Hdb & Hfl & Hr).
  exists r, w'. split; [exact Hrun |]. split; [exact Hdb |].
  split; [exact Hfl |]. rewrite bind_key in Hr.
  destruct r as [[v |] | e].
  - destruct Hr as [Hb [rest Hrows]]. apply filter_head in Hrows.
    destruct Hrows as [Hin Hid]. apply Z.eqb_eq in Hid.
    destruct (int64 vid); [auto | discriminate].
  - destruct Hr as [Hr | [Hb Hr]]; [now left | right].
    split; [destruct (int64 vid); [reflexivity | discriminate] |].
    intros v Hv Hid. pose proof (filter_nil_none _ _ _ Hr v Hv) as Hf.
    simpl in Hf. rewrite Hid, Z.eqb_refl in Hf. discriminate.
  - destruct Hr as (Hno & b & -> & Hb).
    destruct (int64 vid); [discriminate |]. injection Hb as <-. auto.
Qed.

(** X4 (get_volunteer_by_id): the lookup never changes the database.  For
    an id within 64 bits it returns: a row it returns is a VOLUNTEER row
    with the requested id, and it returns [None] only when the engine
    raised an error or no row has the id.  For an id outside 64 bits no
    row is returned: the call raises OverflowError, the engine having
    raised nothing, unless it returns [None] for an error of the engine. *)
Theorem volunteer_lookup (vid : Z) (w : World) :
  exists r w',
    get_volunteer_by_id vid w = (r, w')
    /\ database w' = database w
    /\ match r with
       | Val (Some v) =>
           int64 vid = true
           /\ In v (VOLUNTEER (database w)) /\ volunteer_id v = vid
       | Val None =>
           raised (new_events w w') = true
           \/ (int64 vid = true
               /\ forall v, In v (VOLUNTEER (database w)) ->
                            volunteer_id v <> vid)
       | Raised e =>
           e = BindError OverflowError /\ int64 vid = false
           /\ raised (new_events w w') = false
       end
    /\ (int64 vid = true -> exists x, r = Val x).
Proof.
  destruct (get_volunteer_by_id_cases vid w) as (r & w' & Hrun & Hdb & _ & Hr).
  exists r, w'. split; [exact Hrun |]. split; [exact Hdb |].
  split; [exact Hr |]. intros Hid.
  destruct r as [x | e]; [now exists x |].
  destruct Hr as (_ & Hno & _). congruence.
Qed.

Lemma get_volunteer_by_id_found (vid : Z) (w w' : World) (v : VolunteerRow) :
  get_volunteer_by_id vid w = (Val (Some v), w') ->
  In v (VOLUNTEER (database w)) /\ volunteer_id v = vid.
Proof.
  intros Hrun.
  destruct (get_volunteer_by_id_cases vid w) as (r & w1 & Hrun' & _ & _ & Hr).
  rewrite Hrun in Hrun'. injection Hrun' as <- <-.
  now destruct Hr as (_ & Hin & Hid).
Qed.

(** What a successful [create_volunteer] did to the database. *)
Lemma create_volunteer_inserts (fn ln dob em ph ad : pystr) (w w' : World)
  (id : Z) :
  create_volunteer fn ln dob em ph ad w = (Val (Some id), w') ->
  VOLUNTEER (database w')
  = VOLUNTEER (database w) ++ [new_volunteer_row id fn ln dob em ph ad]
  /\ only_volunteers_differ (database w) (database w').
Proof.
  intros Hrun.
  destruct (create_volunteer_cases fn ln dob em ph ad w)
    as (r & w1 & evs & Hrun' & _ & _ & Hr & _).
  rewrite Hrun in Hrun'. injection Hrun' as <- <-.
  destruct Hr as [_ [n Hsql]].
  unfold sql_insert_volunteer, on_tables, binding in Hsql.
  destruct (forallb _ _); [| discriminate].
  destruct (bind_parameters _); [discriminate |].
  destruct (volunteer_table_ok _); [| discriminate].
  injection Hsql as _ Hid Hdb. simpl in Hid.
  split; [| rewrite <- Hdb; repeat split].
  rewrite <- Hdb. simpl. unfold new_volunteer_row. now rewrite Hid.
Qed.

(** X5 (create_volunteer): when it returns an id, exactly one row was
    appended to VOLUNTEER, holding the six given fields, the generated id
    and the default registration date, and no other table changed; if the
    id was not in use, a later lookup of the id that returns a row returns
    this one, and a later listing contains it. *)
Theorem created_volunteer_is_found (fn ln dob em ph ad : pystr)
  (w w' : World) (id : Z) :
  create_volunteer fn ln dob em ph ad w = (Val (Some id), w') ->
  VOLUNTEER (database w')
  = VOLUNTEER (database w) ++ [new_volunteer_row id fn ln dob em ph ad]
  /\ only_volunteers_differ (database w) (database w')
  /\ (~ In id (map volunteer_id (VOLUNTEER (database w))) ->
      forall w2 v w3,
        database w2 = database w' ->
        get_volunteer_by_id id w2 = (Val (Some v), w3) ->
        v = new_volunteer_row id fn ln dob em ph ad)
  /\ (forall w2 rows w3,
        database w2 = database w' ->
        get_all_volunteers w2 = (Val (Some rows), w3) ->
        In (new_volunteer_row id fn ln dob em ph ad) rows).
Proof.
  intros Hrun.
  destruct (create_volunteer_inserts _ _ _ _ _ _ _ _ _ Hrun) as [Hv Hothers].
  split; [exact Hv |]. split; [exact Hothers |].
  split.
  - intros Hfresh w2 v w3 Hw2 Hlook.
    destruct (get_volunteer_by_id_found _ _ _ _ Hlook) as [Hin Hvid].
    rewrite Hw2, Hv in Hin.
    apply in_app_or in Hin. destruct Hin as [Hin | [<- | []]]; [| reflexivity].
    exfalso. apply Hfresh. rewrite <- Hvid. now apply in_map.
  - intros w2 rows w3 Hw2 Hlist.
    rewrite (get_all_volunteers_rows _ _ _ Hlist), Hw2, Hv.
    eapply Permutation_in; [apply order_by_perm |].
    apply in_or_app. right. now left.
Qed.

Lemma with_phone_id (vid : Z) (ph : pystr) (v : VolunteerRow) :
  volunteer_id (with_phone vid ph v) = volunteer_id v.
Proof. unfold with_phone. now destruct (Z.eqb _ _). Qed.

Lemma map_with_phone_absent (vid : Z) (ph : pystr) (l : list VolunteerRow) :
  filter (fun v => Z.eqb (volunteer_id v) vid) l = [] ->
  map (with_phone vid ph) l = l.
Proof.
  intros E. rewrite <- (map_id l) at 2. apply map_ext_in. intros v Hv.
  unfold with_phone. now rewrite (filter_nil_none _ _ _ E v Hv).
Qed.

(** What [update_volunteer_phone] does to the database. *)
Lemma update_volunteer_phone_cases (vid : Z) (ph : pystr) (w : World) :
  exists r w',
    update_volunteer_phone vid ph w = (r, w')
    /\ flashes w' = flashes w
    /\ match r with
       | Val (Some n) =>
           n = Z.of_nat (List.length
                           (filter (fun v => Z.eqb (volunteer_id v) vid)
                                   (VOLUNTEER (database w))))
           /\ VOLUNTEER (database w')
              = map (with_phone vid ph) (VOLUNTEER (database w))
           /\ only_volunteers_differ (database w) (database w')
           /\ (n = 0%Z -> database w' = database w)
       | Val None => database w' = database w
       | Raised e =>
           database w' = database w
           /\ exists b,
               e = BindError b
               /\ bind_parameters [PText ph; PInt vid] = Some b
       end.
Proof.
  unfold update_volunteer_phone.
  destruct (execute_query_change_cases _
              (mkStatement UPDATE_VOLUNTEER_PHONE
                 (fun _ => sql_update_volunteer_phone ph vid)) w)
    as (r & w' & evs & Hrun & Hfl & _ & Hr & _).
  exists r, w'. split; [exact Hrun |]. split; [exact Hfl |].
  simpl denote in Hr.
  unfold sql_update_volunteer_phone, on_tables, binding in Hr.
  destruct r as [[n |] | e]; [| now destruct Hr |].
  2: { destruct Hr as (_ & Hdb & _ & _ & b & -> & Hb).
       split; [exact Hdb |]. exists b. split; [reflexivity |].
       destruct (forallb _ _); [| discriminate].
       destruct (bind_parameters _); [congruence |].
       revert Hb. cbv zeta.
       repeat match goal with
              | |- context [if ?c then _ else _] => destruct c
              end; discriminate. }
  destruct Hr as [_ Hsql].
  destruct (forallb _ _); [| contradiction].
  destruct (bind_parameters _); [contradiction |].
  cbv zeta in Hsql.
  destruct (Z.eqb_spec
              (Z.of_nat (List.length
                           (filter (fun v => Z.eqb (volunteer_id v) vid)
                                   (VOLUNTEER (database w))))) 0)
    as [Hzero | Hpos].
  - destruct Hsql as [-> ->]. split; [now rewrite Hzero |].
    split; [| split; [repeat split | reflexivity]].
    symmetry. apply map_with_phone_absent.
    destruct (filter _ (VOLUNTEER (database w))); [reflexivity |].
    simpl in Hzero. lia.
  - destruct (volunteer_table_ok _); [| contradiction].
    destruct Hsql as [-> Hdb]. rewrite Hdb. split; [reflexivity |].
    split; [reflexivity |]. split; [repeat split |].
    intros H. contradiction.
Qed.

(** The update with an id and a phone number that can be bound returns. *)
Lemma update_volunteer_phone_result (vid : Z) (ph : pystr) (w : World) :
  int64 vid = true -> encodable ph = true ->
  exists r w',
    update_volunteer_phone vid ph w = (Val r, w')
    /\ flashes w' = flashes w
    /\ match r with
       | Some n =>
           n = Z.of_nat (List.length
                           (filter (fun v => Z.eqb (volunteer_id v) vid)
                                   (VOLUNTEER (database w))))
           /\ VOLUNTEER (database w')
              = map (with_phone vid ph) (VOLUNTEER (database w))
           /\ only_volunteers_differ (database w) (database w')
           /\ (n = 0%Z -> database w' = database w)
       | None => database w' = database w
       end.
Proof.
  intros Hid Hph.
  destruct (update_volunteer_phone_cases vid ph w)
    as (r & w' & Hrun & Hfl & Hr).
  destruct r as [[n |] | e].
  - exists (Some n), w'. auto.
  - exists None, w'. auto.
  - exfalso. destruct Hr as (_ & b & _ & Hb).
    rewrite encodable_binds, int64_binds in Hb by assumption. discriminate.
Qed.

(** X6 (update_volunteer_phone): when it returns a row count, the count
    is the number of volunteers with the id, those volunteers have the new
    phone number and every other field of every volunteer, and every other
    table, is as before; a later lookup of the id returns the new number. *)
Theorem phone_update_changes_only_the_phone (vid : Z) (ph : pystr)
  (w w' : World) (n : Z) :
  update_volunteer_phone vid ph w = (Val (Some n), w') ->
  n = Z.of_nat (List.length (filter (fun v => Z.eqb (volunteer_id v) vid)
                                    (VOLUNTEER (database w))))
  /\ VOLUNTEER (database w') = map (with_phone vid ph) (VOLUNTEER (database w))
  /\ only_volunteers_differ (database w) (database w')
  /\ (forall w2 v w3,
        database w2 = database w' ->
        get_volunteer_by_id vid w2 = (Val (Some v), w3) ->
        phone v = ph).
Proof.
  intros Hrun.
  destruct (update_volunteer_phone_cases vid ph w)
    as (r & w1 & Hrun' & _ & Hr).
  rewrite Hrun in Hrun'. injection Hrun' as <- <-.
  destruct Hr as (Hn & Hv & Hothers & _).
  split; [exact Hn |]. split; [exact Hv |]. split; [exact Hothers |].
  intros w2 v w3 Hw2 Hlook.
  destruct (get_volunteer_by_id_found _ _ _ _ Hlook) as [Hin Hvid].
  rewrite Hw2, Hv in Hin.
  apply in_map_iff in Hin. destruct Hin as (v0 & <- & _).
  rewrite with_phone_id in Hvid. unfold with_phone.
  apply Z.eqb_eq in Hvid. now rewrite Hvid.
Qed.

End Writes.

(** The theorem at a new volunteer on the sample database: the id is 4. *)
Lemma created_volunteer_is_found_witness :
  exists w',
    @create_volunteer (Sample.platform NoAction NoAction)
      (lit "Dee") (lit "Lee") (lit "1999-01-31") (lit "dee@example.org")
      (lit "0412 000 111") (lit "4 New St")
      (Sample.world Sample.community []) = (Val (Some 4%Z), w')
    /\ VOLUNTEER (database w')
       = [Sample.ada; Sample.ben; Sample.cal;
          @new_volunteer_row (Sample.platform NoAction NoAction) 4
            (lit "Dee") (lit "Lee") (lit "1999-01-31")
            (lit "dee@example.org") (lit "0412 000 111") (lit "4 New St")].
Proof.
  eexists. split; [vm_compute; reflexivity |].
  apply (@created_volunteer_is_found (Sample.platform NoAction NoAction)
           (lit "Dee") (lit "Lee") (lit "1999-01-31") (lit "dee@example.org")
           (lit "0412 000 111") (lit "4 New St")
           (Sample.world Sample.community []) _ 4%Z).
  vm_compute. reflexivity.
Defined.

(** The theorem at a new phone number for Ada, volunteer 1. *)
Lemma phone_update_changes_only_the_phone_witness :
  exists w',
    @update_volunteer_phone (Sample.platform NoAction NoAction) 1
      (lit "0499 888 777") (Sample.world Sample.community [])
    = (Val (Some 1%Z), w')
    /\ VOLUNTEER (database w')
       = map (with_phone 1 (lit "0499 888 777")) [Sample.ada; Sample.ben; Sample.cal].
Proof.
  eexists. split; [vm_compute; reflexivity |].
  apply (@phone_update_changes_only_the_phone
           (Sample.platform NoAction NoAction) 1 (lit "0499 888 777")
           (Sample.world Sample.community []) _ 1%Z).
  vm_compute. reflexivity.
Defined.

(* ================================================================== *)
(** * Sort keys *)
(* ================================================================== *)

Section Comparators.

Lemma comparator_total (A : Type) (cmp : A -> A -> comparison) :
  comparator cmp -> forall a b, cmp a b = Gt -> cmp b a <> Gt.
Proof.
  intros C a b H. rewrite (cmp_sym C a b), H. discriminate.
Qed.

Lemma comparator_le_trans (A : Type) (cmp : A -> A -> comparison) :
  comparator cmp ->
  forall a b c, cmp a b <> Gt -> cmp b c <> Gt -> cmp a c <> Gt.
Proof.
  intros C a b c Hab Hbc.
  destruct (cmp a b) eqn:E1; [| | congruence].
  - now rewrite (cmp_eq_left C a b c E1).
  - destruct (cmp b c) eqn:E2; [| | congruence].
    + assert (E3 : cmp c b = Eq) by (rewrite (cmp_sym C b c), E2; reflexivity).
      pose proof (cmp_eq_left C c b a E3) as H.
      rewrite (cmp_sym C a c), (cmp_sym C a b), E1 in H. simpl in H.
      destruct (cmp a c); simpl in H; congruence.
    + rewrite (cmp_lt_trans C a b c E1 E2). discriminate.
Qed.

Lemma sorted_by (A : Type) (cmp : A -> A -> comparison) (l : list A) :
  comparator cmp ->
  StronglySorted (fun a b => cmp a b <> Gt) (order_by cmp l).
Proof.
  intros C. apply order_by_sorted.
  - now apply comparator_total.
  - now apply comparator_le_trans.
Qed.

Lemma comparator_str : comparator str_compare.
Proof.
  split.
  - intros a b. apply str_compare_antisym.
  - intros a b c. apply str_lt_trans.
  - intros a b c H. apply str_compare_eq in H. now subst.
Qed.


Lemma comparator_on (A B : Type) (f : A -> B) (cmp : B -> B -> comparison) :
  comparator cmp -> comparator (fun a b => cmp (f a) (f b)).
Proof.
  intros C. split.
  - intros a b. apply (cmp_sym C).
  - intros a b c. apply (cmp_lt_trans C).
  - intros a b c. apply (cmp_eq_left C).
Qed.


Lemma comparator_then (A : Type) (c1 c2 : A -> A -> comparison) :
  comparator c1 -> comparator c2 ->
  comparator (fun a b => then_by (c1 a b) (c2 a b)).
Proof.
  intros C1 C2. unfold then_by. split.
  - intros a b. rewrite (cmp_sym C1 a b), (cmp_sym C2 a b).
    now destruct (c1 a b).
  - intros a b c H1 H2.
    destruct (c1 a b) eqn:E1; [| | discriminate].
    + rewrite (cmp_eq_left C1 a b c E1).
      destruct (c1 b c); [| reflexivity | discriminate].
      now apply (cmp_lt_trans C2 a b c).
    + destruct (c1 b c) eqn:E2; [| | discriminate].
      * assert (E3 : c1 c b = Eq) by (rewrite (cmp_sym C1 b c), E2; reflexivity).
        pose proof (cmp_eq_left C1 c b a E3) as H.
        rewrite (cmp_sym C1 a c), (cmp_sym C1 a b), E1 in H. simpl in H.
        destruct (c1 a c); simpl in H; congruence.
      * now rewrite (cmp_lt_trans C1 a b c E1 E2).
  - intros a b c H.
    destruct (c1 a b) eqn:E1; try discriminate.
    rewrite (cmp_eq_left C1 a b c E1), (cmp_eq_left C2 a b c H). reflexivity.
Qed.


Lemma then_by_str_le (x y : pystr) (c : comparison) :
  then_by (str_compare x y) c <> Gt <-> str_lt x y \/ (x = y /\ c <> Gt).
Proof.
  unfold then_by, str_lt. rewrite <- str_compare_eq.
  destruct (str_compare x y); intuition congruence.
Qed.




End Comparators.

(* ================================================================== *)
(** * The listings *)
(* ================================================================== *)

Section Listings.

(** What a listing returns: the rows of its statement. *)
Lemma listing_run (R : Type) (name : stmt_id)
  (sel : Database -> sql_outcome R) (rows : Database -> list R)
  (tables : list string) (w : World) :
  (forall db, sel db = on_tables tables db (SqlRows (rows db))) ->
  exists r w',
    execute_query (mkStatement name (fun _ => sel)) true w = (Val r, w')
    /\ database w' = database w
    /\ flashes w' = flashes w
    /\ match r with
       | Some l => l = rows (database w)
       | None => raised (new_events w w') = true
       end.
Proof.
  intros Hsel.
  assert (Hbound : bound (denote (mkStatement name (fun _ => sel)) true
                            (database w))).
  { simpl. rewrite Hsel. apply on_tables_bound. intros b. discriminate. }
  destruct (execute_query_fetch_run _ (mkStatement name (fun _ => sel)) w
              Hbound)
    as (r & w' & evs & Hrun & Hdb & Hfl & Htr & _ & Hr & _).
  exists r, w'. split; [exact Hrun |]. split; [exact Hdb |].
  split; [exact Hfl |].
  rewrite (new_events_app _ _ _ Htr).
  destruct r as [l |]; [| exact Hr].
  destruct Hr as [_ Hl]. simpl in Hl. rewrite Hsel in Hl.
  unfold on_tables in Hl. now destruct (forallb _ _).
Qed.


(** X7 (get_all_organisations): the returned sequence is the ORGANISATION
    table sorted ascending by org_name; [None] only on an engine error. *)
Theorem organisations_listed_by_name (w : World) :
  exists r w',
    get_all_organisations w = (Val r, w')
    /\ database w' = database w
    /\ match r with
       | Some rows =>
           StronglySorted (fun a b => str_le (org_name a) (org_name b)) rows
           /\ Permutation (ORGANISATION (database w)) rows
       | None => raised (new_events w w') = true
       end.
Proof.
  destruct (listing_run _ SELECT_ORGANISATIONS sql_select_organisations
              (fun db => order_by (fun a b => str_compare (org_name a) (org_name b))
                                  (ORGANISATION db))
              [T_ORGANISATION] w (fun db => eq_refl))
    as (r & w' & Hrun & Hdb & _ & Hr).
  exists r, w'. split; [exact Hrun |]. split; [exact Hdb |].
  destruct r as [rows |]; [| exact Hr]. subst rows.
  split; [| apply order_by_perm].
  apply (sorted_by _ (fun a b => str_compare (org_name a) (org_name b))).
  apply (comparator_on _ _ org_name), comparator_str.
Qed.

(** X8 (get_all_skills): the returned sequence is the SKILL table sorted
    ascending by (skill_category, skill_name). *)
Theorem skills_listed_by_category (w : World) :
  exists r w',
    get_all_skills w = (Val r, w')
    /\ database w' = database w
    /\ match r with
       | Some rows =>
           StronglySorted (lex_le skill_category skill_name) rows
           /\ Permutation (SKILL (database w)) rows
       | None => raised (new_events w w') = true
       end.
Proof.
  destruct (listing_run _ SELECT_SKILLS sql_select_skills
              (fun db =>
                 order_by
                   (fun a b =>
                      then_by (str_compare (skill_category a) (skill_category b))
                              (str_compare (skill_name a) (skill_name b)))
                   (SKILL db))
              [T_SKILL] w (fun db => eq_refl))
    as (r & w' & Hrun & Hdb & _ & Hr).
  exists r, w'. split; [exact Hrun |]. split; [exact Hdb |].
  destruct r as [rows |]; [| exact Hr]. subst rows.
  split; [| apply order_by_perm].
  eapply StronglySorted_impl;
    [| apply sorted_by;
       apply (comparator_then _
                (fun a b => str_compare (skill_category a) (skill_category b))
                (fun a b => str_compare (skill_name a) (skill_name b)));
       [apply (comparator_on _ _ skill_category), comparator_str
       | apply (comparator_on _ _ skill_name), comparator_str]].
  intros a b H. apply then_by_str_le in H. exact H.
Qed.


End Listings.

Section Lookups.

(** X10 (get_organisation_by_id): the lookup never changes the
    database.  For an id within 64 bits it returns: a row it returns is
    an ORGANISATION row with the requested id, and [None] is returned
    only when the engine raised an error or no row has the id.  For an id
    outside 64 bits no row is returned: the call raises OverflowError,
    the engine having raised nothing, unless it returns [None] for an
    error of the engine. *)
Theorem organisation_lookup (oid : Z) (w : World) :
  exists r w',
    get_organisation_by_id oid w = (r, w')
    /\ database w' = database w
    /\ match r with
       | Val (Some o) =>
           int64 oid = true
           /\ In o (ORGANISATION (database w)) /\ org_id o = oid
       | Val None =>
           raised (new_events w w') = true
           \/ (int64 oid = true
               /\ forall o, In o (ORGANISATION (database w)) ->
                            org_id o <> oid)
       | Raised e =>
           e = BindError OverflowError /\ int64 oid = false
           /\ raised (new_events w w') = false
       end
    /\ (int64 oid = true -> exists x, r = Val x).
Proof.
  destruct (lookup_cases _ SELECT_ORGANISATION_BY_ID
              (sql_select_organisation_by_id oid)
              (fun db => filter (fun o => Z.eqb (org_id o) oid)
                                (ORGANISATION db))
              [T_ORGANISATION] [PInt oid] w (fun db => eq_refl))
    as (r & w' & Hrun & Hdb & _ & Hr).
  exists r, w'. split; [exact Hrun |]. split; [exact Hdb |].
  rewrite bind_key in Hr.
  destruct r as [[o |] | e].
  - split; [| eauto].
    destruct Hr as [Hb [rest Hrows]]. apply filter_head in Hrows.
    destruct Hrows as [Hin Hid]. apply Z.eqb_eq in Hid.
    destruct (int64 oid); [auto | discriminate].
  - split; [| eauto].
    destruct Hr as [Hr | [Hb Hr]]; [now left | right].
    split; [destruct (int64 oid); [reflexivity | discriminate] |].
    intros o Ho Hid. pose proof (filter_nil_none _ _ _ Hr o Ho) as Hf.
    simpl in Hf. rewrite Hid, Z.eqb_refl in Hf. discriminate.
  - destruct Hr as (Hno & b & -> & Hb).
    destruct (int64 oid); [discriminate |]. injection Hb as <-.
    split; [auto | discriminate].
Qed.

(** What [get_event_by_id] does, for every id. *)
Lemma get_event_by_id_cases (eid : Z) (w : World) :
  exists r w',
    get_event_by_id eid w = (r, w')
    /\ database w' = database w
    /\ flashes w' = flashes w
    /\ match r with
       | Val (Some row) =>
           int64 eid = true
           /\ detailed_event (database w) eid row
           /\ ed_event_id row = eid
       | Val None =>
           raised (new_events w w') = true
           \/ (int64 eid = true /\ no_joined_event (database w) eid)
       | Raised e =>
           e = BindError OverflowError /\ int64 eid = false
           /\ raised (new_events w w') = false
       end.
Proof.
  destruct (lookup_cases _ SELECT_EVENT_BY_ID (sql_select_event_by_id eid)
              (fun db =>
                 map event_detail_row
                   (filter (fun r => Z.eqb (event_id (fst r)) eid)
                           (event_join_organisation db)))
              [T_EVENT; T_ORGANISATION] [PInt eid] w (fun db => eq_refl))
    as (r & w' & Hrun & Hdb & Hfl & Hr).
  exists r, w'. split; [exact Hrun |]. split; [exact Hdb |].
  split; [exact Hfl |]. rewrite bind_key in Hr.
  destruct r as [[row |] | e].
  - destruct Hr as [Hb [rest Hrows]].
    split; [destruct (int64 eid); [reflexivity | discriminate] |].
    destruct (filter _ (event_join_organisation (database w)))
      as [| [e o] l] eqn:E; [discriminate |].
    simpl in Hrows. injection Hrows as <- _.
    apply filter_head in E. destruct E as [Hin Hid]. simpl in Hid.
    apply Z.eqb_eq in Hid. apply inner_join_In in Hin.
    destruct Hin as (He & Ho & Hon). apply Z.eqb_eq in Hon.
    split; [| exact Hid]. now exists e, o.
  - destruct Hr as [Hr | [Hb Hr]]; [now left | right].
    split; [destruct (int64 eid); [reflexivity | discriminate] |].
    intros e o He Ho Hon Hid.
    apply map_eq_nil in Hr.
    assert (Hin : In (e, o) (event_join_organisation (database w))).
    { apply inner_join_In. rewrite Hon, Z.eqb_refl. auto. }
    pose proof (filter_nil_none _ _ _ Hr (e, o) Hin) as Hf.
    simpl in Hf. rewrite Hid, Z.eqb_refl in Hf. discriminate.
  - destruct Hr as (Hno & b & -> & Hb).
    destruct (int64 eid); [discriminate |]. injection Hb as <-. auto.
Qed.

(** X11 (get_event_by_id): the lookup never changes the database.  For
    an id within 64 bits it returns: a row it returns describes an event
    with the requested id together with the organisation its org_id
    refers to, and [None] is returned when the engine raised an error or
    when no event with the id has an organisation, so an event whose
    organisation is missing is not found.  For an id outside 64 bits no
    row is returned: the call raises OverflowError, the engine having
    raised nothing, unless it returns [None] for an error of the engine. *)
Theorem event_lookup (eid : Z) (w : World) :
  exists r w',
    get_event_by_id eid w = (r, w')
    /\ database w' = database w
    /\ match r with
       | Val (Some row) =>
           int64 eid = true
           /\ detailed_event (database w) eid row
           /\ ed_event_id row = eid
       | Val None =>
           raised (new_events w w') = true
           \/ (int64 eid = true /\ no_joined_event (database w) eid)
       | Raised e =>
           e = BindError OverflowError /\ int64 eid = false
           /\ raised (new_events w w') = false
       end
    /\ (int64 eid = true -> exists x, r = Val x).
Proof.
  destruct (get_event_by_id_cases eid w) as (r & w' & Hrun & Hdb & _ & Hr).
  exists r, w'. split; [exact Hrun |]. split; [exact Hdb |].
  split; [exact Hr |]. intros Hid.
  destruct r as [x | e]; [now exists x |].
  destruct Hr as (_ & Hno & _). congruence.
Qed.

End Lookups.

(* ================================================================== *)
(** * LIKE and the search by skill *)
(* ================================================================== *)

Section Like.










End Like.

(* ================================================================== *)
(** * The other reporting queries *)
(* ================================================================== *)

Section MoreReports.
Context {P : Platform}.


Section Distinct.
Variable A : Type.
Variable eqb : A -> A -> bool.
Hypothesis eqb_eq : forall a b, eqb a b = true <-> a = b.



End Distinct.





















End MoreReports.


(* ================================================================== *)
(** * The connection test *)
(* ================================================================== *)

Section ConnectionTest.
Context {P : Platform}.

(** X18 (test_database_connection): the test never raises and never
    changes the database; it returns [True] exactly when the engine raised
    no error and each of the seven tables of the application is among the
    tables of the database. *)
Theorem connection_test_checks_tables (w : World) :
  exists b w',
    test_database_connection w = (Val b, w')
    /\ database w' = database w
    /\ (b = true
        <-> raised (new_events w w') = false
            /\ schema_present (database w)).
Proof.
  destruct (test_database_connection_run w)
    as (b & w' & evs & Hrun & Hdb & _ & Htr & Hbad & Hgood).
  exists b, w'. split; [exact Hrun |]. split; [exact Hdb |].
  rewrite (new_events_app _ _ _ Htr).
  assert (Hsub : issubset expected_tables (table_names (database w)) = true
                 <-> schema_present (database w)).
  { unfold issubset, schema_present. rewrite forallb_forall.
    split; intros H t Ht.
    - specialize (H t Ht). apply existsb_exists in H.
      destruct H as (x & Hx & E). apply String.eqb_eq in E. now subst.
    - apply existsb_exists. exists t. split; [now apply H |].
      apply String.eqb_refl. }
  destruct (raised evs) eqn:E.
  - rewrite (Hbad eq_refl). split; [discriminate | intros [H _]; discriminate H].
  - rewrite (Hgood eq_refl), Hsub. tauto.
Qed.

End ConnectionTest.

(* ================================================================== *)
(** * What the handlers store *)
(* ================================================================== *)

Section MoreHandlers.
Context {P : Platform}.

Local Open Scope string_scope.
Local Open Scope list_scope.

Lemma is_empty_false (s : pystr) : s <> [] -> is_empty s = false.
Proof. destruct s; [contradiction | reflexivity]. Qed.

Lemma lstrip_In (c : N) (s : pystr) : In c (lstrip s) -> In c s.
Proof.
  induction s as [| x s IH]; simpl; [trivial |].
  destruct (isspace_char x); [intros H; right; now apply IH | trivial].
Qed.

Lemma strip_In (c : N) (s : pystr) : In c (strip s) -> In c s.
Proof.
  unfold strip, rstrip. intros H. apply in_rev in H.
  apply lstrip_In in H. apply in_rev in H. now apply lstrip_In.
Qed.

Lemma encodable_strip (s : pystr) :
  encodable s = true -> encodable (strip s) = true.
Proof.
  unfold encodable. rewrite !forallb_forall. intros H c Hc.
  apply H. now apply strip_In.
Qed.

Lemma encodable_form_get (form : list (string * pystr)) (key : string) :
  forallb (fun field => encodable (snd field)) form = true ->
  encodable (form_get form key []) = true.
Proof.
  induction form as [| [k v] form IH]; simpl; [reflexivity |].
  intros H. apply andb_true_iff in H. destruct H as [Hv Hrest].
  destruct (String.eqb k key); [exact Hv | now apply IH].
Qed.

(** The text of a form field can be encoded: it was decoded from the
    bytes of the request. *)
Lemma encodable_submitted (req : request) (key : string) :
  encodable (submitted req key) = true.
Proof.
  unfold submitted. apply encodable_strip, encodable_form_get, form_decoded.
Qed.

(** So the INSERT of a submission binds its six parameters. *)
Lemma submission_binds (req : request) (db : Database) :
  bound (sql_insert_volunteer
           (submitted req "first_name") (submitted req "last_name")
           (submitted req "date_of_birth") (submitted req "email")
           (submitted req "phone") (submitted req "address") db).
Proof.
  unfold sql_insert_volunteer. apply on_tables_bound, binding_bound.
  - rewrite !encodable_binds by apply encodable_submitted. reflexivity.
  - intros b. cbv zeta. destruct (volunteer_table_ok _); discriminate.
Qed.

Lemma valid_has_no_errors (fn ln dob em ph ad : pystr) :
  valid_submission fn ln dob em ph ad ->
  volunteer_errors fn ln dob em ph ad = [].
Proof.
  intros (Hfn & Hln & Hdob & Had & Hem & Hph & d & Hd & Hlt).
  assert (Hem' : is_empty em = false) by (destruct em; [discriminate | reflexivity]).
  assert (Hph' : is_empty ph = false) by (destruct ph; [discriminate | reflexivity]).
  unfold volunteer_errors. cbv zeta.
  rewrite (is_empty_false _ Hfn), (is_empty_false _ Hln),
    (is_empty_false _ Hdob), (is_empty_false _ Had), Hem', Hph', Hem, Hph, Hd.
  unfold date_geb. rewrite Hlt. reflexivity.
Qed.

Lemma no_errors_is_valid (fn ln dob em ph ad : pystr) :
  volunteer_errors fn ln dob em ph ad = [] ->
  valid_submission fn ln dob em ph ad.
Proof.
  intros Hnil.
  assert (Hok : ~ invalid_submission fn ln dob em ph ad).
  { intros Hbad. exact (invalid_has_errors _ _ _ _ _ _ Hbad Hnil). }
  unfold invalid_submission in Hok. unfold valid_submission.
  split; [intros H; apply Hok; auto |].
  split; [intros H; apply Hok; auto |].
  split; [intros H; apply Hok; auto |].
  split; [intros H; apply Hok; auto 10 |].
  split; [destruct (validate_email em); [reflexivity | exfalso; apply Hok; auto 10] |].
  split; [destruct (validate_phone ph); [reflexivity | exfalso; apply Hok; auto 10] |].
  destruct (strptime dob) as [d |] eqn:Ed.
  - destruct (date_compare d today) eqn:Ec.
    + exfalso. apply Hok. do 8 right. intros (d' & [= <-] & Hd'). congruence.
    + now exists d.
    + exfalso. apply Hok. do 8 right. intros (d' & [= <-] & Hd'). congruence.
  - exfalso. apply Hok. do 8 right. intros (d' & Hd' & _). discriminate Hd'.
Qed.

(** X19 (new_volunteer, the validation): a submission gets no error
    message exactly when the four required texts are present, the e-mail
    and the phone number pass their validators, and the date of birth is a
    date before today; the emptiness checks of e-mail and phone add
    nothing to the validators. *)
Theorem submission_accepted_iff_valid (fn ln dob em ph ad : pystr) :
  volunteer_errors fn ln dob em ph ad = []
  <-> valid_submission fn ln dob em ph ad.
Proof.
  split; [apply no_errors_is_valid | apply valid_has_no_errors].
Qed.

(** X20 (new_volunteer): the handler always answers; it redirects to the
    volunteer list only after a valid POST whose row was stored under a
    non-zero id, with the one success message; when it renders the form
    the database is unchanged, unless the engine numbered the new row 0,
    which the handler takes for a failure. *)
Theorem new_volunteer_outcome (req : request) (w : World) :
  exists resp w',
    new_volunteer req w = (Val resp, w')
    /\ match resp with
       | redirect endpoint =>
           endpoint = "view_volunteers"
           /\ method req = POST
           /\ valid_submission
                (submitted req "first_name") (submitted req "last_name")
                (submitted req "date_of_birth") (submitted req "email")
                (submitted req "phone") (submitted req "address")
           /\ (exists id,
                  id <> 0%Z
                  /\ VOLUNTEER (database w')
                     = VOLUNTEER (database w) ++ [submitted_volunteer req id])
           /\ only_volunteers_differ (database w) (database w')
           /\ flashed_once
                (lit "Volunteer " ++ submitted req "first_name" ++ lit " "
                 ++ submitted req "last_name"
                 ++ lit " created successfully!") "success" w w'
       | render_template template _ =>
           template = "new_volunteer.html"
           /\ (database w' = database w
               \/ VOLUNTEER (database w')
                  = VOLUNTEER (database w) ++ [submitted_volunteer req 0])
       end.
Proof.
  unfold new_volunteer. destruct (method req) eqn:Hm.
  { exists (render_template "new_volunteer.html" []), w.
    split; [reflexivity |]. split; [reflexivity | now left]. }
  cbv zeta.
  fold (submitted req "first_name") (submitted req "last_name")
       (submitted req "date_of_birth") (submitted req "email")
       (submitted req "phone") (submitted req "address").
  destruct (volunteer_errors _ _ _ _ _ _) as [| e errors] eqn:E.
  - apply no_errors_is_valid in E.
    destruct (create_volunteer_run
                (submitted req "first_name") (submitted req "last_name")
                (submitted req "date_of_birth") (submitted req "email")
                (submitted req "phone") (submitted req "address") w
                (submission_binds req (database w)))
      as (r & w1 & evs & Hrun & Hfl & _ & Hr & _).
    unfold bind. rewrite Hrun.
    destruct r as [id |]; simpl.
    + destruct (create_volunteer_inserts _ _ _ _ _ _ _ _ _ Hrun)
        as [Hv Hothers].
      destruct (Z.eqb_spec id 0) as [-> | Hid]; simpl.
      * eexists _, _. split; [reflexivity |]. split; [reflexivity |].
        right. exact Hv.
      * eexists _, _. split; [reflexivity |]. split; [reflexivity |].
        split; [reflexivity |]. split; [exact E |].
        split; [exists id; split; [exact Hid | exact Hv] |].
        split; [exact Hothers |].
        unfold flashed_once. simpl. now rewrite Hfl.
    + eexists _, _. split; [reflexivity |]. split; [reflexivity |].
      left. simpl. now destruct Hr.
  - destruct (flash_each_run (e :: errors) "error" w) as (w' & Hrun & Hw).
    unfold bind, ret. rewrite Hrun.
    eexists _, _. split; [reflexivity |]. split; [reflexivity |].
    left. now destruct Hw.
Qed.

(** A lookup by key calls the engine for its one SELECT only. *)
Lemma lookup_reads_only (R : Type) (q : statement R) (w w' : World)
  (r : result (option R)) :
  (results <- execute_query q true ;; ret (first_or_none results)) w
  = (r, w') ->
  reads_only (stmt_name q) (new_events w w') /\ flashes w' = flashes w.
Proof.
  intros Hrun.
  destruct (execute_query_fetch_cases _ q w)
    as (r1 & w1 & evs & Hrun1 & _ & Hfl & Htr & Hro & _).
  unfold bind, ret in Hrun. rewrite Hrun1 in Hrun.
  destruct r1; injection Hrun as _ <-;
    rewrite (new_events_app _ _ _ Htr); auto.
Qed.

(** X21 (update_volunteer_contact): a POST whose phone number does not
    pass [validate_phone], the empty one included, never reaches the
    UPDATE: the only call of the engine is the lookup and the database is
    unchanged.  For an id within 64 bits the handler answers: one error
    message is flashed, and the form is rendered again with the volunteer
    and the submitted number, or, the volunteer not found, the answer is
    the redirect.  For an id outside 64 bits the lookup may raise
    OverflowError, which leaves the handler: nothing is flashed then. *)
Theorem invalid_phone_is_not_stored (vid : Z) (req : request) (w : World) :
  method req = POST ->
  validate_phone (submitted req "phone") = false ->
  exists r w',
    update_volunteer_contact vid req w = (r, w')
    /\ database w' = database w
    /\ reads_only SELECT_VOLUNTEER_BY_ID (new_events w w')
    /\ match r with
       | Val resp =>
           exists msg,
             flashed_once msg "error" w w'
             /\ match resp with
                | redirect endpoint =>
                    endpoint = "view_volunteers"
                    /\ msg = lit "Volunteer not found"
                | render_template _ _ =>
                    exists v,
                      In v (VOLUNTEER (database w)) /\ volunteer_id v = vid
                      /\ resp = phone_form v (submitted req "phone")
                      /\ msg = (if is_empty (submitted req "phone")
                                then lit "Phone number is required"
                                else lit "Please enter a valid phone number")
                end
       | Raised e =>
           e = BindError OverflowError /\ int64 vid = false
           /\ flashes w' = flashes w
       end
    /\ (int64 vid = true -> exists resp, r = Val resp).
Proof.
  intros Hpost Hbad.
  destruct (get_volunteer_by_id_cases vid w)
    as (r & w1 & Hrun & Hdb & Hfl & Hr).
  destruct (lookup_reads_only _
              (mkStatement SELECT_VOLUNTEER_BY_ID
                 (fun _ => sql_select_volunteer_by_id vid)) _ _ _ Hrun)
    as [Hro _]. simpl in Hro.
  unfold update_volunteer_contact, bind. rewrite Hrun.
  destruct r as [[v |] | e].
  - rewrite Hpost. cbv zeta. fold (submitted req "phone"). rewrite Hbad.
    destruct Hr as (_ & Hin & Hid).
    destruct (is_empty (submitted req "phone")) eqn:E; simpl.
    + eexists _, _. split; [reflexivity |]. split; [exact Hdb |].
      split; [exact Hro |]. split; [| eauto].
      eexists. split; [unfold flashed_once; simpl; now rewrite Hfl |].
      exists v. auto.
    + eexists _, _. split; [reflexivity |]. split; [exact Hdb |].
      split; [exact Hro |]. split; [| eauto].
      eexists. split; [unfold flashed_once; simpl; now rewrite Hfl |].
      exists v. auto.
  - eexists _, _. split; [reflexivity |]. split; [exact Hdb |].
    split; [exact Hro |]. split; [| eauto].
    eexists. split; [unfold flashed_once; simpl; now rewrite Hfl |].
    split; reflexivity.
  - eexists _, _. split; [reflexivity |]. split; [exact Hdb |].
    split; [exact Hro |]. destruct Hr as (-> & Hno & _).
    split; [auto |]. congruence.
Qed.

(** X22 (update_volunteer_contact): for an id within 64 bits the
    handler answers, for GET and POST; it changes the database only on
    the path that ends in the success message and the redirect: the
    volunteer was found, the request is a POST with a phone number that
    passes [validate_phone], and the volunteers with the id, and only
    they, got the new number.  For an id outside 64 bits the lookup may
    raise OverflowError, which leaves the handler: the database is
    unchanged and nothing is flashed then. *)
Theorem phone_update_outcome (vid : Z) (req : request) (w : World) :
  exists r w',
    update_volunteer_contact vid req w = (r, w')
    /\ match r with
       | Val resp =>
           database w' = database w
           \/ (method req = POST
               /\ validate_phone (submitted req "phone") = true
               /\ resp = redirect "view_volunteers"
               /\ VOLUNTEER (database w')
                  = map (with_phone vid (submitted req "phone"))
                        (VOLUNTEER (database w))
               /\ only_volunteers_differ (database w) (database w')
               /\ exists v,
                    In v (VOLUNTEER (database w)) /\ volunteer_id v = vid
                    /\ flashed_once
                         (lit "Phone number updated successfully for "
                          ++ first_name v ++ lit " " ++ last_name v)
                         "success" w w')
       | Raised e =>
           e = BindError OverflowError /\ int64 vid = false
           /\ database w' = database w /\ flashes w' = flashes w
       end
    /\ (int64 vid = true -> exists resp, r = Val resp).
Proof.
  destruct (get_volunteer_by_id_cases vid w)
    as (r & w1 & Hrun & Hdb & Hfl & Hr).
  unfold update_volunteer_contact, bind. rewrite Hrun.
  destruct r as [[v |] | e].
  3: { eexists _, _. split; [reflexivity |]. destruct Hr as (-> & Hno & _).
       split; [auto |]. congruence. }
  2: { eexists _, _. split; [reflexivity |].
       split; [left; exact Hdb | eauto]. }
  destruct Hr as (Hid64 & Hin & Hid).
  destruct (method req) eqn:Hm;
    [eexists _, _; split; [reflexivity |];
     split; [left; exact Hdb | eauto] |].
  cbv zeta. fold (submitted req "phone").
  destruct (is_empty (submitted req "phone"));
    [eexists _, _; split; [reflexivity |];
     split; [left; exact Hdb | eauto] |].
  destruct (validate_phone (submitted req "phone")) eqn:Hok; simpl;
    [| eexists _, _; split; [reflexivity |];
       split; [left; exact Hdb | eauto]].
  destruct (update_volunteer_phone_result vid (submitted req "phone") w1
              Hid64 (encodable_submitted req "phone"))
    as (n & w2 & Hup & Hfl2 & Hn).
  rewrite Hup.
  destruct n as [n |];
    [| eexists _, _; split; [reflexivity |];
       split; [left; simpl; congruence | eauto]].
  destruct Hn as (Hcount & Hv & Hothers & Hzero).
  destruct (some_rows (Some n)) eqn:Hs.
  - eexists _, _. split; [reflexivity |]. split; [| eauto]. right.
    split; [reflexivity |]. split; [reflexivity |]. split; [reflexivity |].
    simpl. rewrite Hdb in Hv, Hothers.
    split; [exact Hv |]. split; [exact Hothers |].
    exists v. split; [exact Hin |]. split; [exact Hid |].
    unfold flashed_once. simpl. now rewrite Hfl2, Hfl.
  - eexists _, _. split; [reflexivity |]. split; [| eauto]. left. simpl.
    rewrite Hzero; [exact Hdb |].
    unfold some_rows, truthy in Hs.
    destruct (Z.eqb_spec n 0) as [E | Hne]; [exact E |].
    destruct (Z.gtb_spec n 0) as [Hpos | Hneg]; [discriminate Hs | lia].
Qed.

(** What a DELETE that succeeded did: nothing, or it removed every event
    with the id. *)
Lemma sql_delete_event_changed (eid : Z) (fk : bool) (db db' : Database)
  (n id : Z) :
  sql_delete_event eid fk db = SqlChanged n id db' ->
  (n = 0%Z /\ db' = db)
  \/ ((0 < n)%Z
      /\ EVENT db'
         = filter (fun e => negb (Z.eqb (event_id e) eid)) (EVENT db)).
Proof.
  unfold sql_delete_event, on_tables, binding.
  destruct (forallb _ _); [| discriminate].
  destruct (bind_parameters _); [discriminate |]. cbv zeta.
  destruct (Z.eqb_spec
              (Z.of_nat (List.length
                           (filter (fun e => Z.eqb (event_id e) eid)
                                   (EVENT db)))) 0) as [Hzero | Hpos].
  - intros [= <- _ <-]. now left.
  - destruct fk.
    + destruct (on_parent_delete _ _ _ _ _ (VOLUNTEER_EVENT db));
        [| discriminate].
      destruct (on_parent_delete _ _ _ _ _ (EVENT_SKILL db));
        [| discriminate].
      intros [= <- _ <-]. right. split; [lia | reflexivity].
    + intros [= <- _ <-]. right. split; [lia | reflexivity].
Qed.

Lemma delete_event_result (eid : Z) (w : World) :
  int64 eid = true ->
  exists r w',
    delete_event eid w = (Val r, w')
    /\ flashes w' = flashes w
    /\ match r with
       | Some n =>
           (n = 0%Z /\ database w' = database w)
           \/ ((0 < n)%Z
               /\ forall e, In e (EVENT (database w')) -> event_id e <> eid)
       | None => database w' = database w
       end.
Proof.
  intros Hid64. unfold delete_event.
  destruct (execute_query_change_run _
              (mkStatement DELETE_EVENT (sql_delete_event eid)) w
              ltac:(is_bound))
    as (r & w' & evs & Hrun & Hfl & _ & Hr & _).
  exists r, w'. split; [exact Hrun |]. split; [exact Hfl |].
  destruct r as [n |]; [| now destruct Hr].
  destruct Hr as [_ Hsql]. simpl in Hsql.
  destruct (sql_delete_event eid true (database w))
    as [rows | m id db' | err | b] eqn:E; [| | contradiction | contradiction].
  - exfalso. rewrite sql_delete_event_binds in E by assumption.
    unfold on_tables in E.
    repeat match type of E with
           | (if ?c then _ else _) = _ => destruct c
           | match ?c with _ => _ end = _ => destruct c
           end; discriminate.
  - destruct Hsql as [-> ->].
    destruct (sql_delete_event_changed _ _ _ _ _ _ E) as [[-> ->] | [Hpos Hev]].
    + now left.
    + right. split; [exact Hpos |]. intros e He. rewrite Hev in He.
      apply filter_In in He. destruct He as [_ He].
      destruct (Z.eqb_spec (event_id e) eid); [discriminate | assumption].
Qed.

(** X23 (delete_event_route): for an id within 64 bits the handler
    answers, always by the redirect to the event list, and flashes
    exactly one message.  The success message names an event that had the
    id and an organisation, and is flashed only when no event with the id
    is left; with an error message the database is unchanged.  An event
    without an organisation is reported as not found and the DELETE is
    not attempted.  For an id outside 64 bits the lookup may raise
    OverflowError, which leaves the handler: the database is unchanged
    and nothing is flashed then. *)
Theorem delete_route_outcome (eid : Z) (w : World) :
  exists r w',
    delete_event_route eid w = (r, w')
    /\ match r with
       | Val resp =>
           resp = redirect "view_events"
           /\ exists msg category,
                flashed_once msg category w w'
                /\ (category = "success" \/ category = "error")
                /\ (category = "success" ->
                    (exists row,
                        detailed_event (database w) eid row
                        /\ msg = lit "Event " ++ [34%N] ++ ed_event_name row
                                 ++ [34%N] ++ lit " deleted successfully")
                    /\ forall e, In e (EVENT (database w')) ->
                                 event_id e <> eid)
                /\ (category = "error" -> database w' = database w)
                /\ (no_joined_event (database w) eid ->
                    msg = lit "Event not found"
                    /\ reads_only SELECT_EVENT_BY_ID (new_events w w'))
       | Raised e =>
           e = BindError OverflowError /\ int64 eid = false
           /\ database w' = database w /\ flashes w' = flashes w
       end
    /\ (int64 eid = true -> exists resp, r = Val resp).
Proof.
  destruct (get_event_by_id_cases eid w)
    as (r & w1 & Hrun & Hdb & Hfl & Hr).
  destruct (lookup_reads_only _
              (mkStatement SELECT_EVENT_BY_ID
                 (fun _ => sql_select_event_by_id eid)) _ _ _ Hrun)
    as [Hro _]. simpl in Hro.
  unfold delete_event_route, bind. rewrite Hrun.
  destruct r as [[row |] | e].
  - destruct Hr as (Hid64 & Hrow & _).
    destruct (delete_event_result eid w1 Hid64)
      as (n & w2 & Hdel & Hfl2 & Hn).
    rewrite Hdel.
    assert (Hfound : ~ no_joined_event (database w) eid).
    { intros H. destruct Hrow as (e & o & He & Ho & Hon & Hid & _).
      exact (H e o He Ho Hon Hid). }
    destruct (some_rows n) eqn:Hs.
    + eexists _, _. split; [reflexivity |]. split; [| eauto].
      split; [reflexivity |]. eexists _, _.
      split; [unfold flashed_once; simpl; now rewrite Hfl2, Hfl |].
      split; [now left |].
      split; [| split; [discriminate | intros H; contradiction]].
      intros _. split; [now exists row |]. simpl.
      destruct n as [n |]; [| discriminate Hs].
      destruct Hn as [[-> _] | [_ Hgone]]; [discriminate Hs | exact Hgone].
    + eexists _, _. split; [reflexivity |]. split; [| eauto].
      split; [reflexivity |]. eexists _, _.
      split; [unfold flashed_once; simpl; now rewrite Hfl2, Hfl |].
      split; [now right |].
      split; [discriminate |].
      split; [| intros H; contradiction].
      intros _. simpl.
      destruct n as [n |]; [| congruence].
      destruct Hn as [[_ Hsame] | [Hpos _]]; [congruence |].
      exfalso. unfold some_rows, truthy in Hs.
      destruct (Z.eqb_spec n 0) as [E | _]; [lia |].
      destruct (Z.gtb_spec n 0); [discriminate Hs | lia].
  - eexists _, _. split; [reflexivity |]. split; [| eauto].
    split; [reflexivity |]. eexists _, _.
    split; [unfold flashed_once; simpl; now rewrite Hfl |].
    split; [now right |].
    split; [discriminate |].
    split; [intros _; exact Hdb |].
    intros _. split; [reflexivity | exact Hro].
  - eexists _, _. split; [reflexivity |]. destruct Hr as (-> & Hno & _).
    split; [auto |]. congruence.
Qed.



End MoreHandlers.

(** The theorem at the phone number "123" for Ada, volunteer 1. *)
Lemma invalid_phone_is_not_stored_witness :
  exists r w',
    @update_volunteer_contact (Sample.platform NoAction NoAction) 1
      Sample.bad_phone
      (Sample.world Sample.community []) = (r, w')
    /\ database w' = Sample.community
    /\ reads_only SELECT_VOLUNTEER_BY_ID
         (new_events (Sample.world Sample.community []) w')
    /\ match r with
       | Val resp =>
           exists msg,
             flashed_once msg "error" (Sample.world Sample.community []) w'
             /\ match resp with
                | redirect endpoint =>
                    endpoint = "view_volunteers"%string
                    /\ msg = lit "Volunteer not found"
                | render_template _ _ =>
                    exists v,
                      In v [Sample.ada; Sample.ben; Sample.cal]
                      /\ volunteer_id v = 1%Z
                      /\ resp = phone_form v (lit "123")
                      /\ msg = lit "Please enter a valid phone number"
                end
       | Raised e =>
           e = BindError OverflowError /\ int64 1 = false
           /\ flashes w' = []
       end
    /\ (int64 1 = true -> exists resp, r = Val resp).
Proof.
  apply (@invalid_phone_is_not_stored (Sample.platform NoAction NoAction) 1
           Sample.bad_phone
           (Sample.world Sample.community []));
    vm_compute; reflexivity.
Defined.
